(** * PublishAction: the "rush publish" orchestration, embedded and verified

    A shallow embedding of [apps/rush-lib/src/cli/actions/PublishAction.ts].
    The action is a sequential script over external collaborators (the
    version-control client [PublishGit], the registry client [Npm], the
    change ledger [ChangeManager], the file system).  It is embedded as a
    program in a state-and-error monad: the state carries the ordered record
    of the collaborator calls made so far together with the mutable fields of
    the action object, an error is an exception that leaves [run].  The
    collaborators themselves are a parameter (the [World]): it decides what
    every query answers and which calls throw. *)

From Stdlib Require Import ZArith List String Ascii Bool Lia DecimalString.
Import ListNotations.
Open Scope list_scope.
Open Scope string_scope.

(** ** JavaScript values *)

(** A value of type [string | undefined]: [None] is [undefined].  Such a
    value is truthy when it is a string that is not empty; [truthyValue]
    gives that string. *)
Definition truthyValue (v : option string) : option string :=
  match v with
  | Some s => if s =? EmptyString then None else Some s
  | None => None
  end.

Definition truthy (v : option string) : bool :=
  match truthyValue v with
  | Some _ => true
  | None => false
  end.

(** The text a template literal interpolates for a [string | undefined]. *)
Definition interpolate (v : option string) : string :=
  match v with
  | Some s => s
  | None => "undefined"
  end.

(** [a === b] on [string | undefined]. *)
Definition strictEq (a b : option string) : bool :=
  match a, b with
  | Some x, Some y => x =? y
  | None, None => true
  | _, _ => false
  end.

(** [s.substring(s.indexOf(sub))]: [indexOf] answers -1 when [sub] does not
    occur, and [substring] clamps a negative start to 0. *)
Definition substringFromIndexOf (sub s : string) : string :=
  match index 0 sub s with
  | Some i => substring i (String.length s - i) s
  | None => s
  end.

(** [s.replace(/\//g, '-')]. *)
Fixpoint replaceSlashes (s : string) : string :=
  match s with
  | EmptyString => EmptyString
  | String c rest =>
      String (if Ascii.eqb c "/"%char then "-"%char else c) (replaceSlashes rest)
  end.

(** The decimal text of a number, as string concatenation produces it. *)
Definition numberToString (z : Z) : string :=
  NilZero.string_of_int (Z.to_int z).

(** A plain object used as a string-keyed dictionary (the environment handed
    to child processes); assignment replaces an existing key. *)
Definition Env := list (string * string).

Definition env_set (key value : string) (env : Env) : Env :=
  (key, value) :: filter (fun kv => negb (fst kv =? key)) env.

(** ** Data model *)

Module ChangeType.
(** Modelled from the spec: the [ChangeType] enum of [api/ChangeManagement],
    which is not among the sources.  The members are those the data model
    lists, numbered from 0 in that order as a TypeScript numeric enum is. *)
Inductive t := none | dependency | patch | minor | major | hotfix.

Definition value (c : t) : Z :=
  match c with
  | none => 0
  | dependency => 1
  | patch => 2
  | minor => 3
  | major => 4
  | hotfix => 5
  end.

Definition eqb (a b : t) : bool := (value a =? value b)%Z.
End ChangeType.

Module IChangeInfo.
(** The fields of a change record that the action reads; [changeType] and
    [newVersion] are optional properties. *)
Record t := {
  packageName : string;
  changeType : option ChangeType.t;
  newVersion : option string
}.
End IChangeInfo.

Module IPackageJson.
Record t := { version : string }.
End IPackageJson.

Module RushConfigurationProject.
Record t := {
  packageName : string;
  projectFolder : string;
  shouldPublish : bool;
  versionPolicyName : option string;
  packageJson : IPackageJson.t
}.
End RushConfigurationProject.

(** [Map<string, RushConfigurationProject>]: the entries in insertion order,
    which is the order [forEach] visits them in.  A JavaScript [Map] holds a
    key once; [uniqueKeys] says so of a list of entries. *)
Definition ProjectMap := list (string * RushConfigurationProject.t).

Fixpoint Map_get (m : ProjectMap) (key : string) : option RushConfigurationProject.t :=
  match m with
  | [] => None
  | (k, v) :: rest => if k =? key then Some v else Map_get rest key
  end.

Fixpoint uniqueKeys (m : ProjectMap) : bool :=
  match m with
  | [] => true
  | (k, _) :: rest =>
      match Map_get rest k with
      | None => uniqueKeys rest
      | Some _ => false
      end
  end.

Module RushConfiguration.
Record t := {
  projectsByName : ProjectMap;
  changesFolder : string;
  packageManager : string;
  packageManagerToolFilename : string;
  commonTempFolder : string
}.
End RushConfiguration.

(** The values of the command-line parameters ([parameter.value]): a flag is
    a boolean, a string parameter is [string | undefined]. *)
Record Parameters := {
  _addCommitDetails : bool;
  _apply : bool;
  _includeAll : bool;
  _npmAuthToken : option string;
  _npmTag : option string;
  _publish : bool;
  _regenerateChangelogs : bool;
  _registryUrl : option string;
  _targetBranch : option string;
  _prereleaseName : option string;
  _suffix : option string;
  _force : bool;
  _versionPolicy : option string;
  _releaseFolder : option string;
  _pack : bool;
  _releaseType : option string
}.

Module PrereleaseToken.
Record t := { prereleaseName : option string; suffixName : option string }.
End PrereleaseToken.

(** What [JsonFile.load] returns for [config/api-extractor.json], as far as
    the action looks at it: two entries tested for truthiness and three
    folder entries used when truthy. *)
Module ApiConfig.
Record t := {
  generateDtsRollup : bool;
  dtsRollupTrimming : bool;
  publishFolderForInternal : option string;
  publishFolderForPublic : option string;
  publishFolderForBeta : option string
}.
End ApiConfig.

(** ** Calls to the collaborators *)

(** One constructor per call the action makes on a collaborator, with the
    arguments of the call.  An argument left out at the call site is [None].
    [NpmPublishedVersions] also carries the list the registry answered. *)
Inductive Event :=
| ValidatePolicy (bypassPolicy : bool)
| ConsoleLog (message : string)
| RegenerateChangelogs
| NewPrereleaseToken (prereleaseName suffixName : option string)
| ChangeManagerLoad (changesPath : string) (prereleaseToken : option PrereleaseToken.t)
    (includeCommitDetails : bool)
| ChangeManagerApply (shouldCommit : bool)
| ChangeManagerUpdateChangelog (shouldCommit : bool)
| HasUncommittedChanges
| GitCheckout (branchName : option string) (createBranch : option bool)
| GitAddChanges
| GitCommit
| GitPush (branchName : option string)
| GitPull
| GitMerge (branchName : string)
| GitDeleteBranch (branchName : string) (hasRemote : option bool)
| GitAddTag (shouldExecute : bool) (packageName : string) (packageVersion : option string)
| ExecCommand (shouldExecute : bool) (command : string) (args : list string)
    (workingDirectory : string) (env : Env)
| NpmPublishedVersions (packageName packagePath : string) (env : Env)
    (answer : list string)
| FileSystemExists (path : string)
| JsonFileLoad (path : string)
| FileSystemReadFolder (path : string)
| FileSystemCopyFile (sourcePath destinationPath : string)
| FileSystemMove (sourcePath destinationPath : string) (overwrite : bool).

(** The collaborators.  Every oracle that can be consulted more than once
    sees the calls made so far (most recent first), so a registry that
    changes as packages are published, or a call that fails the third time,
    is one of the worlds. *)
Record World := {
  throws : list Event -> Event -> bool;
  getEnvArgs : Env;
  getTime : Z;
  hasChanges : bool;
  changes : list IChangeInfo.t;
  hasUncommittedChanges : bool;
  EOL : string;
  green : string -> string;
  publishedVersions : list Event -> string -> string -> Env -> list string;
  fileExists : list Event -> string -> bool;
  loadApiConfig : list Event -> string -> ApiConfig.t;
  readFolder : list Event -> string -> list string;
  path_join : list string -> string
}.

(** ** The monad of the action *)

(** The mutable part of the action object and the calls made so far, most
    recent first. *)
Record State := {
  history : list Event;
  _hotfixTagOverride : option string;
  _prereleaseToken : option PrereleaseToken.t
}.

Definition initialState : State :=
  {| history := []; _hotfixTagOverride := None; _prereleaseToken := None |}.

(** The calls in the order they were made. *)
Definition trace (s : State) : list Event := rev (history s).

Inductive Error :=
| ConfigurationError (message : string)
| TypeError (message : string)
| Thrown (call : Event).

Inductive Result (A : Type) :=
| Ok (a : A)
| Err (e : Error).
Arguments Ok {A} a.
Arguments Err {A} e.

Definition M (A : Type) : Type := State -> Result A * State.

Definition ret {A} (a : A) : M A := fun s => (Ok a, s).

Definition bind {A B} (m : M A) (k : A -> M B) : M B :=
  fun s =>
    match m s with
    | (Ok a, s') => k a s'
    | (Err e, s') => (Err e, s')
    end.

Definition throw {A} (e : Error) : M A := fun s => (Err e, s).

Declare Scope action_scope.
Delimit Scope action_scope with action.
Notation "x <- m ;; k" := (bind m (fun x => k))
  (at level 61, m at next level, right associativity) : action_scope.
Notation "m ;; k" := (bind m (fun _ => k))
  (at level 61, right associativity) : action_scope.
Open Scope action_scope.

Definition record (e : Event) (s : State) : State :=
  {| history := e :: history s;
     _hotfixTagOverride := _hotfixTagOverride s;
     _prereleaseToken := _prereleaseToken s |}.

Definition set_hotfixTagOverride (v : string) : M unit :=
  fun s => (Ok tt, {| history := history s;
                      _hotfixTagOverride := Some v;
                      _prereleaseToken := _prereleaseToken s |}).

Definition set_prereleaseToken (v : PrereleaseToken.t) : M unit :=
  fun s => (Ok tt, {| history := history s;
                      _hotfixTagOverride := _hotfixTagOverride s;
                      _prereleaseToken := Some v |}).

Definition get_hotfixTagOverride : M (option string) :=
  fun s => (Ok (_hotfixTagOverride s), s).

Definition get_prereleaseToken : M (option PrereleaseToken.t) :=
  fun s => (Ok (_prereleaseToken s), s).

(** [console.log] writes a line and does not fail. *)
Definition console_log (message : string) : M unit :=
  fun s => (Ok tt, record (ConsoleLog message) s).

(** [for (const x of xs) body(x)] and [xs.forEach(body)]. *)
Fixpoint forEach {A} (body : A -> M unit) (xs : list A) : M unit :=
  match xs with
  | [] => ret tt
  | x :: rest => body x ;; forEach body rest
  end.

(** [value!.field]: the non-null assertion is erased by the compiler, so
    reading a property of [undefined] raises a [TypeError]. *)
Definition propertyOf {A} (v : option A) (field : string) : M A :=
  match v with
  | Some a => ret a
  | None => throw (TypeError ("Cannot read property '" ++ field ++ "' of undefined"))
  end.

(** A loop whose body updates a local variable of the enclosing function:
    the variable is threaded through the iterations. *)
Fixpoint forEachWith {A V} (body : V -> A -> M V) (v : V) (xs : list A) : M V :=
  match xs with
  | [] => ret v
  | x :: rest => v' <- body v x ;; forEachWith body v' rest
  end.

(** [change.changeType && change.changeType > ChangeType.dependency]: an
    absent type and the member numbered 0 are falsy. *)
Definition aboveDependency (change : IChangeInfo.t) : bool :=
  match IChangeInfo.changeType change with
  | Some t =>
      negb (ChangeType.value t =? 0)%Z
      && (ChangeType.value t >? ChangeType.value ChangeType.dependency)%Z
  | None => false
  end.

(** [change.changeType === ChangeType.hotfix]. *)
Definition isHotfix (change : IChangeInfo.t) : bool :=
  match IChangeInfo.changeType change with
  | Some t => ChangeType.eqb t ChangeType.hotfix
  | None => false
  end.

Definition when (condition : bool) (m : M unit) : M unit :=
  if condition then m else ret tt.

(** The double-quote character, for messages that quote a value. *)
Definition quote : string := String (ascii_of_nat 34) EmptyString.

(** ** The action *)

Section PublishAction.

Variable world : World.
Variable this : Parameters.
Variable rushConfiguration : RushConfiguration.t.

(** A call on a collaborator: it is recorded, and it throws when the world
    says so. *)
Definition call (e : Event) : M unit :=
  fun s =>
    if throws world (history s) e
    then (Err (Thrown e), record e s)
    else (Ok tt, record e s).

Definition withHistory {A} (k : list Event -> M A) : M A :=
  fun s => k (history s) s.

Definition Npm_publishedVersions (packageName packagePath : string) (env : Env)
  : M (list string) :=
  withHistory (fun h =>
    let answer := publishedVersions world h packageName packagePath env in
    call (NpmPublishedVersions packageName packagePath env answer) ;;
    ret answer).

Definition FileSystem_exists (path : string) : M bool :=
  withHistory (fun h => call (FileSystemExists path) ;; ret (fileExists world h path)).

Definition JsonFile_load (path : string) : M ApiConfig.t :=
  withHistory (fun h => call (JsonFileLoad path) ;; ret (loadApiConfig world h path)).

Definition FileSystem_readFolder (path : string) : M (list string) :=
  withHistory (fun h => call (FileSystemReadFolder path) ;; ret (readFolder world h path)).

Definition VersionControl_hasUncommittedChanges : M bool :=
  call HasUncommittedChanges ;; ret (hasUncommittedChanges world).

(** [_validate]: validate some input parameters. *)
Definition _validate : M unit :=
  when (_pack this && negb (_includeAll this))
    (throw (ConfigurationError "--pack can only be used with --include-all")) ;;
  when (truthy (_releaseFolder this) && negb (_pack this))
    (throw (ConfigurationError "--release-folder can only be used with --pack")) ;;
  when (truthy (_releaseType this) && negb (_pack this))
    (throw (ConfigurationError "--release-type can only be used with --pack")) ;;
  when (truthy (_registryUrl this) && _pack this)
    (throw (ConfigurationError "--registry cannot be used with --pack")).

(** The environment of a registry command: [npm_config_registry] is set
    when a registry URL is given. *)
Definition registryEnv : Env :=
  match truthyValue (_registryUrl this) with
  | Some registryUrl => env_set "npm_config_registry" registryUrl (getEnvArgs world)
  | None => getEnvArgs world
  end.

Definition _packageExists (packageConfig : RushConfigurationProject.t) : M bool :=
  publishedVersions <-
    Npm_publishedVersions (RushConfigurationProject.packageName packageConfig)
      (RushConfigurationProject.projectFolder packageConfig) registryEnv ;;
  ret (existsb
         (String.eqb (IPackageJson.version (RushConfigurationProject.packageJson packageConfig)))
         publishedVersions).

Definition authTokenArgs : list string :=
  let registry :=
    match truthyValue (_registryUrl this) with
    | Some registryUrl => substringFromIndexOf "//" registryUrl
    | None => "//registry.npmjs.org/"
    end in
  match truthyValue (_npmAuthToken this) with
  | Some token => ["--" ++ registry ++ ":_authToken=" ++ token]
  | None => []
  end.

Definition tagArgs (hotfixTagOverride : option string) : list string :=
  match truthyValue (_npmTag this) with
  | Some tag => ["--tag"; tag]
  | None =>
      match truthyValue hotfixTagOverride with
      | Some tag => ["--tag"; tag]
      | None => []
      end
  end.

Definition forceArgs : list string :=
  if _force this then ["--force"] else [].

Definition _npmPublish (packageName packagePath : string) : M unit :=
  project <- propertyOf
    (Map_get (RushConfiguration.projectsByName rushConfiguration) packageName)
    "shouldPublish" ;;
  if RushConfigurationProject.shouldPublish project then
    hotfixTagOverride <- get_hotfixTagOverride ;;
    let args :=
      (["publish"] ++ authTokenArgs ++ tagArgs hotfixTagOverride ++ forceArgs)%list in
    let packageManagerToolFilename :=
      if RushConfiguration.packageManager rushConfiguration =? "yarn"
      then "npm"
      else RushConfiguration.packageManagerToolFilename rushConfiguration in
    call (ExecCommand (_publish this) packageManagerToolFilename args packagePath registryEnv)
  else ret tt.

Definition _calculateTarballName (project : RushConfigurationProject.t) : string :=
  let packageName := RushConfigurationProject.packageName project in
  let name :=
    match packageName with
    | String c rest => if Ascii.eqb c "@"%char then replaceSlashes rest else packageName
    | EmptyString => packageName
    end in
  name ++ "-" ++ IPackageJson.version (RushConfigurationProject.packageJson project) ++ ".tgz".

Definition _updateAPIFile (packageName : string) (project : RushConfigurationProject.t)
  : M unit :=
  let projectFolder := RushConfigurationProject.projectFolder project in
  let apiConfigPath := path_join world [projectFolder; "config"; "api-extractor.json"] in
  configExists <- FileSystem_exists apiConfigPath ;;
  if configExists then
    apiConfig <- JsonFile_load apiConfigPath ;;
    if ApiConfig.generateDtsRollup apiConfig && ApiConfig.dtsRollupTrimming apiConfig then
      let toApiFolder :=
        match truthyValue (ApiConfig.publishFolderForInternal apiConfig) with
        | Some folder => folder
        | None => "./dist"
        end in
      let fromApiFolder :=
        if strictEq (_releaseType this) (Some "public") then
          Some (match truthyValue (ApiConfig.publishFolderForPublic apiConfig) with
                | Some folder => folder
                | None => "./dist/public"
                end)
        else if strictEq (_releaseType this) (Some "beta") then
          Some (match truthyValue (ApiConfig.publishFolderForBeta apiConfig) with
                | Some folder => folder
                | None => "./dist/beta"
                end)
        else None in
      match truthyValue fromApiFolder with
      | Some fromApiFolder =>
          let fromApiFolderPath := path_join world [projectFolder; fromApiFolder] in
          let toApiFolderPath := path_join world [projectFolder; toApiFolder] in
          fromExists <- FileSystem_exists fromApiFolderPath ;;
          if fromExists then
            toExists <- FileSystem_exists toApiFolderPath ;;
            if toExists then
              fileNames <- FileSystem_readFolder fromApiFolderPath ;;
              forEach (fun fileName =>
                call (FileSystemCopyFile (path_join world [fromApiFolderPath; fileName])
                                         (path_join world [toApiFolderPath; fileName])) ;;
                console_log ("Copied file " ++ fileName ++ " from " ++ fromApiFolderPath
                             ++ " to " ++ toApiFolderPath)) fileNames
            else ret tt
          else ret tt
      | None => ret tt
      end
    else ret tt
  else ret tt.

Definition _npmPack (packageName : string) (project : RushConfigurationProject.t)
  : M unit :=
  let args := ["pack"] in
  let env := getEnvArgs world in
  match truthyValue (_releaseType this) with
  | Some releaseType =>
      if negb (releaseType =? "internal") then
        when (negb (releaseType =? "public") && negb (releaseType =? "beta"))
          (throw (ConfigurationError
                    ("Invalid release type " ++ quote ++ releaseType ++ quote))) ;;
        _updateAPIFile packageName project
      else ret tt
  | None => ret tt
  end ;;
  call (ExecCommand (_publish this)
          (RushConfiguration.packageManagerToolFilename rushConfiguration)
          args (RushConfigurationProject.projectFolder project) env) ;;
  if _publish this then
    let tarballName := _calculateTarballName project in
    let tarballPath :=
      path_join world [RushConfigurationProject.projectFolder project; tarballName] in
    let destFolder :=
      match truthyValue (_releaseFolder this) with
      | Some folder => folder
      | None =>
          path_join world [RushConfiguration.commonTempFolder rushConfiguration;
                           "artifacts"; "packages"]
      end in
    call (FileSystemMove tarballPath (path_join world [destFolder; tarballName]) true)
  else ret tt.

(** The flag [git.addTag] receives in both modes. *)
Definition shouldTag : bool := _publish this && negb (truthy (_registryUrl this)).

(** [_gitAddTags]: the tag pass over the ordered changes. *)
Definition addTagForChange (change : IChangeInfo.t) : M unit :=
  if aboveDependency change then
    project <- propertyOf
      (Map_get (RushConfiguration.projectsByName rushConfiguration)
               (IChangeInfo.packageName change))
      "shouldPublish" ;;
    if RushConfigurationProject.shouldPublish project then
      call (GitAddTag shouldTag (IChangeInfo.packageName change)
              (IChangeInfo.newVersion change))
    else ret tt
  else ret tt.

Definition _gitAddTags (orderedChanges : list IChangeInfo.t) : M unit :=
  forEach addTagForChange orderedChanges.

(** The first loop of [_publishChanges]: override the tag parameter if
    there is a hotfix change; the loop stops at the first one. *)
Fixpoint detectHotfix (orderedChanges : list IChangeInfo.t) : M unit :=
  match orderedChanges with
  | [] => ret tt
  | change :: rest =>
      if isHotfix change then set_hotfixTagOverride "hotfix"
      else detectHotfix rest
  end.

(** The body of the second loop: npm publish the things that need
    publishing. *)
Definition publishChange (allPackages : ProjectMap) (change : IChangeInfo.t) : M unit :=
  let packageName := IChangeInfo.packageName change in
  if aboveDependency change then
    match Map_get allPackages packageName with
    | Some project =>
        packageExists <- _packageExists project ;;
        if negb packageExists then
          _npmPublish packageName (RushConfigurationProject.projectFolder project)
        else console_log ("Skip " ++ packageName ++ ". Package exists.")
    | None => console_log ("Skip " ++ packageName ++ ". Failed to find its project.")
    end
  else ret tt.

Definition tempBranch : string := "publish-" ++ numberToString (getTime world).

Definition _publishChanges (allPackages : ProjectMap) : M unit :=
  prereleaseToken <- get_prereleaseToken ;;
  call (ChangeManagerLoad (RushConfiguration.changesFolder rushConfiguration)
          prereleaseToken (_addCommitDetails this)) ;;
  if hasChanges world then
    let orderedChanges := changes world in
    (* Make changes in temp branch. *)
    call (GitCheckout (Some tempBranch) (Some true)) ;;
    (* Make changes to package.json and change logs. *)
    call (ChangeManagerApply (_apply this)) ;;
    call (ChangeManagerUpdateChangelog (_apply this)) ;;
    uncommitted <- VersionControl_hasUncommittedChanges ;;
    if uncommitted then
      (* Stage, commit, and push the changes to remote temp branch. *)
      call GitAddChanges ;;
      call GitCommit ;;
      call (GitPush (Some tempBranch)) ;;
      detectHotfix orderedChanges ;;
      forEach (publishChange allPackages) orderedChanges ;;
      (* Create and push appropriate Git tags. *)
      _gitAddTags orderedChanges ;;
      call (GitPush (Some tempBranch)) ;;
      (* Now merge to target branch. *)
      call (GitCheckout (_targetBranch this) None) ;;
      call GitPull ;;
      call (GitMerge tempBranch) ;;
      call (GitPush (_targetBranch this)) ;;
      call (GitDeleteBranch tempBranch None)
    else
      call (GitCheckout (_targetBranch this) None) ;;
      call (GitDeleteBranch tempBranch (Some false))
  else ret tt.

(** The condition under which [_publishAll] processes a descriptor. *)
Definition qualifies (packageConfig : RushConfigurationProject.t) : bool :=
  RushConfigurationProject.shouldPublish packageConfig
  && (negb (truthy (_versionPolicy this))
      || strictEq (_versionPolicy this)
           (RushConfigurationProject.versionPolicyName packageConfig)).

(** The callback of [allPackages.forEach] in [_publishAll]; [updated] is
    the local variable it assigns. *)
Definition publishAllEntry (updated : bool)
    (entry : string * RushConfigurationProject.t) : M bool :=
  let (packageName, packageConfig) := entry in
  if qualifies packageConfig then
    if _pack this then
      (* packs to tarball instead of publishing to NPM repository *)
      _npmPack packageName packageConfig ;;
      ret updated
    else
      publishIt <-
        (if _force this then ret true
         else packageExists <- _packageExists packageConfig ;;
              ret (negb packageExists)) ;;
      if publishIt then
        (* Publish to npm repository *)
        _npmPublish packageName (RushConfigurationProject.projectFolder packageConfig) ;;
        call (GitAddTag shouldTag packageName
                (Some (IPackageJson.version
                         (RushConfigurationProject.packageJson packageConfig)))) ;;
        ret true
      else
        console_log ("Skip " ++ packageName ++ ". Not updated.") ;;
        ret updated
  else ret updated.

Definition _publishAll (allPackages : ProjectMap) : M unit :=
  console_log ("Rush publish starts with includeAll and version policy "
               ++ interpolate (_versionPolicy this)) ;;
  updated <- forEachWith publishAllEntry false allPackages ;;
  if updated then call (GitPush (_targetBranch this)) else ret tt.

(** [run]: executes the publish action. *)
Definition run : M unit :=
  call (ValidatePolicy false) ;;
  let allPackages := RushConfiguration.projectsByName rushConfiguration in
  if _regenerateChangelogs this then
    console_log "Regenerating changelogs" ;;
    call RegenerateChangelogs
  else
    _validate ;;
    (if _includeAll this then _publishAll allPackages
     else
       call (NewPrereleaseToken (_prereleaseName this) (_suffix this)) ;;
       set_prereleaseToken
         {| PrereleaseToken.prereleaseName := _prereleaseName this;
            PrereleaseToken.suffixName := _suffix this |} ;;
       _publishChanges allPackages) ;;
    console_log (EOL world ++ green world "Rush publish finished successfully.").

End PublishAction.

Open Scope list_scope.

(** ** Classes of calls *)

(** A registry publish command: the package manager run with [publish]. *)
Definition isPublishCommand (e : Event) : bool :=
  match e with
  | ExecCommand _ _ (verb :: _) _ _ => verb =? "publish"
  | _ => false
  end.

(** A pack command: the package manager run with [pack]. *)
Definition isPackCommand (e : Event) : bool :=
  match e with
  | ExecCommand _ _ (verb :: _) _ _ => verb =? "pack"
  | _ => false
  end.

(** A query of the registry's published versions. *)
Definition isRegistryQuery (e : Event) : bool :=
  match e with
  | NpmPublishedVersions _ _ _ _ => true
  | _ => false
  end.

(** A call of [git.addTag], whatever its flag. *)
Definition isAddTag (e : Event) : bool :=
  match e with
  | GitAddTag _ _ _ => true
  | _ => false
  end.

(** Modelled from the spec: [PublishGit] is not among the sources; its
    [addTag(shouldTag, packageName, version)] creates the tag when its first
    argument holds. *)
Definition createsTag (e : Event) : bool :=
  match e with
  | GitAddTag shouldExecute _ _ => shouldExecute
  | _ => false
  end.

Definition isPush (e : Event) : bool :=
  match e with
  | GitPush _ => true
  | _ => false
  end.

(** Any call on the version-control client. *)
Definition isGitCall (e : Event) : bool :=
  match e with
  | GitCheckout _ _ | GitAddChanges | GitCommit | GitPush _ | GitPull
  | GitMerge _ | GitDeleteBranch _ _ | GitAddTag _ _ _ => true
  | _ => false
  end.

(** The calls that change nothing: the policy check and console output. *)
Definition isHarmless (e : Event) : bool :=
  match e with
  | ValidatePolicy _ | ConsoleLog _ => true
  | _ => false
  end.

Definition isConfigurationError (e : Error) : bool :=
  match e with
  | ConfigurationError _ => true
  | _ => false
  end.

(** ** Footprints

    [emits ok okErr m]: whatever the state, [m] only appends calls that
    satisfy [ok] to the history, and an error it ends with satisfies
    [okErr]. *)

Definition emits {A} (ok : Event -> Prop) (okErr : Error -> Prop) (m : M A) : Prop :=
  forall s, exists new,
    history (snd (m s)) = new ++ history s /\
    Forall ok new /\
    (forall e, fst (m s) = Err e -> okErr e).

(** ** Triples

    [triple P m Q E]: from a state that satisfies [P], [m] either returns a
    value [a] in a state that satisfies [Q a], or ends with an error [e] in a
    state that satisfies [E e].  Every run does one or the other, so a
    triple describes all runs, also those an exception cuts short. *)

Definition triple {A} (P : State -> Prop) (m : M A)
    (Q : A -> State -> Prop) (E : Error -> State -> Prop) : Prop :=
  forall s, P s ->
    match m s with
    | (Ok a, s') => Q a s'
    | (Err e, s') => E e s'
    end.

(** ** The vocabulary of the properties

    The predicates on calls, histories and states in which the properties
    of the action are stated; those that depend on the collaborators, the
    parameters or the configuration take them from the section. *)

Section Vocabulary.

Variable world : World.
Variable this : Parameters.
Variable rushConfiguration : RushConfiguration.t.

(** Every call of [git.addTag] passes the flag [shouldTag]. *)
Definition tagFlagOk (e : Event) : Prop :=
  createsTag e = true -> shouldTag this = true.

(** The three calls of a run that regenerates the changelogs. *)
Definition regenerationCalls : list Event :=
  [ValidatePolicy false; ConsoleLog "Regenerating changelogs"; RegenerateChangelogs].



(** Neither a publish command nor a registry query. *)
Definition noRegistryCall (e : Event) : Prop :=
  isPublishCommand e = false /\ isRegistryQuery e = false.

(** The registry query [_packageExists] makes for a descriptor, given the
    calls made so far. *)
Definition registryQuery (h : list Event) (project : RushConfigurationProject.t) : Event :=
  NpmPublishedVersions
    (RushConfigurationProject.packageName project)
    (RushConfigurationProject.projectFolder project)
    (registryEnv world this)
    (publishedVersions world h
       (RushConfigurationProject.packageName project)
       (RushConfigurationProject.projectFolder project)
       (registryEnv world this)).

(** Whether the registry's answer lists the descriptor's current version. *)
Definition answerHasVersion (e : Event) (project : RushConfigurationProject.t) : bool :=
  match e with
  | NpmPublishedVersions _ _ _ answer =>
      existsb
        (String.eqb (IPackageJson.version (RushConfigurationProject.packageJson project)))
        answer
  | _ => false
  end.

(** The publish command [_npmPublish] issues in a state. *)
Definition publishCommand (s : State) (packagePath : string) : Event :=
  ExecCommand (_publish this)
    (if RushConfiguration.packageManager rushConfiguration =? "yarn"
     then "npm"
     else RushConfiguration.packageManagerToolFilename rushConfiguration)
    (["publish"] ++ authTokenArgs this ++ tagArgs this (_hotfixTagOverride s)
     ++ forceArgs this)
    packagePath (registryEnv world this).

(** [eachWithPast P h]: in the history [h] (most recent call first), every
    call [e] satisfies [P past e], where [past] is the history before it. *)
Fixpoint eachWithPast (P : list Event -> Event -> Prop) (h : list Event) : Prop :=
  match h with
  | [] => True
  | e :: past => P past e /\ eachWithPast P past
  end.

(** The folder a command runs in. *)
Definition commandDirectory (e : Event) : string :=
  match e with
  | ExecCommand _ _ _ workingDirectory _ => workingDirectory
  | _ => EmptyString
  end.

(** A publish command [e] issued after the calls [past] is justified by a
    descriptor of the project map: the command runs in its folder, it is
    marked [shouldPublish], and either the force flag is set or the call
    just before the command is the registry query for this descriptor,
    whose answer does not list the descriptor's version. *)
Definition justified (past : list Event) (e : Event) : Prop :=
  isPublishCommand e = true ->
  exists key project,
    In (key, project) (RushConfiguration.projectsByName rushConfiguration) /\
    commandDirectory e = RushConfigurationProject.projectFolder project /\
    RushConfigurationProject.shouldPublish project = true /\
    (_force this = true \/
     exists h,
       past = registryQuery h project :: h /\
       answerHasVersion (registryQuery h project) project = false).

(** Every publish command made so far is justified. *)
Definition allJustified (s : State) : Prop := eachWithPast justified (history s).

(** A registry operation: a publish command or a published-versions query. *)
Definition isRegistryOp (e : Event) : bool := isPublishCommand e || isRegistryQuery e.

(** No call of [git.addTag] has been made. *)
Definition noTags (s : State) : Prop :=
  Forall (fun e => isAddTag e = false) (history s).

(** Before a registry operation there is no call of [git.addTag]. *)
Definition publishedBeforeTagged (s : State) : Prop :=
  eachWithPast
    (fun past e => isRegistryOp e = true -> Forall (fun t => isAddTag t = false) past)
    (history s).

(** How a run may fail: when a registry operation throws, no tag call has
    been made. *)
Definition failsUntagged (err : Error) (s : State) : Prop :=
  publishedBeforeTagged s /\
  (forall c, err = Thrown c -> isRegistryOp c = true -> noTags s).

(** A publish command, and a tag, belongs to a record of the ordered
    change list that ranks above [dependency]. *)
Definition fromLedger (e : Event) : Prop :=
  (isPublishCommand e = true ->
   exists change project,
     In change (changes world) /\ aboveDependency change = true /\
     Map_get (RushConfiguration.projectsByName rushConfiguration)
             (IChangeInfo.packageName change) = Some project /\
     commandDirectory e = RushConfigurationProject.projectFolder project) /\
  (isAddTag e = true ->
   exists change,
     In change (changes world) /\ aboveDependency change = true /\
     e = GitAddTag (shouldTag this) (IChangeInfo.packageName change)
           (IChangeInfo.newVersion change)).

(** The argument list of a command. *)
Definition commandArgs (e : Event) : list string :=
  match e with
  | ExecCommand _ _ args _ _ => args
  | _ => []
  end.

(** The tag of a publish command when the change list has a hotfix: the
    tag parameter when one is given, [hotfix] otherwise. *)
Definition hotfixRunTag (this : Parameters) : string :=
  match truthyValue (_npmTag this) with
  | Some tag => tag
  | None => "hotfix"
  end.

(** The arguments of a publish command in a run whose change list has a
    hotfix. *)
Definition hotfixArgs : list string :=
  ["publish"] ++ authTokenArgs this ++ ["--tag"; hotfixRunTag this] ++ forceArgs this.

(** A publish command carries these arguments. *)
Definition taggedHotfix (e : Event) : Prop :=
  isPublishCommand e = true -> commandArgs e = hotfixArgs.

(** Before the scan for a hotfix, and at the end of the run. *)
Definition publishedAsHotfix (s : State) : Prop := Forall taggedHotfix (history s).

(** From the scan on. *)
Definition overrideSet (s : State) : Prop :=
  publishedAsHotfix s /\ _hotfixTagOverride s = Some "hotfix".

(** The qualification of a descriptor in the words of the specification:
    [shouldPublish] is true and either no version-policy filter was given or
    the filter string equals the descriptor's policy name. *)
Definition qualifies_spec (this : Parameters) (packageConfig : RushConfigurationProject.t)
  : Prop :=
  RushConfigurationProject.shouldPublish packageConfig = true /\
  (truthy (_versionPolicy this) = false \/
   _versionPolicy this = RushConfigurationProject.versionPolicyName packageConfig).

(** The diagnostic of the publish pass for a record without a descriptor. *)
Definition missingProjectLine (change : IChangeInfo.t) : Event :=
  ConsoleLog ("Skip " ++ IChangeInfo.packageName change ++ ". Failed to find its project.")%string.

(** The error of reading [shouldPublish] from [undefined]. *)
Definition undefinedDereference : Error :=
  TypeError "Cannot read property 'shouldPublish' of undefined".

(** An invalid combination of flags, in the words of the specification:
    pack without include-all; release-folder or release-type without pack;
    registry URL combined with pack. *)
Definition invalidCombination (this : Parameters) : bool :=
  (_pack this && negb (_includeAll this))
  || (truthy (_releaseFolder this) && negb (_pack this))
  || (truthy (_releaseType this) && negb (_pack this))
  || (truthy (_registryUrl this) && _pack this).

(** An invalid release-type value: one given that is not [internal],
    [public] or [beta]. *)
Definition invalidReleaseType (this : Parameters) : bool :=
  match truthyValue (_releaseType this) with
  | Some releaseType =>
      negb (releaseType =? "internal")
      && (negb (releaseType =? "public") && negb (releaseType =? "beta"))
  | None => false
  end.

(** The error [_npmPack] raises for it. *)
Definition invalidReleaseTypeError (this : Parameters) : Error :=
  ConfigurationError
    ("Invalid release type " ++ quote ++ interpolate (truthyValue (_releaseType this))
     ++ quote)%string.

(** An exception thrown by a collaborator or a [TypeError]. *)
Definition notConfigurationError (e : Error) : Prop := isConfigurationError e = false.

(** Only the policy check and console output so far. *)
Definition onlyHarmless (s : State) : Prop :=
  Forall (fun e => isHarmless e = true) (history s).

(** A configuration error finds only harmless calls made. *)
Definition reportedFirst (err : Error) (s : State) : Prop :=
  isConfigurationError err = true -> onlyHarmless s.

End Vocabulary.

(** ** A small repository to run the action on *)

Module Demo.

Definition project (name version : string) (publishable : bool)
  : string * RushConfigurationProject.t :=
  (name,
   {| RushConfigurationProject.packageName := name;
      RushConfigurationProject.projectFolder := "/repo/" ++ name;
      RushConfigurationProject.shouldPublish := publishable;
      RushConfigurationProject.versionPolicyName := None;
      RushConfigurationProject.packageJson := {| IPackageJson.version := version |} |}).

Definition configuration (projects : ProjectMap) : RushConfiguration.t :=
  {| RushConfiguration.projectsByName := projects;
     RushConfiguration.changesFolder := "/repo/common/changes";
     RushConfiguration.packageManager := "npm";
     RushConfiguration.packageManagerToolFilename := "/bin/npm";
     RushConfiguration.commonTempFolder := "/repo/common/temp" |}.

(** Two publishable packages and a private one. *)
Definition repository : RushConfiguration.t :=
  configuration [project "a" "1.1.0" true; project "b" "1.0.0" true;
                 project "tools" "0.1.0" false].

Definition change (name : string) (type : ChangeType.t) (version : string)
  : IChangeInfo.t :=
  {| IChangeInfo.packageName := name;
     IChangeInfo.changeType := Some type;
     IChangeInfo.newVersion := Some version |}.

(** A world in which no call throws, the registry has version 1.0.0 of
    every package, and the ledger holds [ledger]. *)
Definition world (ledger : list IChangeInfo.t) (uncommitted : bool) : World :=
  {| throws := fun _ _ => false;
     getEnvArgs := [("PATH", "/bin")];
     getTime := 1500000000000;
     hasChanges := match ledger with [] => false | _ => true end;
     changes := ledger;
     hasUncommittedChanges := uncommitted;
     EOL := String (ascii_of_nat 10) EmptyString;
     green := fun text => text;
     publishedVersions := fun _ _ _ _ => ["1.0.0"];
     fileExists := fun _ _ => false;
     loadApiConfig := fun _ _ =>
       {| ApiConfig.generateDtsRollup := false;
          ApiConfig.dtsRollupTrimming := false;
          ApiConfig.publishFolderForInternal := None;
          ApiConfig.publishFolderForPublic := None;
          ApiConfig.publishFolderForBeta := None |};
     readFolder := fun _ _ => [];
     path_join := String.concat "/" |}.

(** The same world, except that every publish command fails. *)
Definition brokenRegistry (ledger : list IChangeInfo.t) : World :=
  {| throws := fun _ e => isPublishCommand e;
     getEnvArgs := getEnvArgs (world ledger true);
     getTime := getTime (world ledger true);
     hasChanges := hasChanges (world ledger true);
     changes := ledger;
     hasUncommittedChanges := true;
     EOL := EOL (world ledger true);
     green := green (world ledger true);
     publishedVersions := publishedVersions (world ledger true);
     fileExists := fileExists (world ledger true);
     loadApiConfig := loadApiConfig (world ledger true);
     readFolder := readFolder (world ledger true);
     path_join := path_join (world ledger true) |}.

(** [rush publish --apply --publish --target-branch master], with the
    flags that vary between the examples as arguments. *)
Definition parameters (includeAll pack force regenerate : bool)
    (registryUrl releaseType : option string) : Parameters :=
  {| _addCommitDetails := false;
     _apply := true;
     _includeAll := includeAll;
     _npmAuthToken := None;
     _npmTag := None;
     _publish := true;
     _regenerateChangelogs := regenerate;
     _registryUrl := registryUrl;
     _targetBranch := Some "master";
     _prereleaseName := None;
     _suffix := None;
     _force := force;
     _versionPolicy := None;
     _releaseFolder := None;
     _pack := pack;
     _releaseType := releaseType |}.

Definition publishChangesMode : Parameters :=
  parameters false false false false None None.

Definition publishAllMode : Parameters :=
  parameters true false false false None None.

(** A minor bump of [a] and a dependency-only bump of [b]. *)
Definition ledger : list IChangeInfo.t :=
  [change "a" ChangeType.minor "1.1.0"; change "b" ChangeType.dependency "1.0.1"].

End Demo.

(** ** The vocabulary of the further properties *)

(** Whether a string holds the character [c]. *)
Fixpoint hasChar (c : ascii) (s : string) : bool :=
  match s with
  | EmptyString => false
  | String d rest => Ascii.eqb d c || hasChar c rest
  end.

(** A project as far as the tarball name looks at it. *)
Definition projectNamed (name version : string) : RushConfigurationProject.t :=
  {| RushConfigurationProject.packageName := name;
     RushConfigurationProject.projectFolder := EmptyString;
     RushConfigurationProject.shouldPublish := true;
     RushConfigurationProject.versionPolicyName := None;
     RushConfigurationProject.packageJson := {| IPackageJson.version := version |} |}.

(** The program a command runs and the environment it is given. *)
Definition commandTool (e : Event) : string :=
  match e with
  | ExecCommand _ command _ _ _ => command
  | _ => EmptyString
  end.

Definition commandEnv (e : Event) : Env :=
  match e with
  | ExecCommand _ _ _ _ env => env
  | NpmPublishedVersions _ _ env _ => env
  | _ => []
  end.

(** Reading a key of the environment object. *)
Fixpoint env_get (key : string) (env : Env) : option string :=
  match env with
  | [] => None
  | (k, v) :: rest => if k =? key then Some v else env_get key rest
  end.

(** A call that leaves the dry run: a command or a tag call told to execute,
    or the move of a tarball. *)
Definition executes (e : Event) : bool :=
  match e with
  | ExecCommand shouldExecute _ _ _ _ => shouldExecute
  | GitAddTag shouldExecute _ _ => shouldExecute
  | FileSystemMove _ _ _ => true
  | _ => false
  end.

(** The calls on the file system and the configuration file that
    [_updateAPIFile] makes. *)
Definition isApiFileCall (e : Event) : bool :=
  match e with
  | FileSystemExists _ | JsonFileLoad _ | FileSystemReadFolder _
  | FileSystemCopyFile _ _ | ConsoleLog _ => true
  | _ => false
  end.

Definition isCopy (e : Event) : bool :=
  match e with
  | FileSystemCopyFile _ _ => true
  | _ => false
  end.

Definition isReadFolder (e : Event) : bool :=
  match e with
  | FileSystemReadFolder _ => true
  | _ => false
  end.

(** A call of the change ledger that applies changes. *)
Definition isApply (e : Event) : bool :=
  match e with
  | ChangeManagerApply _ | ChangeManagerUpdateChangelog _ => true
  | _ => false
  end.

Definition isCommand (e : Event) : bool :=
  match e with
  | ExecCommand _ _ _ _ _ => true
  | _ => false
  end.

(** A call that works on branches: any call of the version-control client
    other than [addTag]. *)
Definition isBranchCall (e : Event) : bool := isGitCall e && negb (isAddTag e).

(** ** Further runs on the small repository *)

Module Samples.

(** The flags of [Demo.parameters] with the publish flag and the tag and
    token parameters as arguments too. *)
Definition parameters (includeAll pack force publish : bool)
    (registryUrl releaseType npmTag npmAuthToken : option string) : Parameters :=
  {| _addCommitDetails := false;
     _apply := true;
     _includeAll := includeAll;
     _npmAuthToken := npmAuthToken;
     _npmTag := npmTag;
     _publish := publish;
     _regenerateChangelogs := false;
     _registryUrl := registryUrl;
     _targetBranch := Some "master";
     _prereleaseName := None;
     _suffix := None;
     _force := force;
     _versionPolicy := None;
     _releaseFolder := None;
     _pack := pack;
     _releaseType := releaseType |}.

(** [rush publish --include-all], a dry run. *)
Definition dryPublishAll : Parameters :=
  parameters true false false false None None None None.

(** [rush publish --include-all --pack --publish]. *)
Definition packAll : Parameters :=
  parameters true true false true None None None None.

(** [rush publish --include-all --publish --force]. *)
Definition forceAll : Parameters :=
  parameters true false true true None None None None.

(** [rush publish --apply --publish --force]. *)
Definition forceChanges : Parameters :=
  parameters false false true true None None None None.

(** [rush publish --include-all --publish --registry https://registry.example/npm/
    --npm-auth-token secret]. *)
Definition privateRegistry : Parameters :=
  parameters true false false true (Some "https://registry.example/npm/") None None
    (Some "secret").

(** The small repository managed with yarn. *)
Definition yarnRepository : RushConfiguration.t :=
  {| RushConfiguration.projectsByName :=
       RushConfiguration.projectsByName Demo.repository;
     RushConfiguration.changesFolder := "/repo/common/changes";
     RushConfiguration.packageManager := "yarn";
     RushConfiguration.packageManagerToolFilename := "/bin/yarn";
     RushConfiguration.commonTempFolder := "/repo/common/temp" |}.

End Samples.

(** A call that packing may make: no publish command, no registry query, no
    call on the version-control client. *)
Definition awayFromRegistryAndGit (e : Event) : Prop :=
  isPublishCommand e = false /\ isRegistryQuery e = false /\ isGitCall e = false.

Definition onlyPacking (s : State) : Prop := Forall awayFromRegistryAndGit (history s).

(** The calls on branches of a run of [_publishChanges] that commits:
    the changes are committed and pushed on the temporary branch, pushed
    again after tagging, merged into the target branch, which is pushed, and
    the temporary branch is deleted. *)
Definition branchCallsOfChanges (world : World) (this : Parameters) : list Event :=
  [GitCheckout (Some (tempBranch world)) (Some true);
   GitAddChanges;
   GitCommit;
   GitPush (Some (tempBranch world));
   GitPush (Some (tempBranch world));
   GitCheckout (_targetBranch this) None;
   GitPull;
   GitMerge (tempBranch world);
   GitPush (_targetBranch this);
   GitDeleteBranch (tempBranch world) None].

(** The tag call [_publishAll] makes for an entry of the project map. *)
Definition tagOfEntry (this : Parameters) (entry : string * RushConfigurationProject.t)
  : Event :=
  GitAddTag (shouldTag this) (fst entry)
    (Some (IPackageJson.version (RushConfigurationProject.packageJson (snd entry)))).

(** A publish command [e] issued after the calls [past] follows the registry
    query for its descriptor, and the answer does not list the descriptor's
    version: [justified] without the way out through the force flag. *)
Definition queriedFirst (world : World) (this : Parameters)
    (rushConfiguration : RushConfiguration.t) (past : list Event) (e : Event) : Prop :=
  isPublishCommand e = true ->
  exists key project,
    In (key, project) (RushConfiguration.projectsByName rushConfiguration) /\
    commandDirectory e = RushConfigurationProject.projectFolder project /\
    RushConfigurationProject.shouldPublish project = true /\
    exists h,
      past = registryQuery world this h project :: h /\
      answerHasVersion (registryQuery world this h project) project = false.

Definition allQueriedFirst (world : World) (this : Parameters)
    (rushConfiguration : RushConfiguration.t) (s : State) : Prop :=
  eachWithPast (queriedFirst world this rushConfiguration) (history s).

(** The arguments of a publish command when no hotfix override is in force:
    the tag parameter, if given, is the only tag. *)
Definition plainPublishArgs (this : Parameters) : list string :=
  ["publish"] ++ authTokenArgs this
  ++ match truthyValue (_npmTag this) with
     | Some tag => ["--tag"; tag]
     | None => []
     end
  ++ forceArgs this.

(** No override has been set and every publish command so far carries the
    plain arguments. *)
Definition neverOverridden (this : Parameters) (s : State) : Prop :=
  Forall (fun e => isPublishCommand e = true -> commandArgs e = plainPublishArgs this)
         (history s) /\
  _hotfixTagOverride s = None.

(** The folders [_updateAPIFile] copies between, as the configuration file
    and the release type give them. *)
Definition apiTargetFolder (config : ApiConfig.t) : string :=
  match truthyValue (ApiConfig.publishFolderForInternal config) with
  | Some folder => folder
  | None => "./dist"
  end.

Definition apiSourceFolder (this : Parameters) (config : ApiConfig.t) : string :=
  if strictEq (_releaseType this) (Some "public") then
    match truthyValue (ApiConfig.publishFolderForPublic config) with
    | Some folder => folder
    | None => "./dist/public"
    end
  else
    match truthyValue (ApiConfig.publishFolderForBeta config) with
    | Some folder => folder
    | None => "./dist/beta"
    end.

(** The copy of one file and the line printed for it. *)
Definition copyCalls (world : World) (fromPath toPath fileName : string) : list Event :=
  [FileSystemCopyFile (path_join world [fromPath; fileName])
                      (path_join world [toPath; fileName]);
   ConsoleLog ("Copied file " ++ fileName ++ " from " ++ fromPath ++ " to " ++ toPath)%string].

(** The calls of [_updateAPIFile] that finds the configuration file and both
    folders and copies the files [fileNames]. *)
Definition apiFileCalls (world : World) (this : Parameters)
    (project : RushConfigurationProject.t) (config : ApiConfig.t)
    (fileNames : list string) : list Event :=
  let projectFolder := RushConfigurationProject.projectFolder project in
  let apiConfigPath := path_join world [projectFolder; "config"; "api-extractor.json"] in
  let fromPath := path_join world [projectFolder; apiSourceFolder this config] in
  let toPath := path_join world [projectFolder; apiTargetFolder config] in
  [FileSystemExists apiConfigPath; JsonFileLoad apiConfigPath;
   FileSystemExists fromPath; FileSystemExists toPath; FileSystemReadFolder fromPath]
  ++ flat_map (copyCalls world fromPath toPath) fileNames.

Module ApiSamples.

(** A configuration file that turns on the rollup and its trimming and names
    no folder. *)
Definition trimming : ApiConfig.t :=
  {| ApiConfig.generateDtsRollup := true;
     ApiConfig.dtsRollupTrimming := true;
     ApiConfig.publishFolderForInternal := None;
     ApiConfig.publishFolderForPublic := None;
     ApiConfig.publishFolderForBeta := None |}.

(** A world in which every path exists, every project has this
    configuration file and every folder holds the two declaration files. *)
Definition world : World :=
  {| throws := fun _ _ => false;
     getEnvArgs := [("PATH", "/bin")];
     getTime := 1500000000000;
     hasChanges := false;
     changes := [];
     hasUncommittedChanges := false;
     EOL := String (ascii_of_nat 10) EmptyString;
     green := fun text => text;
     publishedVersions := fun _ _ _ _ => ["1.0.0"];
     fileExists := fun _ _ => true;
     loadApiConfig := fun _ _ => trimming;
     readFolder := fun _ _ => ["index.d.ts"; "types.d.ts"];
     path_join := String.concat "/" |}.

(** [rush publish --include-all --pack --release-type beta], a dry run. *)
Definition dryBetaPack : Parameters :=
  Samples.parameters true true false false None (Some "beta") None None.

End ApiSamples.

(** The folder tarballs are released into: the release folder given, or the
    packages folder under the common temporary folder. *)
Definition releaseFolderOf (world : World) (this : Parameters)
    (rushConfiguration : RushConfiguration.t) : string :=
  match truthyValue (_releaseFolder this) with
  | Some folder => folder
  | None =>
      path_join world [RushConfiguration.commonTempFolder rushConfiguration;
                       "artifacts"; "packages"]
  end.

(** A move [e] made after the calls [past] moves the tarball of a project
    from its folder into the release folder, overwriting, and the call just
    before it is the pack command, told to execute, in that folder. *)
Definition movedAfterPack (world : World) (this : Parameters)
    (rushConfiguration : RushConfiguration.t) (past : list Event) (e : Event) : Prop :=
  match e with
  | FileSystemMove sourcePath destinationPath overwrite =>
      exists project h,
        past = ExecCommand true
                 (RushConfiguration.packageManagerToolFilename rushConfiguration)
                 ["pack"] (RushConfigurationProject.projectFolder project)
                 (getEnvArgs world) :: h /\
        sourcePath = path_join world [RushConfigurationProject.projectFolder project;
                                      _calculateTarballName project] /\
        destinationPath = path_join world [releaseFolderOf world this rushConfiguration;
                                           _calculateTarballName project] /\
        overwrite = true
  | _ => True
  end.

Definition allMovedAfterPack (world : World) (this : Parameters)
    (rushConfiguration : RushConfiguration.t) (s : State) : Prop :=
  eachWithPast (movedAfterPack world this rushConfiguration) (history s).

(** ** The calls of a run, in order *)

(** The state after the calls [calls], made in this order. *)
Definition recordAll (calls : list Event) (s : State) : State :=
  fold_left (fun s e => record e s) calls s.

(** The last line of a run that returns. *)
Definition successLine (world : World) : Event :=
  ConsoleLog (EOL world ++ green world "Rush publish finished successfully.")%string.

(** The diagnostic of the publish pass for a record whose version the
    registry lists. *)
Definition packageExistsLine (change : IChangeInfo.t) : Event :=
  ConsoleLog ("Skip " ++ IChangeInfo.packageName change ++ ". Package exists.")%string.

(** The diagnostic of publish-all for a descriptor whose version the
    registry lists. *)
Definition notUpdatedLine (packageName : string) : Event :=
  ConsoleLog ("Skip " ++ packageName ++ ". Not updated.")%string.

Section CallsInOrder.

Variable world : World.
Variable this : Parameters.
Variable rushConfiguration : RushConfiguration.t.

(** What the publish pass does for one record, in the state [s]: nothing for
    a record that does not rank above [dependency]; for one that does, the
    "Failed to find its project" line when its package name has no
    descriptor; otherwise the registry query for the descriptor, followed by
    the "Package exists" line when the answer lists the descriptor's
    version, by the publish command when it does not and the descriptor is
    marked [shouldPublish], and by nothing when it does not and the
    descriptor is not so marked. *)
Definition publishPassFor (s : State) (change : IChangeInfo.t) : list Event :=
  if aboveDependency change then
    match Map_get (RushConfiguration.projectsByName rushConfiguration)
                  (IChangeInfo.packageName change) with
    | None => [missingProjectLine change]
    | Some project =>
        let query := registryQuery world this (history s) project in
        if answerHasVersion query project then [query; packageExistsLine change]
        else if RushConfigurationProject.shouldPublish project then
          [query;
           publishCommand world this rushConfiguration s
             (RushConfigurationProject.projectFolder project)]
        else [query]
    end
  else [].

(** The publish pass over the ordered change list, record by record. *)
Fixpoint publishPass (s : State) (orderedChanges : list IChangeInfo.t) : list Event :=
  match orderedChanges with
  | [] => []
  | change :: rest =>
      publishPassFor s change
      ++ publishPass (recordAll (publishPassFor s change) s) rest
  end.

(** What the tag pass does for one record whose descriptor exists: the tag
    call for a record that ranks above [dependency] and whose descriptor is
    marked [shouldPublish]. *)
Definition tagPassFor (change : IChangeInfo.t) : list Event :=
  if aboveDependency change then
    match Map_get (RushConfiguration.projectsByName rushConfiguration)
                  (IChangeInfo.packageName change) with
    | Some project =>
        if RushConfigurationProject.shouldPublish project then
          [GitAddTag (shouldTag this) (IChangeInfo.packageName change)
             (IChangeInfo.newVersion change)]
        else []
    | None => []
    end
  else [].

(** The tag pass over the ordered change list. *)
Definition tagPass (orderedChanges : list IChangeInfo.t) : list Event :=
  flat_map tagPassFor orderedChanges.

(** The calls of a publish-changes run up to the first push of the temporary
    branch. *)
Definition changesOpening : list Event :=
  [ValidatePolicy false;
   NewPrereleaseToken (_prereleaseName this) (_suffix this);
   ChangeManagerLoad (RushConfiguration.changesFolder rushConfiguration)
     (Some {| PrereleaseToken.prereleaseName := _prereleaseName this;
              PrereleaseToken.suffixName := _suffix this |})
     (_addCommitDetails this);
   GitCheckout (Some (tempBranch world)) (Some true);
   ChangeManagerApply (_apply this);
   ChangeManagerUpdateChangelog (_apply this);
   HasUncommittedChanges;
   GitAddChanges;
   GitCommit;
   GitPush (Some (tempBranch world))].

(** The calls of a publish-changes run from the second push of the temporary
    branch on. *)
Definition changesClosing : list Event :=
  [GitPush (Some (tempBranch world));
   GitCheckout (_targetBranch this) None;
   GitPull;
   GitMerge (tempBranch world);
   GitPush (_targetBranch this);
   GitDeleteBranch (tempBranch world) None;
   successLine world].

(** The state in which the publish pass starts: the opening calls made, the
    prerelease token set, the change list scanned for a hotfix. *)
Definition afterScan : State :=
  {| history := rev changesOpening;
     _hotfixTagOverride :=
       if existsb isHotfix (changes world) then Some "hotfix" else None;
     _prereleaseToken :=
       Some {| PrereleaseToken.prereleaseName := _prereleaseName this;
               PrereleaseToken.suffixName := _suffix this |} |}.

(** The calls of a publish-all run before the iteration. *)
Definition publishAllOpening : list Event :=
  [ValidatePolicy false;
   ConsoleLog ("Rush publish starts with includeAll and version policy "
               ++ interpolate (_versionPolicy this))%string].

(** What publish-all without [--pack] does for one entry of the project map,
    in the state [s]: nothing for a descriptor that does not qualify; for one
    that does, with the force flag the publish command and the tag call;
    without it the registry query, followed by the "Not updated" line when
    the answer lists the descriptor's version and by the publish command and
    the tag call when it does not. *)
Definition publishAllFor (s : State) (entry : string * RushConfigurationProject.t)
  : list Event :=
  if qualifies this (snd entry) then
    let publish :=
      [publishCommand world this rushConfiguration s
         (RushConfigurationProject.projectFolder (snd entry));
       tagOfEntry this entry] in
    if _force this then publish
    else
      let query := registryQuery world this (history s) (snd entry) in
      if answerHasVersion query (snd entry) then [query; notUpdatedLine (fst entry)]
      else query :: publish
  else [].

(** The iteration of publish-all over the project map, entry by entry. *)
Fixpoint publishAllPass (s : State) (entries : ProjectMap) : list Event :=
  match entries with
  | [] => []
  | entry :: rest =>
      publishAllFor s entry ++ publishAllPass (recordAll (publishAllFor s entry) s) rest
  end.

(** The folders of the descriptors that qualify, in the order of the map. *)
Definition qualifyingFolders (entries : ProjectMap) : list string :=
  map (fun entry => RushConfigurationProject.projectFolder (snd entry))
      (filter (fun entry => qualifies this (snd entry)) entries).

(** The pack commands so far ran in the folders [folders], in this order,
    and nothing has been pushed. *)
Definition packedSoFar (folders : list string) (s : State) : Prop :=
  map commandDirectory (filter isPackCommand (trace s)) = folders /\
  filter isPush (trace s) = [].

End CallsInOrder.

(** A call of one of the two passes of publish-changes, as far as it names
    its record: the registry is asked about a package in a folder, or a tag
    is made for a package and a version. *)
Inductive PassCall :=
| Asked (packageName projectFolder : string)
| Tagged (shouldExecute : bool) (packageName : string) (packageVersion : option string).

Definition passCall (e : Event) : list PassCall :=
  match e with
  | NpmPublishedVersions packageName packagePath _ _ => [Asked packageName packagePath]
  | GitAddTag shouldExecute packageName packageVersion =>
      [Tagged shouldExecute packageName packageVersion]
  | _ => []
  end.

(** The question the publish pass asks for a record: one for every record
    that ranks above [dependency] and has a descriptor. *)
Definition askedFor (rushConfiguration : RushConfiguration.t) (change : IChangeInfo.t)
  : list PassCall :=
  if aboveDependency change then
    match Map_get (RushConfiguration.projectsByName rushConfiguration)
                  (IChangeInfo.packageName change) with
    | Some project =>
        [Asked (RushConfigurationProject.packageName project)
               (RushConfigurationProject.projectFolder project)]
    | None => []
    end
  else [].

(** The tag the tag pass makes for a record: one for every record that
    ranks above [dependency] and whose descriptor is marked [shouldPublish]. *)
Definition taggedFor (this : Parameters) (rushConfiguration : RushConfiguration.t)
    (change : IChangeInfo.t) : list PassCall :=
  if aboveDependency change then
    match Map_get (RushConfiguration.projectsByName rushConfiguration)
                  (IChangeInfo.packageName change) with
    | Some project =>
        if RushConfigurationProject.shouldPublish project then
          [Tagged (shouldTag this) (IChangeInfo.packageName change)
                  (IChangeInfo.newVersion change)]
        else []
    | None => []
    end
  else [].

(** A patch of [tools], the private package of the small repository. *)
Definition privateLedger : list IChangeInfo.t :=
  [Demo.change "tools" ChangeType.patch "0.1.1"].

Section FootprintRules.

Variable world : World.
Variable ok : Event -> Prop.
Variable okErr : Error -> Prop.

Lemma emits_ret {A} (a : A) : emits ok okErr (ret a).
Proof.
  intros s. exists []. simpl. repeat split; auto. discriminate.
Qed.

Lemma emits_throw {A} (e : Error) : okErr e -> emits ok okErr (@throw A e).
Proof.
  intros He s. exists []. simpl. repeat split; auto.
  intros e' [= <-]. exact He.
Qed.

Lemma emits_bind {A B} (m : M A) (k : A -> M B) :
  emits ok okErr m -> (forall a, emits ok okErr (k a)) -> emits ok okErr (bind m k).
Proof.
  intros Hm Hk s. destruct (Hm s) as (n1 & H1 & F1 & E1).
  unfold bind. destruct (m s) as [[a | e] s1]; simpl in *.
  - destruct (Hk a s1) as (n2 & H2 & F2 & E2).
    exists (n2 ++ n1). rewrite H2, H1, app_assoc.
    split; [reflexivity | split; [apply Forall_app; auto | exact E2]].
  - exists n1. repeat split; auto.
    intros e' [= <-]. now apply E1.
Qed.

Lemma emits_call (e : Event) :
  ok e -> okErr (Thrown e) -> emits ok okErr (call world e).
Proof.
  intros He Ht s. exists [e]. unfold call.
  destruct (throws world (history s) e); simpl; repeat split; auto.
  - intros e' [= <-]. exact Ht.
  - discriminate.
Qed.

Lemma emits_console_log (message : string) :
  ok (ConsoleLog message) -> emits ok okErr (console_log message).
Proof.
  intros He s. exists [ConsoleLog message]. simpl. repeat split; auto. discriminate.
Qed.

Lemma emits_set_hotfixTagOverride (v : string) : emits ok okErr (set_hotfixTagOverride v).
Proof.
  intros s. exists []. simpl. repeat split; auto. discriminate.
Qed.

Lemma emits_set_prereleaseToken (v : PrereleaseToken.t) :
  emits ok okErr (set_prereleaseToken v).
Proof.
  intros s. exists []. simpl. repeat split; auto. discriminate.
Qed.

Lemma emits_get_hotfixTagOverride : emits ok okErr get_hotfixTagOverride.
Proof.
  intros s. exists []. simpl. repeat split; auto. discriminate.
Qed.

Lemma emits_get_prereleaseToken : emits ok okErr get_prereleaseToken.
Proof.
  intros s. exists []. simpl. repeat split; auto. discriminate.
Qed.

Lemma emits_withHistory {A} (k : list Event -> M A) :
  (forall h, emits ok okErr (k h)) -> emits ok okErr (withHistory k).
Proof.
  intros Hk s. exact (Hk (history s) s).
Qed.

Lemma emits_propertyOf {A} (v : option A) (field : string) :
  (forall message, okErr (TypeError message)) -> emits ok okErr (propertyOf v field).
Proof.
  intros Ht. destruct v; simpl.
  - apply emits_ret.
  - apply emits_throw, Ht.
Qed.

Lemma emits_when (condition : bool) (m : M unit) :
  (condition = true -> emits ok okErr m) -> emits ok okErr (when condition m).
Proof.
  intros Hm. destruct condition; simpl.
  - auto.
  - apply emits_ret.
Qed.

Lemma emits_forEach {A} (body : A -> M unit) (xs : list A) :
  (forall x, In x xs -> emits ok okErr (body x)) -> emits ok okErr (forEach body xs).
Proof.
  induction xs as [| x rest IH]; intros Hbody; simpl.
  - apply emits_ret.
  - apply emits_bind.
    + apply Hbody. now left.
    + intros _. apply IH. intros y Hy. apply Hbody. now right.
Qed.

Lemma emits_forEachWith {A V} (body : V -> A -> M V) (xs : list A) :
  (forall v x, In x xs -> emits ok okErr (body v x)) ->
  forall v, emits ok okErr (forEachWith body v xs).
Proof.
  induction xs as [| x rest IH]; intros Hbody v; simpl.
  - apply emits_ret.
  - apply emits_bind.
    + apply Hbody. now left.
    + intros v'. apply IH. intros w y Hy. apply Hbody. now right.
Qed.

End FootprintRules.

Lemma emits_weaken {A} (ok ok' : Event -> Prop) (okErr okErr' : Error -> Prop) (m : M A) :
  (forall e, ok e -> ok' e) -> (forall e, okErr e -> okErr' e) ->
  emits ok okErr m -> emits ok' okErr' m.
Proof.
  intros Hok Herr Hm s. destruct (Hm s) as (new & H & F & E).
  exists new. repeat split; auto.
  eapply Forall_impl; eauto.
Qed.

Lemma emits_ext {A} (ok : Event -> Prop) (okErr : Error -> Prop) (m m' : M A) :
  (forall s, m s = m' s) -> emits ok okErr m' -> emits ok okErr m.
Proof.
  intros Heq Hm s. rewrite Heq. exact (Hm s).
Qed.

(** What a footprint says of one run. *)
Lemma emits_run {A} (ok : Event -> Prop) (okErr : Error -> Prop) (m : M A) s r s' :
  emits ok okErr m -> m s = (r, s') ->
  exists new, history s' = new ++ history s /\ Forall ok new /\
              (forall e, r = Err e -> okErr e).
Proof.
  intros Hm Hrun. destruct (Hm s) as (new & H & F & E).
  rewrite Hrun in *. simpl in *. eauto.
Qed.

(** ** Rules for triples *)

Section TripleRules.

Variable world : World.
Context {A : Type}.
Variable P : State -> Prop.
Variable Q : A -> State -> Prop.
Variable E : Error -> State -> Prop.

Lemma triple_ret (a : A) : (forall s, P s -> Q a s) -> triple P (ret a) Q E.
Proof. intros H s Hs. simpl. auto. Qed.

Lemma triple_throw (e : Error) : (forall s, P s -> E e s) -> triple P (@throw A e) Q E.
Proof. intros H s Hs. simpl. auto. Qed.

Lemma triple_bind {B} (R : B -> State -> Prop) (m : M B) (k : B -> M A) :
  triple P m R E -> (forall b, triple (R b) (k b) Q E) -> triple P (bind m k) Q E.
Proof.
  intros Hm Hk s Hs. specialize (Hm s Hs). unfold bind.
  destruct (m s) as [[b | e] s1]; auto.
  exact (Hk b s1 Hm).
Qed.

Lemma triple_withHistory (k : list Event -> M A) :
  (forall h, triple (fun s => P s /\ history s = h) (k h) Q E) ->
  triple P (withHistory k) Q E.
Proof. intros H s Hs. exact (H (history s) s (conj Hs eq_refl)). Qed.

Lemma triple_propertyOf (v : option A) (field : string) :
  (forall a, v = Some a -> forall s, P s -> Q a s) ->
  (v = None -> forall message s, P s -> E (TypeError message) s) ->
  triple P (propertyOf v field) Q E.
Proof.
  intros Hsome Hnone. destruct v; simpl.
  - apply triple_ret. auto.
  - apply triple_throw. auto.
Qed.

Lemma triple_conseq (P' : State -> Prop) (Q' : A -> State -> Prop)
    (E' : Error -> State -> Prop) (m : M A) :
  (forall s, P s -> P' s) ->
  (forall a s, Q' a s -> Q a s) ->
  (forall e s, E' e s -> E e s) ->
  triple P' m Q' E' -> triple P m Q E.
Proof.
  intros HP HQ HE Hm s Hs. specialize (Hm s (HP s Hs)).
  destruct (m s) as [[a | e] s']; auto.
Qed.

End TripleRules.

Section TripleUnitRules.

Variable world : World.
Variable P : State -> Prop.
Variable Q : unit -> State -> Prop.
Variable E : Error -> State -> Prop.

Lemma triple_call (e : Event) :
  (forall s, P s -> throws world (history s) e = false -> Q tt (record e s)) ->
  (forall s, P s -> throws world (history s) e = true -> E (Thrown e) (record e s)) ->
  triple P (call world e) Q E.
Proof.
  intros Hok Herr s Hs. unfold call.
  destruct (throws world (history s) e) eqn:T; auto.
Qed.

Lemma triple_console_log (message : string) :
  (forall s, P s -> Q tt (record (ConsoleLog message) s)) ->
  triple P (console_log message) Q E.
Proof. intros H s Hs. simpl. auto. Qed.

Lemma triple_when (condition : bool) (m : M unit) :
  (condition = true -> triple P m Q E) ->
  (condition = false -> forall s, P s -> Q tt s) ->
  triple P (when condition m) Q E.
Proof.
  intros Ht Hf. destruct condition; simpl.
  - auto.
  - apply triple_ret. auto.
Qed.

End TripleUnitRules.

(** A loop keeps what each of its iterations keeps. *)
Lemma triple_forEach {A} (I : State -> Prop) (E : Error -> State -> Prop)
    (body : A -> M unit) (xs : list A) :
  (forall x, In x xs -> triple I (body x) (fun _ => I) E) ->
  triple I (forEach body xs) (fun _ => I) E.
Proof.
  induction xs as [| x rest IH]; intros Hbody; simpl.
  - apply triple_ret. auto.
  - eapply triple_bind.
    + apply Hbody. now left.
    + intros []. apply IH. intros y Hy. apply Hbody. now right.
Qed.

Lemma triple_forEachWith {A V} (I : V -> State -> Prop) (E : Error -> State -> Prop)
    (body : V -> A -> M V) (xs : list A) :
  (forall v x, In x xs -> triple (I v) (body v x) I E) ->
  forall v, triple (I v) (forEachWith body v xs) I E.
Proof.
  induction xs as [| x rest IH]; intros Hbody v; simpl.
  - apply triple_ret. auto.
  - eapply triple_bind.
    + apply Hbody. now left.
    + intros v'. apply IH. intros w y Hy. apply Hbody. now right.
Qed.

(** A footprint gives a triple for every property of the history that the
    calls of the footprint keep. *)
Lemma emits_triple {A} (ok : Event -> Prop) (okErr : Error -> Prop) (m : M A)
    (H : list Event -> Prop) :
  emits ok okErr m ->
  (forall e h, ok e -> H h -> H (e :: h)) ->
  triple (fun s => H (history s)) m
         (fun _ s => H (history s)) (fun e s => H (history s) /\ okErr e).
Proof.
  intros Hm Hstep s Hs. destruct (Hm s) as (new & Hh & F & Herr).
  assert (Hnew : H (new ++ history s)).
  { clear Hh Herr. induction F; simpl; auto. }
  destruct (m s) as [[a | e] s']; simpl in *; rewrite Hh; auto.
Qed.

(** What a triple says of one run. *)
Lemma triple_run {A} P (m : M A) Q E s r s' :
  triple P m Q E -> P s -> m s = (r, s') ->
  match r with Ok a => Q a s' | Err e => E e s' end.
Proof.
  intros Hm Hs Hrun. specialize (Hm s Hs). rewrite Hrun in Hm. exact Hm.
Qed.

(** ** Proof automation *)

Create HintDb action.
#[global] Hint Unfold run _validate _publishChanges _publishAll publishAllEntry
  publishChange _gitAddTags addTagForChange _npmPublish _npmPack _updateAPIFile
  _packageExists Npm_publishedVersions FileSystem_exists JsonFile_load
  FileSystem_readFolder VersionControl_hasUncommittedChanges : action.

Lemma emits_detectHotfix ok okErr (orderedChanges : list IChangeInfo.t) :
  emits ok okErr (detectHotfix orderedChanges).
Proof.
  induction orderedChanges as [| change rest IH]; simpl.
  - apply emits_ret.
  - destruct (isHotfix change); [apply emits_set_hotfixTagOverride | exact IH].
Qed.

(** A query whose answer does not depend on the history: the continuation
    runs on the answer. *)
Lemma emits_bind_answer {A B C} ok okErr (m : M A) (answer : B) (k : B -> M C) :
  emits ok okErr m -> emits ok okErr (k answer) ->
  emits ok okErr (bind (bind m (fun _ => ret answer)) k).
Proof.
  intros Hm Hk s.
  destruct (emits_bind ok okErr m (fun _ => k answer) Hm (fun _ => Hk) s)
    as (new & Hh & F & Herr).
  exists new. unfold bind in *. destruct (m s) as [[a | e] s1]; simpl in *; auto.
Qed.

(** One syntax-directed step of a footprint proof; [side] settles the
    conditions on the calls and errors met. *)
Ltac emits_step side :=
  lazymatch goal with
  | |- emits _ _ (bind (bind _ (fun _ => ret _)) _) =>
      first [ apply emits_bind_answer; cbv beta | apply emits_bind; [ | intros ? ] ]
  | |- emits _ _ (bind _ _) => apply emits_bind; [ | intros ? ]
  | |- emits _ _ (ret _) => apply emits_ret
  | |- emits _ _ (throw _) => apply emits_throw; side
  | |- emits _ _ (call _ _) => apply emits_call; side
  | |- emits _ _ (console_log _) => apply emits_console_log; side
  | |- emits _ _ (set_hotfixTagOverride _) => apply emits_set_hotfixTagOverride
  | |- emits _ _ (set_prereleaseToken _) => apply emits_set_prereleaseToken
  | |- emits _ _ get_hotfixTagOverride => apply emits_get_hotfixTagOverride
  | |- emits _ _ get_prereleaseToken => apply emits_get_prereleaseToken
  | |- emits _ _ (withHistory _) => apply emits_withHistory; intros ?
  | |- emits _ _ (propertyOf _ _) => apply emits_propertyOf; side
  | |- emits _ _ (when _ _) => apply emits_when; intros ?
  | |- emits _ _ (forEach _ _) => apply emits_forEach; intros ? ?
  | |- emits _ _ (forEachWith _ _ _) => apply emits_forEachWith; intros ? ? ?
  | |- emits _ _ (detectHotfix _) => apply emits_detectHotfix
  | |- emits _ _ (match ?x with _ => _ end) => destruct x eqn:?
  | |- emits _ _ (let _ := _ in _) => cbv zeta
  end.

Ltac emits_auto side :=
  autounfold with action; repeat first [ discriminate | emits_step side ].

(** The same, with a tactic [absurd] that closes the branches the
    hypotheses at hand exclude. *)
Ltac emits_auto_excluding absurd side :=
  autounfold with action; repeat first [ discriminate | absurd | emits_step side ].

Lemma emits_initial {A} (ok : Event -> Prop) (okErr : Error -> Prop) (m : M A) :
  emits ok okErr m ->
  Forall ok (trace (snd (m initialState))) /\
  (forall e, fst (m initialState) = Err e -> okErr e).
Proof.
  intros Hm. destruct (Hm initialState) as (new & Hh & F & Herr).
  split; [| exact Herr].
  unfold trace. rewrite Hh. simpl. rewrite app_nil_r.
  apply Forall_rev. exact F.
Qed.

Lemma shouldTag_true (this : Parameters) :
  shouldTag this = true -> _publish this = true /\ truthy (_registryUrl this) = false.
Proof.
  unfold shouldTag. intros H. apply andb_prop in H. destruct H as [Hp Hr].
  split; [exact Hp |]. now apply negb_true_iff in Hr.
Qed.

(** ** Tags *)

Section Tags.

Variable world : World.
Variable this : Parameters.
Variable rushConfiguration : RushConfiguration.t.

Lemma run_emits_tagFlagOk :
  emits (tagFlagOk this) (fun _ => True) (run world this rushConfiguration).
Proof.
  emits_auto ltac:(unfold tagFlagOk; simpl; auto; try discriminate).
Qed.

End Tags.

(** C2.  In both run modes, and whether the run completes or an exception
    cuts it short, a call that creates a version-control tag is only made
    when the publish flag is set and no custom registry URL is configured:
    with a registry URL no tag is created, whatever the publish flag. *)
Theorem tag_only_with_publish_and_default_registry
    (world : World) (this : Parameters) (rushConfiguration : RushConfiguration.t)
    (e : Event) :
  In e (trace (snd (run world this rushConfiguration initialState))) ->
  createsTag e = true ->
  _publish this = true /\ truthy (_registryUrl this) = false.
Proof.
  intros Hin Htag.
  destruct (emits_initial _ _ _ (run_emits_tagFlagOk world this rushConfiguration))
    as [Hall _].
  rewrite Forall_forall in Hall.
  apply shouldTag_true. exact (Hall e Hin Htag).
Qed.


(** In publish-all mode on the small repository, [a] is published and tagged. *)
Lemma tag_only_with_publish_and_default_registry_witness :
  _publish Demo.publishAllMode = true /\
  truthy (_registryUrl Demo.publishAllMode) = false.
Proof.
  apply (tag_only_with_publish_and_default_registry
           (Demo.world [] false) Demo.publishAllMode Demo.repository
           (GitAddTag true "a" (Some "1.1.0"))).
  - vm_compute. tauto.
  - reflexivity.
Defined.

(** ** Regenerating changelogs *)

(** C10.  When the regenerate-changelogs flag is set, whatever the other
    flags: the run never ends with a configuration error; the only calls it
    makes are the policy check, the console line and the regeneration, so no
    publish, pack or version-control call; and when neither the policy check
    nor the regeneration throws, it makes exactly these three calls and
    returns. *)
Theorem regenerate_changelogs_returns_immediately
    (world : World) (this : Parameters) (rushConfiguration : RushConfiguration.t) :
  _regenerateChangelogs this = true ->
  let outcome := run world this rushConfiguration initialState in
  (forall e, fst outcome = Err e -> isConfigurationError e = false) /\
  (exists n, trace (snd outcome) = firstn n regenerationCalls) /\
  Forall (fun e => isPublishCommand e = false /\ isPackCommand e = false /\
                   isGitCall e = false /\ isRegistryQuery e = false)
         (trace (snd outcome)) /\
  (throws world [] (ValidatePolicy false) = false ->
   throws world [ConsoleLog "Regenerating changelogs"; ValidatePolicy false]
     RegenerateChangelogs = false ->
   fst outcome = Ok tt /\ trace (snd outcome) = regenerationCalls).
Proof.
  intros Hregen. unfold run. rewrite Hregen.
  unfold bind, call, console_log. simpl.
  destruct (throws world [] (ValidatePolicy false)); simpl.
  - split; [intros e [= <-]; reflexivity |].
    split; [exists 1%nat; reflexivity |].
    split; [repeat constructor |].
    discriminate.
  - destruct (throws world _ RegenerateChangelogs); simpl.
    + split; [intros e [= <-]; reflexivity |].
      split; [exists 3%nat; reflexivity |].
      split; [repeat constructor |].
      discriminate.
    + split; [discriminate |].
      split; [exists 3%nat; reflexivity |].
      split; [repeat constructor |].
      intros _ _. split; reflexivity.
Qed.

(** [rush publish --regenerate-changelogs --pack] without [--include-all]:
    the combination is not validated, the changelogs are regenerated. *)
Lemma regenerate_changelogs_returns_immediately_witness :
  fst (run (Demo.world Demo.ledger true)
           (Demo.parameters false true false true None None)
           Demo.repository initialState) = Ok tt /\
  trace (snd (run (Demo.world Demo.ledger true)
                  (Demo.parameters false true false true None None)
                  Demo.repository initialState)) = regenerationCalls.
Proof.
  apply (regenerate_changelogs_returns_immediately
           (Demo.world Demo.ledger true)
           (Demo.parameters false true false true None None)
           Demo.repository eq_refl); reflexivity.
Defined.

(** ** Publish changes: nothing to commit *)

Section NothingToCommit.

Variable world : World.
Variable this : Parameters.
Variable rushConfiguration : RushConfiguration.t.
Hypothesis changesMode : _includeAll this = false.
Hypothesis clean : hasUncommittedChanges world = false.


End NothingToCommit.



(** ** Publish changes: the publish pass *)

(** The change types that rank above [dependency]. *)
Lemma aboveDependency_spec (change : IChangeInfo.t) :
  aboveDependency change = true <->
  exists t, IChangeInfo.changeType change = Some t /\
            (ChangeType.value t > ChangeType.value ChangeType.dependency)%Z.
Proof.
  unfold aboveDependency. destruct (IChangeInfo.changeType change) as [t |].
  - split.
    + intros H. exists t. split; [reflexivity |]. destruct t; simpl in *; (discriminate || lia).
    + intros (t' & [= <-] & Ht). destruct t; simpl in *; (reflexivity || lia).
  - split; [discriminate | intros (t & Ht & _); discriminate].
Qed.

Section PublishPass.

Variable world : World.
Variable this : Parameters.
Variable rushConfiguration : RushConfiguration.t.

Lemma run_emits_noRegistryCall :
  _includeAll this = false ->
  (forall change, In change (changes world) -> aboveDependency change = false) ->
  emits noRegistryCall (fun _ => True) (run world this rushConfiguration).
Proof.
  intros Hmode Hlow. unfold run. rewrite Hmode.
  emits_auto_excluding
    ltac:(idtac;
          match goal with
          | Hin : In ?c (changes world), Habove : aboveDependency ?c = true |- _ =>
              rewrite (Hlow c Hin) in Habove; discriminate
          end)
    ltac:(unfold noRegistryCall; simpl; auto).
Qed.

End PublishPass.

(** ** Properties of a call and of the calls made before it *)

Lemma eachWithPast_split P h newer e past :
  eachWithPast P h -> h = newer ++ e :: past -> P past e.
Proof.
  revert h. induction newer as [| n newer IH]; intros h Hall ->; simpl in Hall.
  - tauto.
  - destruct Hall as [_ Hrest]. exact (IH _ Hrest eq_refl).
Qed.

(** The same, read off the trace. *)
Lemma eachWithPast_trace P s before e after :
  eachWithPast P (history s) -> trace s = before ++ e :: after -> P (rev before) e.
Proof.
  intros Hall Htrace. unfold trace in Htrace.
  apply (eachWithPast_split P (history s) (rev after) e (rev before) Hall).
  rewrite <- (rev_involutive (history s)), Htrace.
  rewrite rev_app_distr. simpl. rewrite <- app_assoc. reflexivity.
Qed.

Lemma Map_get_In (m : ProjectMap) (key : string) (project : RushConfigurationProject.t) :
  Map_get m key = Some project -> In (key, project) m.
Proof.
  induction m as [| [k v] rest IH]; simpl; [discriminate |].
  destruct (k =? key) eqn:Hk.
  - intros [= <-]. apply String.eqb_eq in Hk. subst. now left.
  - intros H. right. auto.
Qed.

Lemma Map_get_unique (m : ProjectMap) (key : string) (project : RushConfigurationProject.t) :
  uniqueKeys m = true -> In (key, project) m -> Map_get m key = Some project.
Proof.
  induction m as [| [k v] rest IH]; simpl; [tauto |].
  destruct (Map_get rest k) eqn:Hk; [discriminate |].
  intros Hu [[= -> ->] | Hin].
  - now rewrite String.eqb_refl.
  - destruct (k =? key) eqn:Heq.
    + apply String.eqb_eq in Heq. subst. rewrite (IH Hu Hin) in Hk. discriminate.
    + auto.
Qed.

(** ** Triples that keep an invariant *)

Lemma triple_keep_bind {A B} (I : State -> Prop) (Q : A -> State -> Prop)
    (E : Error -> State -> Prop) (m : M B) (k : B -> M A) :
  triple I m (fun _ => I) E -> (forall b, triple I (k b) Q E) -> triple I (bind m k) Q E.
Proof. intros Hm Hk. eapply triple_bind; eauto. Qed.

Lemma triple_keep_answer {A B C} (I : State -> Prop) (Q : C -> State -> Prop)
    (E : Error -> State -> Prop) (m : M A) (answer : B) (k : B -> M C) :
  triple I m (fun _ => I) E -> triple I (k answer) Q E ->
  triple I (bind (bind m (fun _ => ret answer)) k) Q E.
Proof.
  intros Hm Hk s Hs. specialize (Hm s Hs). unfold bind, ret.
  destruct (m s) as [[a | e] s1]; auto.
  exact (Hk s1 Hm).
Qed.

Lemma triple_keep_withHistory {A} (P : State -> Prop) (Q : A -> State -> Prop)
    (E : Error -> State -> Prop) (k : list Event -> M A) :
  (forall h, triple P (k h) Q E) -> triple P (withHistory k) Q E.
Proof. intros H s Hs. exact (H (history s) s Hs). Qed.

Lemma triple_set_hotfixTagOverride P Q E (v : string) :
  (forall s, P s ->
     Q tt {| history := history s; _hotfixTagOverride := Some v;
             _prereleaseToken := _prereleaseToken s |}) ->
  triple P (set_hotfixTagOverride v) Q E.
Proof. intros H s Hs. simpl. auto. Qed.

Lemma triple_set_prereleaseToken P Q E (v : PrereleaseToken.t) :
  (forall s, P s ->
     Q tt {| history := history s; _hotfixTagOverride := _hotfixTagOverride s;
             _prereleaseToken := Some v |}) ->
  triple P (set_prereleaseToken v) Q E.
Proof. intros H s Hs. simpl. auto. Qed.

Lemma triple_get_hotfixTagOverride P Q E :
  (forall s, P s -> Q (_hotfixTagOverride s) s) -> triple P get_hotfixTagOverride Q E.
Proof. intros H s Hs. simpl. auto. Qed.

Lemma triple_get_prereleaseToken P Q E :
  (forall s, P s -> Q (_prereleaseToken s) s) -> triple P get_prereleaseToken Q E.
Proof. intros H s Hs. simpl. auto. Qed.

Lemma detectHotfix_keeps (I : State -> Prop) (E : Error -> State -> Prop)
    (orderedChanges : list IChangeInfo.t) :
  (forall s v, I s ->
     I {| history := history s; _hotfixTagOverride := Some v;
          _prereleaseToken := _prereleaseToken s |}) ->
  triple I (detectHotfix orderedChanges) (fun _ => I) E.
Proof.
  intros Hset. induction orderedChanges as [| change rest IH]; simpl.
  - apply triple_ret. auto.
  - destruct (isHotfix change); [| exact IH].
    apply triple_set_hotfixTagOverride. auto.
Qed.

(** One syntax-directed step of the proof that a program keeps an
    invariant; [side] settles the conditions on the calls and errors met. *)
Ltac keep_step side :=
  lazymatch goal with
  | |- triple _ (bind (bind _ (fun _ => ret _)) _) _ _ =>
      first [ apply triple_keep_answer; cbv beta
            | apply triple_keep_bind; [ | intros ? ] ]
  | |- triple _ (bind _ _) _ _ => apply triple_keep_bind; [ | intros ? ]
  | |- triple _ (ret _) _ _ => apply triple_ret; side
  | |- triple _ (throw _) _ _ => apply triple_throw; side
  | |- triple _ (call _ _) _ _ => apply triple_call; side
  | |- triple _ (console_log _) _ _ => apply triple_console_log; side
  | |- triple _ (set_hotfixTagOverride _) _ _ => apply triple_set_hotfixTagOverride; side
  | |- triple _ (set_prereleaseToken _) _ _ => apply triple_set_prereleaseToken; side
  | |- triple _ get_hotfixTagOverride _ _ => apply triple_get_hotfixTagOverride; side
  | |- triple _ get_prereleaseToken _ _ => apply triple_get_prereleaseToken; side
  | |- triple _ (withHistory _) _ _ => apply triple_keep_withHistory; intros ?
  | |- triple _ (propertyOf _ _) _ _ => apply triple_propertyOf; side
  | |- triple _ (when _ _) _ _ => apply triple_when; [ intros ? | side ]
  | |- triple _ (forEach _ _) _ _ => apply triple_forEach; intros ? ?
  | |- triple ?I (forEachWith _ _ _) _ _ =>
      apply (triple_forEachWith (fun _ => I)); intros ? ? ?
  | |- triple _ (match ?x with _ => _ end) _ _ => destruct x eqn:?
  | |- triple _ (let _ := _ in _) _ _ => cbv zeta
  end.

Ltac keep_auto known side :=
  repeat first [ discriminate | known | keep_step side ].

(** ** What the registry operations compute *)

Section RegistryOperations.

Variable world : World.
Variable this : Parameters.
Variable rushConfiguration : RushConfiguration.t.

Lemma _packageExists_cases (project : RushConfigurationProject.t) (s : State) :
  _packageExists world this project s =
    (if throws world (history s) (registryQuery world this (history s) project)
     then Err (Thrown (registryQuery world this (history s) project))
     else Ok (answerHasVersion (registryQuery world this (history s) project) project),
     record (registryQuery world this (history s) project) s).
Proof.
  unfold _packageExists, Npm_publishedVersions, withHistory, bind, call, ret.
  fold (registryQuery world this (history s) project).
  destruct (throws world (history s) _); reflexivity.
Qed.

Lemma _npmPublish_cases (packageName packagePath : string) (s : State) :
  _npmPublish world this rushConfiguration packageName packagePath s =
    match Map_get (RushConfiguration.projectsByName rushConfiguration) packageName with
    | None => (Err (TypeError "Cannot read property 'shouldPublish' of undefined"), s)
    | Some project =>
        if RushConfigurationProject.shouldPublish project
        then call world (publishCommand world this rushConfiguration s packagePath) s
        else (Ok tt, s)
    end.
Proof.
  unfold _npmPublish, bind.
  destruct (Map_get _ packageName) as [project |]; simpl; [| reflexivity].
  destruct (RushConfigurationProject.shouldPublish project); reflexivity.
Qed.

Lemma call_cases (e : Event) (s : State) :
  call world e s =
    (if throws world (history s) e then Err (Thrown e) else Ok tt, record e s).
Proof. unfold call. destruct (throws world (history s) e); reflexivity. Qed.

End RegistryOperations.

(** ** A publish command is justified *)

Section PublishJustified.

Variable world : World.
Variable this : Parameters.
Variable rushConfiguration : RushConfiguration.t.

Lemma allJustified_record (e : Event) (s : State) :
  isPublishCommand e = false -> (allJustified world this rushConfiguration) s -> (allJustified world this rushConfiguration) (record e s).
Proof.
  intros He Hs. split; [| exact Hs].
  intros Hp. simpl in Hp. congruence.
Qed.

Ltac quiet :=
  intros;
  repeat match goal with
         | H : _ /\ _ |- _ => destruct H
         end;
  try (apply allJustified_record; [reflexivity | ]); auto.

Lemma _npmPack_justified packageName project :
  triple (allJustified world this rushConfiguration) (_npmPack world this rushConfiguration packageName project)
         (fun _ => (allJustified world this rushConfiguration)) (fun _ => (allJustified world this rushConfiguration)).
Proof.
  autounfold with action. keep_auto fail quiet.
Qed.

Lemma publishChange_justified (change : IChangeInfo.t) :
  triple (allJustified world this rushConfiguration)
    (publishChange world this rushConfiguration
       (RushConfiguration.projectsByName rushConfiguration) change)
    (fun _ => (allJustified world this rushConfiguration)) (fun _ => (allJustified world this rushConfiguration)).
Proof.
  unfold publishChange.
  destruct (aboveDependency change); [| apply triple_ret; auto].
  destruct (Map_get _ (IChangeInfo.packageName change)) as [project |] eqn:Hget;
    [| apply triple_console_log; quiet].
  intros s Hs. unfold bind. rewrite _packageExists_cases.
  set (query := registryQuery world this (history s) project).
  assert (Hq : (allJustified world this rushConfiguration) (record query s)) by (apply allJustified_record; auto).
  destruct (throws world (history s) query); [exact Hq |].
  destruct (answerHasVersion query project) eqn:Hlisted; cbn [negb].
  - simpl. apply allJustified_record; auto.
  - rewrite _npmPublish_cases, Hget.
    destruct (RushConfigurationProject.shouldPublish project) eqn:Hpublishable;
      [| exact Hq].
    rewrite call_cases.
    assert (Hc : (allJustified world this rushConfiguration)
                   (record (publishCommand world this rushConfiguration (record query s)
                              (RushConfigurationProject.projectFolder project))
                           (record query s))).
    { split; [| exact Hq]. intros _.
      exists (IChangeInfo.packageName change), project.
      split; [apply Map_get_In; exact Hget |].
      split; [reflexivity |]. split; [exact Hpublishable |].
      right. exists (history s). split; [reflexivity | exact Hlisted]. }
    destruct (throws world _ _); exact Hc.
Qed.

Lemma publishAllEntry_justified (updated : bool) (entry : string * RushConfigurationProject.t) :
  In entry (RushConfiguration.projectsByName rushConfiguration) ->
  triple (allJustified world this rushConfiguration) (publishAllEntry world this rushConfiguration updated entry)
         (fun _ => (allJustified world this rushConfiguration)) (fun _ => (allJustified world this rushConfiguration)).
Proof.
  destruct entry as [packageName packageConfig]. intros Hin.
  unfold publishAllEntry.
  destruct (qualifies this packageConfig) eqn:Hqualifies; [| apply triple_ret; auto].
  assert (Hpublishable : RushConfigurationProject.shouldPublish packageConfig = true).
  { unfold qualifies in Hqualifies. now apply andb_prop in Hqualifies. }
  destruct (_pack this).
  { apply triple_keep_bind; [apply _npmPack_justified | intros; apply triple_ret; auto]. }
  eapply triple_bind with
    (R := fun publishIt s =>
            (allJustified world this rushConfiguration) s /\
            (publishIt = true ->
             _force this = true \/
             exists h, history s = registryQuery world this h packageConfig :: h /\
                       answerHasVersion (registryQuery world this h packageConfig)
                         packageConfig = false)).
  - (* force, or else the registry query *)
    destruct (_force this) eqn:Hforce.
    + apply triple_ret. auto.
    + intros s Hs. unfold bind. rewrite _packageExists_cases.
      set (query := registryQuery world this (history s) packageConfig).
      assert (Hq : (allJustified world this rushConfiguration) (record query s)) by (apply allJustified_record; auto).
      destruct (throws world (history s) query); [exact Hq |].
      simpl. split; [exact Hq |].
      intros Hfresh. right. exists (history s). split; [reflexivity |].
      now apply negb_true_iff in Hfresh.
  - intros [|].
    + (* publish, then tag *)
      intros s [Hs Hwhy]. specialize (Hwhy eq_refl).
      unfold bind. rewrite _npmPublish_cases.
      destruct (Map_get _ packageName) as [project |]; [| exact Hs].
      assert (Hc : (allJustified world this rushConfiguration)
                     (record (publishCommand world this rushConfiguration s
                                (RushConfigurationProject.projectFolder packageConfig)) s)).
      { split; [| exact Hs]. intros _. exists packageName, packageConfig. auto. }
      destruct (RushConfigurationProject.shouldPublish project).
      * rewrite call_cases. destruct (throws world (history s) _); [exact Hc |].
        rewrite call_cases. destruct (throws world _ _); simpl;
          apply allJustified_record; auto.
      * rewrite call_cases. destruct (throws world _ _); simpl;
          apply allJustified_record; auto.
    + (* skip *)
      intros s [Hs _]. simpl. apply allJustified_record; auto.
Qed.

Lemma run_justified :
  triple (allJustified world this rushConfiguration) (run world this rushConfiguration)
         (fun _ => (allJustified world this rushConfiguration)) (fun _ => (allJustified world this rushConfiguration)).
Proof.
  unfold run, _validate, _publishChanges, _publishAll, _gitAddTags, addTagForChange,
    VersionControl_hasUncommittedChanges.
  keep_auto
    ltac:(first [ apply publishChange_justified
                | apply publishAllEntry_justified; assumption
                | apply detectHotfix_keeps; quiet ])
    quiet.
Qed.

End PublishJustified.

Lemma answerHasVersion_false (world : World) (this : Parameters) (h : list Event)
    (project : RushConfigurationProject.t) :
  answerHasVersion (registryQuery world this h project) project = false ->
  ~ In (IPackageJson.version (RushConfigurationProject.packageJson project))
       (publishedVersions world h
          (RushConfigurationProject.packageName project)
          (RushConfigurationProject.projectFolder project)
          (registryEnv world this)).
Proof.
  unfold registryQuery, answerHasVersion. intros Hnone Hin.
  assert (Hsome : existsb
            (String.eqb (IPackageJson.version (RushConfigurationProject.packageJson project)))
            (publishedVersions world h
               (RushConfigurationProject.packageName project)
               (RushConfigurationProject.projectFolder project)
               (registryEnv world this)) = true).
  { apply existsb_exists. eexists. split; [exact Hin | apply String.eqb_refl]. }
  congruence.
Qed.

(** C1.  In every run mode and for every project map, a registry publish
    command is only issued for a package whose descriptor has [shouldPublish]
    set and for which either the force flag is set or the registry's list of
    published versions, asked for just before the command, does not contain
    the descriptor's current version.  The command is tied to the descriptor
    by the folder it runs in; the statement covers the runs an exception cuts
    short as well. *)
Theorem publish_requires_shouldPublish_and_new_version
    (world : World) (this : Parameters) (rushConfiguration : RushConfiguration.t)
    (before after : list Event) (e : Event) :
  trace (snd (run world this rushConfiguration initialState)) = before ++ e :: after ->
  isPublishCommand e = true ->
  exists key project,
    In (key, project) (RushConfiguration.projectsByName rushConfiguration) /\
    commandDirectory e = RushConfigurationProject.projectFolder project /\
    RushConfigurationProject.shouldPublish project = true /\
    (_force this = true \/
     exists earlier,
       before = earlier ++ [registryQuery world this (rev earlier) project] /\
       ~ In (IPackageJson.version (RushConfigurationProject.packageJson project))
            (publishedVersions world (rev earlier)
               (RushConfigurationProject.packageName project)
               (RushConfigurationProject.projectFolder project)
               (registryEnv world this))).
Proof.
  intros Htrace Hpublish.
  pose proof (run_justified world this rushConfiguration initialState I) as Hall.
  destruct (run world this rushConfiguration initialState) as [r s'].
  assert (Hs' : allJustified world this rushConfiguration s')
    by (destruct r; exact Hall).
  simpl in Htrace.
  destruct (eachWithPast_trace _ _ _ _ _ Hs' Htrace Hpublish)
    as (key & project & Hin & Hdir & Hpublishable & Hwhy).
  exists key, project. repeat (split; [assumption |]).
  destruct Hwhy as [Hforce | (h & Hpast & Hnone)]; [now left | right].
  exists (rev h). rewrite rev_involutive. split.
  - rewrite <- (rev_involutive before), Hpast. reflexivity.
  - now apply answerHasVersion_false.
Qed.

(** Publish-all on the small repository: the fourth call publishes [a],
    whose version 1.1.0 the registry, asked in the third call, does not have. *)
Lemma publish_requires_shouldPublish_and_new_version_witness :
  let calls := trace (snd (run (Demo.world [] false) Demo.publishAllMode
                               Demo.repository initialState)) in
  exists key project,
    In (key, project) (RushConfiguration.projectsByName Demo.repository) /\
    commandDirectory (nth 3 calls RegenerateChangelogs)
      = RushConfigurationProject.projectFolder project /\
    RushConfigurationProject.shouldPublish project = true /\
    (_force Demo.publishAllMode = true \/
     exists earlier,
       firstn 3 calls
         = earlier ++ [registryQuery (Demo.world [] false) Demo.publishAllMode
                         (rev earlier) project] /\
       ~ In (IPackageJson.version (RushConfigurationProject.packageJson project))
            (publishedVersions (Demo.world [] false) (rev earlier)
               (RushConfigurationProject.packageName project)
               (RushConfigurationProject.projectFolder project)
               (registryEnv (Demo.world [] false) Demo.publishAllMode))).
Proof.
  intros calls.
  apply (publish_requires_shouldPublish_and_new_version
           (Demo.world [] false) Demo.publishAllMode Demo.repository
           (firstn 3 calls) (skipn 4 calls) (nth 3 calls RegenerateChangelogs)).
  - vm_compute. reflexivity.
  - vm_compute. reflexivity.
Defined.

(** ** Publish changes: all publishing precedes all tagging *)

Section PublishBeforeTag.

Variable world : World.
Variable this : Parameters.
Variable rushConfiguration : RushConfiguration.t.
Hypothesis changesMode : _includeAll this = false.

Lemma noTags_record e s : isAddTag e = false -> noTags s -> noTags (record e s).
Proof. intros He Hs. constructor; assumption. Qed.

Lemma noTags_ordered s : noTags s -> publishedBeforeTagged s.
Proof.
  unfold noTags, publishedBeforeTagged.
  induction (history s) as [| e h IH]; simpl; [trivial |].
  intros Hall. inversion Hall; subst. auto.
Qed.

Lemma ordered_record e s :
  isRegistryOp e = false -> publishedBeforeTagged s -> publishedBeforeTagged (record e s).
Proof. intros He Hs. split; [congruence | exact Hs]. Qed.

(** The side conditions while no tag has been made. *)
Ltac untagged :=
  intros;
  repeat match goal with
         | |- failsUntagged _ _ => split
         | |- forall c, _ = Thrown c -> _ => intros ? [= <-] ?
         | |- forall c, _ = Thrown c -> _ => intros ? ? ?; discriminate
         end;
  first [ assumption
        | apply noTags_record; [reflexivity | assumption]
        | apply noTags_ordered; assumption
        | apply noTags_ordered, noTags_record; [reflexivity | assumption] ].

(** The side conditions once tagging has begun. *)
Ltac tagging :=
  intros;
  repeat match goal with
         | |- failsUntagged _ _ => split
         | |- forall c, _ = Thrown c -> _ => intros ? [= <-] ?
         | |- forall c, _ = Thrown c -> _ => intros ? ? ?
         end;
  first [ assumption
        | discriminate
        | apply ordered_record; [reflexivity | assumption] ].

Lemma _publishChanges_ordered allPackages :
  triple noTags (_publishChanges world this rushConfiguration allPackages)
         (fun _ => publishedBeforeTagged) failsUntagged.
Proof.
  unfold _publishChanges, _gitAddTags, VersionControl_hasUncommittedChanges.
  repeat first
    [ discriminate
    | lazymatch goal with
      | |- triple noTags (bind (forEach (addTagForChange _ _ _) _) _) _ _ =>
          apply triple_conseq with
            (P' := publishedBeforeTagged) (Q' := fun _ => publishedBeforeTagged)
            (E' := failsUntagged);
          [ exact noTags_ordered | auto | auto | ];
          autounfold with action; keep_auto fail tagging
      | |- triple noTags (forEach (publishChange _ _ _ _) _) _ _ =>
          autounfold with action
      | |- triple noTags (detectHotfix _) _ _ => apply detectHotfix_keeps; auto
      end
    | keep_step untagged ].
Qed.

Lemma run_ordered :
  triple noTags (run world this rushConfiguration)
         (fun _ => publishedBeforeTagged) failsUntagged.
Proof.
  unfold run, _validate. rewrite changesMode.
  repeat first
    [ discriminate
    | lazymatch goal with
      | |- triple noTags (bind (bind (call _ (NewPrereleaseToken _ _)) _) _) _ _ =>
          apply triple_bind with (R := fun _ => publishedBeforeTagged);
          [ | intros ?; apply triple_console_log; tagging ]
      | |- triple noTags (_publishChanges _ _ _ _) _ _ => apply _publishChanges_ordered
      end
    | keep_step untagged ].
Qed.

End PublishBeforeTag.

Section BothPassesOverTheLedger.

Variable world : World.
Variable this : Parameters.
Variable rushConfiguration : RushConfiguration.t.
Hypothesis changesMode : _includeAll this = false.

Lemma run_emits_fromLedger :
  emits (fromLedger world this rushConfiguration) (fun _ => True) (run world this rushConfiguration).
Proof.
  unfold run. rewrite changesMode.
  emits_auto ltac:(unfold fromLedger; simpl; auto;
                   try (split; intros; [discriminate || eauto 10 ..])).
Qed.

End BothPassesOverTheLedger.

(** ** Publish changes: the hotfix tag *)

Lemma triple_get_hotfixTagOverride_bind {A} P (Q : A -> State -> Prop) E
    (k : option string -> M A) :
  (forall v, triple (fun s => P s /\ _hotfixTagOverride s = v) (k v) Q E) ->
  triple P (bind get_hotfixTagOverride k) Q E.
Proof.
  intros Hk s Hs. unfold bind, get_hotfixTagOverride.
  exact (Hk (_hotfixTagOverride s) s (conj Hs eq_refl)).
Qed.

Section HotfixTag.

Variable world : World.
Variable this : Parameters.
Variable rushConfiguration : RushConfiguration.t.
Hypothesis changesMode : _includeAll this = false.
Hypothesis hasHotfix : existsb isHotfix (changes world) = true.

Lemma tagArgs_hotfix : tagArgs this (Some "hotfix") = ["--tag"; hotfixRunTag this].
Proof.
  unfold tagArgs, hotfixRunTag. destruct (truthyValue (_npmTag this)); reflexivity.
Qed.

Lemma publishedAsHotfix_record e s :
  isPublishCommand e = false -> (publishedAsHotfix this) s -> (publishedAsHotfix this) (record e s).
Proof.
  intros He Hs. constructor; [| exact Hs]. intros Hp. congruence.
Qed.

Lemma detectHotfix_sets (orderedChanges : list IChangeInfo.t) :
  existsb isHotfix orderedChanges = true ->
  triple (publishedAsHotfix this) (detectHotfix orderedChanges)
         (fun _ => (overrideSet this)) (fun _ => (publishedAsHotfix this)).
Proof.
  induction orderedChanges as [| change rest IH]; simpl; [discriminate |].
  destruct (isHotfix change); simpl.
  - intros _. apply triple_set_hotfixTagOverride. intros s Hs. split; [exact Hs | reflexivity].
  - exact IH.
Qed.

Ltac unscanned :=
  intros; first [ assumption | apply publishedAsHotfix_record; [reflexivity | assumption] ].

Ltac scanned :=
  intros;
  repeat match goal with
         | H : _ /\ _ |- _ => destruct H
         | H : (overrideSet this) _ |- _ => destruct H
         end;
  lazymatch goal with
  | |- (overrideSet this) _ => split
  | |- _ => idtac
  end;
  first [ assumption
        | apply publishedAsHotfix_record; [reflexivity | assumption]
        | (* the publish command *)
          constructor; [| assumption];
          intros _; cbn [commandArgs]; unfold hotfixArgs;
          match goal with
          | Hv : _hotfixTagOverride ?s = ?v, Hs : _hotfixTagOverride ?s = Some _ |- _ =>
              rewrite Hs in Hv; subst v
          end;
          rewrite tagArgs_hotfix; reflexivity ].

Lemma _publishChanges_hotfix allPackages :
  triple (publishedAsHotfix this) (_publishChanges world this rushConfiguration allPackages)
         (fun _ => (publishedAsHotfix this)) (fun _ => (publishedAsHotfix this)).
Proof.
  unfold _publishChanges, VersionControl_hasUncommittedChanges.
  repeat first
    [ discriminate
    | lazymatch goal with
      | |- triple (publishedAsHotfix this) (bind (detectHotfix _) _) _ _ =>
          apply triple_bind with (R := fun _ => (overrideSet this));
          [ exact (detectHotfix_sets _ hasHotfix) | intros ? ];
          autounfold with action;
          keep_auto
            ltac:(idtac;
                  lazymatch goal with
                  | |- triple _ (bind get_hotfixTagOverride _) _ _ =>
                      apply triple_get_hotfixTagOverride_bind; intros ?
                  end)
            scanned
      end
    | keep_step unscanned ].
Qed.

Lemma run_hotfix :
  triple (publishedAsHotfix this) (run world this rushConfiguration)
         (fun _ => (publishedAsHotfix this)) (fun _ => (publishedAsHotfix this)).
Proof.
  unfold run, _validate. rewrite changesMode.
  keep_auto ltac:(apply _publishChanges_hotfix) unscanned.
Qed.

End HotfixTag.

(** C6.  In publish-changes mode, when some record of the ordered change list
    has the change type [hotfix], every publish command of the run carries a
    tag: the arguments are [publish], the auth-token argument if a token is
    given, [--tag] with the tag parameter when one is given and with [hotfix]
    otherwise, and [--force] if the force flag is set. *)
Theorem hotfix_overrides_publish_tag
    (world : World) (this : Parameters) (rushConfiguration : RushConfiguration.t)
    (e : Event) :
  _includeAll this = false ->
  existsb isHotfix (changes world) = true ->
  In e (trace (snd (run world this rushConfiguration initialState))) ->
  isPublishCommand e = true ->
  commandArgs e =
    ["publish"] ++ authTokenArgs this
    ++ ["--tag"; match truthyValue (_npmTag this) with
                 | Some tag => tag
                 | None => "hotfix"
                 end]
    ++ forceArgs this.
Proof.
  intros Hmode Hhotfix Hin Hpublish.
  pose proof (run_hotfix world this rushConfiguration Hmode Hhotfix initialState) as Hrun.
  assert (Hstart : publishedAsHotfix this initialState) by constructor.
  specialize (Hrun Hstart).
  destruct (run world this rushConfiguration initialState) as [r s'].
  assert (Hall : publishedAsHotfix this s') by (destruct r; exact Hrun).
  unfold publishedAsHotfix in Hall. rewrite Forall_forall in Hall.
  apply (Hall e); [| exact Hpublish].
  apply in_rev. exact Hin.
Qed.

(** The ledger with a hotfix of [a]: the publish command carries the tag. *)
Lemma hotfix_overrides_publish_tag_witness :
  commandArgs (ExecCommand true "/bin/npm" ["publish"; "--tag"; "hotfix"] "/repo/a"
                 [("PATH", "/bin")]) =
    ["publish"] ++ authTokenArgs Demo.publishChangesMode
    ++ ["--tag"; match truthyValue (_npmTag Demo.publishChangesMode) with
                 | Some tag => tag
                 | None => "hotfix"
                 end]
    ++ forceArgs Demo.publishChangesMode.
Proof.
  apply (hotfix_overrides_publish_tag
           (Demo.world [Demo.change "a" ChangeType.hotfix "1.1.0"] true)
           Demo.publishChangesMode Demo.repository).
  - reflexivity.
  - reflexivity.
  - vm_compute. tauto.
  - reflexivity.
Defined.

(** ** Publish all *)

Lemma strictEq_eq (a b : option string) : strictEq a b = true <-> a = b.
Proof.
  destruct a as [x |], b as [y |]; simpl; try (split; (discriminate || reflexivity)).
  rewrite String.eqb_eq. split; [intros -> | intros [= ->]]; reflexivity.
Qed.

Lemma qualifies_iff_spec (this : Parameters) (packageConfig : RushConfigurationProject.t) :
  qualifies this packageConfig = true <-> qualifies_spec this packageConfig.
Proof.
  unfold qualifies, qualifies_spec.
  rewrite andb_true_iff, orb_true_iff, negb_true_iff, strictEq_eq. tauto.
Qed.

Lemma existsb_false_In {A} (f : A -> bool) (l : list A) (x : A) :
  existsb f l = false -> In x l -> f x = false.
Proof.
  induction l as [| y l IH]; simpl; [tauto |].
  intros H [-> | Hin]; apply orb_false_iff in H; destruct H; auto.
Qed.

Lemma filter_none {A} (f : A -> bool) (l : list A) :
  Forall (fun x => f x = false) l -> filter f l = [].
Proof.
  induction 1 as [| x l Hx _ IH]; simpl; [reflexivity |].
  now rewrite Hx.
Qed.

(** ** Publish changes: a change without a project *)

Section MissingProject.

Variable world : World.
Variable this : Parameters.
Variable rushConfiguration : RushConfiguration.t.
Hypothesis quiet : forall h e, throws world h e = false.

Lemma call_quiet (e : Event) (s : State) : call world e s = (Ok tt, record e s).
Proof. rewrite call_cases, quiet. reflexivity. Qed.

Lemma detectHotfix_returns (orderedChanges : list IChangeInfo.t) (s : State) :
  exists s', detectHotfix orderedChanges s = (Ok tt, s') /\ history s' = history s.
Proof.
  induction orderedChanges as [| change rest IH]; simpl.
  - exists s. split; reflexivity.
  - destruct (isHotfix change); [| exact IH].
    eexists. split; reflexivity.
Qed.

(** The publish pass reports the record and goes on. *)
Lemma publishChange_returns (change : IChangeInfo.t) (s : State) :
  exists s' new,
    publishChange world this rushConfiguration (RushConfiguration.projectsByName rushConfiguration) change s = (Ok tt, s') /\
    history s' = new ++ history s /\
    (aboveDependency change = true ->
     Map_get (RushConfiguration.projectsByName rushConfiguration) (IChangeInfo.packageName change) = None ->
     new = [missingProjectLine change]).
Proof.
  unfold publishChange.
  destruct (aboveDependency change).
  2:{ exists s, []. repeat split; auto. discriminate. }
  destruct (Map_get (RushConfiguration.projectsByName rushConfiguration) (IChangeInfo.packageName change)) as [project |] eqn:Hget.
  2:{ eexists. exists [missingProjectLine change]. repeat split. }
  unfold bind. rewrite _packageExists_cases, quiet.
  destruct (answerHasVersion _ project); cbn [negb].
  - eexists. eexists [_; _]. simpl. repeat split. discriminate.
  - rewrite _npmPublish_cases. rewrite Hget.
    destruct (RushConfigurationProject.shouldPublish project).
    + rewrite call_quiet. eexists. eexists [_; _]. simpl. repeat split. discriminate.
    + eexists. eexists [_]. simpl. repeat split. discriminate.
Qed.

Lemma publishPass_returns (orderedChanges : list IChangeInfo.t) (s : State) :
  exists s',
    forEach (publishChange world this rushConfiguration (RushConfiguration.projectsByName rushConfiguration)) orderedChanges s
      = (Ok tt, s') /\
    (forall e, In e (history s) -> In e (history s')) /\
    (forall change,
       In change orderedChanges ->
       aboveDependency change = true ->
       Map_get (RushConfiguration.projectsByName rushConfiguration) (IChangeInfo.packageName change) = None ->
       In (missingProjectLine change) (history s')).
Proof.
  revert s. induction orderedChanges as [| first rest IH]; intros s; simpl.
  - exists s. repeat split; auto. intros change [].
  - destruct (publishChange_returns first s) as (s1 & new & Hrun & Hh & Hline).
    unfold bind. rewrite Hrun.
    destruct (IH s1) as (s' & Hrest & Hkeeps & Hlines).
    exists s'. split; [exact Hrest |]. split.
    + intros e He. apply Hkeeps. rewrite Hh. apply in_or_app. now right.
    + intros change [<- | Hin] Habove Hget.
      * apply Hkeeps. rewrite Hh, (Hline Habove Hget). now left.
      * now apply Hlines.
Qed.

(** The tag pass stops at the first such record. *)
Lemma tagPass_crashes (orderedChanges : list IChangeInfo.t) (s : State) :
  (exists change,
     In change orderedChanges /\ aboveDependency change = true /\
     Map_get (RushConfiguration.projectsByName rushConfiguration) (IChangeInfo.packageName change) = None) ->
  exists s',
    _gitAddTags world this rushConfiguration orderedChanges s
      = (Err undefinedDereference, s') /\
    (forall e, In e (history s) -> In e (history s')).
Proof.
  unfold _gitAddTags. revert s.
  induction orderedChanges as [| first rest IH]; intros s (change & Hin & Habove & Hget);
    [destruct Hin |].
  simpl. unfold bind at 1. unfold addTagForChange at 1.
  destruct (aboveDependency first) eqn:Hfirst.
  -
    destruct (Map_get (RushConfiguration.projectsByName rushConfiguration) (IChangeInfo.packageName first)) as [project |] eqn:Hproject.
    + assert (Hrest : exists c, In c rest /\ aboveDependency c = true /\
                        Map_get (RushConfiguration.projectsByName rushConfiguration) (IChangeInfo.packageName c) = None).
      { destruct Hin as [<- | Hin]; [congruence | eauto]. }
      unfold bind, propertyOf, ret.
      destruct (RushConfigurationProject.shouldPublish project).
      * rewrite call_quiet.
        destruct (IH (record (GitAddTag (shouldTag this) (IChangeInfo.packageName first)
                                (IChangeInfo.newVersion first)) s) Hrest)
          as (s' & Hrun & Hkeeps).
        exists s'. split; [exact Hrun |].
        intros e He. apply Hkeeps. now right.
      * exact (IH s Hrest).
    + exists s. split; [reflexivity | auto].
  - assert (Hrest : exists c, In c rest /\ aboveDependency c = true /\
                      Map_get (RushConfiguration.projectsByName rushConfiguration) (IChangeInfo.packageName c) = None).
    { destruct Hin as [<- | Hin]; [congruence | eauto]. }
    exact (IH s Hrest).
Qed.

End MissingProject.

(** C9.  In publish-changes mode, take a change list with a record that ranks
    above [dependency] and whose package name is not in the project map, and
    collaborators none of whose calls throws.  The publish pass skips the
    record with its diagnostic line; the tag pass reads [shouldPublish] from
    the [undefined] the lookup answers, and the run ends with that
    [TypeError]. *)
Theorem tag_pass_crashes_on_missing_project
    (world : World) (this : Parameters) (rushConfiguration : RushConfiguration.t)
    (change : IChangeInfo.t) :
  (forall h e, throws world h e = false) ->
  _regenerateChangelogs this = false ->
  _includeAll this = false ->
  _pack this = false ->
  truthy (_releaseFolder this) = false ->
  truthy (_releaseType this) = false ->
  hasChanges world = true ->
  hasUncommittedChanges world = true ->
  In change (changes world) ->
  aboveDependency change = true ->
  Map_get (RushConfiguration.projectsByName rushConfiguration)
          (IChangeInfo.packageName change) = None ->
  let outcome := run world this rushConfiguration initialState in
  fst outcome = Err undefinedDereference /\
  In (missingProjectLine change) (trace (snd outcome)).
Proof.
  intros Hquiet Hregen Hmode Hpack Hfolder Htype Hchanges Hdirty Hin Habove Hget outcome.
  subst outcome.
  unfold run, _validate, _publishChanges, VersionControl_hasUncommittedChanges.
  rewrite Hregen, Hmode, Hpack, Hfolder, Htype, Hchanges, andb_false_r.
  unfold bind, when, set_prereleaseToken, get_prereleaseToken, ret, throw. simpl.
  repeat (rewrite (call_quiet world Hquiet); cbv beta iota).
  rewrite Hdirty.
  repeat (rewrite (call_quiet world Hquiet); cbv beta iota).
  match goal with
  | |- context [detectHotfix ?l ?s] =>
      destruct (detectHotfix_returns l s) as (s1 & Hscan & Hh1); rewrite Hscan
  end.
  destruct (publishPass_returns world this rushConfiguration Hquiet (changes world) s1)
    as (s2 & Hpass & _ & Hlines).
  rewrite Hpass.
  destruct (tagPass_crashes world this rushConfiguration Hquiet (changes world) s2)
    as (s3 & Hcrash & Hkeeps).
  { exists change. auto. }
  rewrite Hcrash. simpl. split; [reflexivity |].
  unfold trace. apply in_rev. rewrite rev_involutive.
  apply Hkeeps. now apply Hlines.
Qed.

(** The ledger of the small repository with a patch of a package [ghost]
    that the repository does not have. *)
Lemma tag_pass_crashes_on_missing_project_witness :
  fst (run (Demo.world (Demo.ledger ++ [Demo.change "ghost" ChangeType.patch "0.0.2"]) true)
           Demo.publishChangesMode Demo.repository initialState)
    = Err undefinedDereference /\
  In (missingProjectLine (Demo.change "ghost" ChangeType.patch "0.0.2"))
     (trace (snd (run (Demo.world (Demo.ledger ++ [Demo.change "ghost" ChangeType.patch "0.0.2"])
                         true)
                      Demo.publishChangesMode Demo.repository initialState))).
Proof.
  apply (tag_pass_crashes_on_missing_project
           (Demo.world (Demo.ledger ++ [Demo.change "ghost" ChangeType.patch "0.0.2"]) true)
           Demo.publishChangesMode Demo.repository
           (Demo.change "ghost" ChangeType.patch "0.0.2"));
    try reflexivity.
  simpl. tauto.
Defined.

(** ** Configuration errors *)

Section ConfigurationErrors.

Variable world : World.
Variable this : Parameters.
Variable rushConfiguration : RushConfiguration.t.

Lemma _validate_invalid :
  invalidCombination this = true ->
  exists message, forall s, _validate this s = (Err (ConfigurationError message), s).
Proof.
  unfold invalidCombination, _validate, when, bind, throw, ret.
  destruct (_pack this), (_includeAll this), (truthy (_releaseFolder this)),
    (truthy (_releaseType this)), (truthy (_registryUrl this));
    simpl; intros H; try discriminate; eexists; reflexivity.
Qed.

Lemma _validate_valid :
  invalidCombination this = false -> forall s, _validate this s = (Ok tt, s).
Proof.
  unfold invalidCombination, _validate, when, bind, throw, ret.
  destruct (_pack this), (_includeAll this), (truthy (_releaseFolder this)),
    (truthy (_releaseType this)), (truthy (_registryUrl this));
    simpl; intros H; try discriminate; reflexivity.
Qed.

(** With an invalid release type, packing fails before anything is done. *)
Lemma _npmPack_invalid packageName project s :
  invalidReleaseType this = true ->
  _npmPack world this rushConfiguration packageName project s
    = (Err (invalidReleaseTypeError this), s).
Proof.
  unfold invalidReleaseType, invalidReleaseTypeError, _npmPack.
  destruct (truthyValue (_releaseType this)) as [releaseType |]; [| discriminate].
  intros H. apply andb_prop in H. destruct H as [Hinternal Hother].
  unfold bind, when. rewrite Hinternal, Hother. reflexivity.
Qed.

(** With a valid release type, or none, or without [--pack], no call of
    [_publishAll] raises a configuration error. *)
Lemma _publishAll_emits_valid allPackages :
  _pack this = false \/ invalidReleaseType this = false ->
  emits (fun _ => True) notConfigurationError
        (_publishAll world this rushConfiguration allPackages).
Proof.
  intros Hvalid.
  emits_auto_excluding
    ltac:(idtac;
          match goal with
          | Hpack : _pack this = true |- _ =>
              destruct Hvalid as [Hvalid | Hvalid]; [congruence |];
              unfold invalidReleaseType in Hvalid;
              match goal with
              | Htype : truthyValue (_releaseType this) = Some ?t,
                Hinternal : negb (?t =? "internal") = true,
                Hrest : _ && _ = true |- _ =>
                  rewrite Htype, Hinternal, Hrest in Hvalid; discriminate
              end
          end)
    ltac:(unfold notConfigurationError; simpl; auto).
Qed.

Lemma changesMode_emits_valid allPackages :
  emits (fun _ => True) notConfigurationError
        (call world (NewPrereleaseToken (_prereleaseName this) (_suffix this)) ;;
         set_prereleaseToken
           {| PrereleaseToken.prereleaseName := _prereleaseName this;
              PrereleaseToken.suffixName := _suffix this |} ;;
         _publishChanges world this rushConfiguration allPackages).
Proof.
  emits_auto ltac:(unfold notConfigurationError; simpl; auto).
Qed.

Lemma valid_triple {A} (m : M A) (P : State -> Prop) :
  emits (fun _ => True) notConfigurationError m ->
  triple P m (fun _ _ => True) reportedFirst.
Proof.
  intros Hm s _. destruct (Hm s) as (new & _ & _ & Herr).
  destruct (m s) as [[a | e] s']; [trivial |].
  intros Hconfig. specialize (Herr e eq_refl).
  unfold notConfigurationError in Herr. simpl in Herr. congruence.
Qed.

Lemma onlyHarmless_record e s :
  isHarmless e = true -> onlyHarmless s -> onlyHarmless (record e s).
Proof. intros He Hs. constructor; assumption. Qed.

Ltac harmless :=
  intros; unfold reportedFirst;
  first [ assumption
        | trivial; fail
        | intros; assumption
        | apply onlyHarmless_record; [reflexivity | assumption]
        | intros; discriminate
        | intros; apply onlyHarmless_record; [reflexivity | assumption] ].

Lemma publishAllEntry_invalid updated entry :
  _pack this = true -> invalidReleaseType this = true ->
  triple onlyHarmless (publishAllEntry world this rushConfiguration updated entry)
         (fun _ => onlyHarmless) reportedFirst.
Proof.
  intros Hpack Hinvalid. destruct entry as [packageName packageConfig].
  unfold publishAllEntry. rewrite Hpack.
  destruct (qualifies this packageConfig); [| apply triple_ret; auto].
  intros s Hs. unfold bind. rewrite (_npmPack_invalid _ _ _ Hinvalid).
  intros _. exact Hs.
Qed.

Lemma run_reportedFirst :
  triple onlyHarmless (run world this rushConfiguration) (fun _ _ => True) reportedFirst.
Proof.
  unfold run.
  apply triple_keep_bind; [apply triple_call; harmless |]. intros ?.
  destruct (_regenerateChangelogs this).
  { apply valid_triple. emits_auto ltac:(unfold notConfigurationError; simpl; auto). }
  apply triple_keep_bind; [unfold _validate; keep_auto fail harmless |]. intros ?.
  eapply triple_bind with (R := fun _ _ => True);
    [| intros ?; apply triple_console_log; trivial].
  destruct (_includeAll this); [| apply valid_triple, changesMode_emits_valid].
  destruct (_pack this) eqn:Hpack; [| apply valid_triple, _publishAll_emits_valid; auto].
  destruct (invalidReleaseType this) eqn:Hinvalid;
    [| apply valid_triple, _publishAll_emits_valid; auto].
  unfold _publishAll.
  apply triple_keep_bind; [apply triple_console_log; harmless |]. intros ?.
  eapply triple_bind with (R := fun _ => onlyHarmless).
  - apply (triple_forEachWith (fun _ => onlyHarmless)).
    intros v x _. apply publishAllEntry_invalid; assumption.
  - intros [|]; [apply triple_call; harmless | apply triple_ret; trivial].
Qed.

(** The loop of [_publishAll] stops at the first descriptor that qualifies. *)
Lemma publishAll_loop_invalid allPackages updated s :
  _pack this = true -> invalidReleaseType this = true ->
  existsb (fun entry => qualifies this (snd entry)) allPackages = true ->
  forEachWith (publishAllEntry world this rushConfiguration) updated allPackages s
    = (Err (invalidReleaseTypeError this), s).
Proof.
  intros Hpack Hinvalid.
  induction allPackages as [| [packageName packageConfig] rest IH]; simpl;
    [discriminate |].
  unfold bind. rewrite Hpack.
  destruct (qualifies this packageConfig); simpl.
  - intros _. unfold bind. rewrite (_npmPack_invalid _ _ _ Hinvalid). reflexivity.
  - exact IH.
Qed.

(** Without a qualifying descriptor, and with a valid combination of
    flags, no run raises a configuration error. *)
Lemma run_emits_valid :
  invalidCombination this = false ->
  existsb (fun entry => qualifies this (snd entry))
          (RushConfiguration.projectsByName rushConfiguration) = false ->
  emits (fun _ => True) notConfigurationError (run world this rushConfiguration).
Proof.
  intros Hvalid Hnone. unfold run.
  apply emits_bind; [apply emits_call; [trivial | reflexivity] |]. intros ?.
  destruct (_regenerateChangelogs this).
  { emits_auto ltac:(unfold notConfigurationError; simpl; auto). }
  eapply emits_ext.
  { intros s. unfold bind at 1. rewrite (_validate_valid Hvalid). reflexivity. }
  apply emits_bind; [| intros ?; apply emits_console_log; trivial].
  destruct (_includeAll this); [| apply changesMode_emits_valid].
  unfold _publishAll.
  apply emits_bind; [apply emits_console_log; trivial |]. intros ?.
  apply emits_bind.
  - apply emits_forEachWith. intros v [packageName packageConfig] Hin.
    unfold publishAllEntry.
    replace (qualifies this packageConfig) with false; [apply emits_ret |].
    symmetry. exact (existsb_false_In _ _ _ Hnone Hin).
  - intros [|]; [apply emits_call; [trivial | reflexivity] | apply emits_ret].
Qed.

End ConfigurationErrors.

(** C8, as stated, fails.  [rush publish --include-all --pack --release-type
    nightly] in a repository whose only package is private: the release type
    is none of [internal], [public], [beta], yet no descriptor qualifies, so
    [_npmPack] and its check are never reached and the run finishes
    successfully.  And [rush publish --regenerate-changelogs --pack] without
    [--include-all]: the invalid combination is never validated, the
    changelogs are regenerated and the run returns. *)
Lemma configuration_errors_go_unreported :
  let nightly := Demo.parameters true true false false None (Some "nightly") in
  let private := Demo.configuration [Demo.project "tools" "0.1.0" false] in
  let packOnly := Demo.parameters false true false true None None in
  (invalidReleaseType nightly = true /\
   fst (run (Demo.world [] false) nightly private initialState) = Ok tt /\
   trace (snd (run (Demo.world [] false) nightly private initialState)) =
     [ValidatePolicy false;
      ConsoleLog "Rush publish starts with includeAll and version policy undefined";
      ConsoleLog (String (ascii_of_nat 10) "Rush publish finished successfully.")]) /\
  (invalidCombination packOnly = true /\
   fst (run (Demo.world Demo.ledger true) packOnly Demo.repository initialState) = Ok tt /\
   trace (snd (run (Demo.world Demo.ledger true) packOnly Demo.repository initialState)) =
     [ValidatePolicy false; ConsoleLog "Regenerating changelogs"; RegenerateChangelogs]).
Proof. vm_compute. repeat split. Qed.

(** C8, amended.  A configuration error is fatal and, whenever one is
    raised, the run has made no call but the policy check and console output.
    When regenerate-changelogs is not set and the policy check passes: an
    invalid combination of flags is reported by [_validate], right after the
    policy check; with a valid combination, an invalid release-type value is
    reported when the first qualifying descriptor is about to be packed,
    after the policy check and the opening console line, provided some
    descriptor qualifies; when none qualifies, no configuration error is
    raised. *)
Theorem configuration_errors_reported_first
    (world : World) (this : Parameters) (rushConfiguration : RushConfiguration.t) :
  let outcome := run world this rushConfiguration initialState in
  (forall err,
     fst outcome = Err err -> isConfigurationError err = true ->
     Forall (fun e => isHarmless e = true) (trace (snd outcome))) /\
  (_regenerateChangelogs this = false ->
   throws world [] (ValidatePolicy false) = false ->
   (invalidCombination this = true ->
    exists message,
      fst outcome = Err (ConfigurationError message) /\
      trace (snd outcome) = [ValidatePolicy false]) /\
   (invalidCombination this = false ->
    invalidReleaseType this = true ->
    existsb (fun entry => qualifies this (snd entry))
            (RushConfiguration.projectsByName rushConfiguration) = true ->
    fst outcome = Err (invalidReleaseTypeError this) /\
    trace (snd outcome) =
      [ValidatePolicy false;
       ConsoleLog ("Rush publish starts with includeAll and version policy "
                   ++ interpolate (_versionPolicy this))%string])) /\
  (invalidCombination this = false ->
   existsb (fun entry => qualifies this (snd entry))
           (RushConfiguration.projectsByName rushConfiguration) = false ->
   forall err, fst outcome = Err err -> isConfigurationError err = false).
Proof.
  intros outcome. split; [| split].
  - intros err Herr Hconfig.
    pose proof (run_reportedFirst world this rushConfiguration initialState) as Hrun.
    fold outcome in Hrun.
    assert (Hstart : onlyHarmless initialState) by constructor.
    specialize (Hrun Hstart).
    destruct outcome as [r s']. simpl in *. subst r.
    apply Forall_rev. exact (Hrun Hconfig).
  - intros Hregen Hpolicy. subst outcome. split.
    + intros Hinvalid. destruct (_validate_invalid this Hinvalid) as (message & Hfails).
      exists message.
      assert (Hrun : run world this rushConfiguration initialState =
                       (Err (ConfigurationError message),
                        record (ValidatePolicy false) initialState)).
      { unfold run. rewrite Hregen. unfold bind. rewrite call_cases.
        change (history initialState) with (@nil Event).
        rewrite Hpolicy, Hfails. reflexivity. }
      rewrite Hrun. split; reflexivity.
    + intros Hvalid Htype Hsome.
      assert (Hflags : _pack this = true /\ _includeAll this = true).
      { unfold invalidCombination in Hvalid. unfold invalidReleaseType in Htype.
        apply orb_false_iff in Hvalid. destruct Hvalid as [Hvalid _].
        apply orb_false_iff in Hvalid. destruct Hvalid as [Hvalid Hgiven].
        apply orb_false_iff in Hvalid. destruct Hvalid as [Hpack _].
        unfold truthy in Hgiven.
        destruct (truthyValue (_releaseType this)); [| discriminate].
        destruct (_pack this); [| discriminate].
        destruct (_includeAll this); [| discriminate].
        split; reflexivity. }
      destruct Hflags as [Hpack Hall].
      assert (Hrun : run world this rushConfiguration initialState =
                       (Err (invalidReleaseTypeError this),
                        record (ConsoleLog
                                  ("Rush publish starts with includeAll and version policy "
                                   ++ interpolate (_versionPolicy this))%string)
                               (record (ValidatePolicy false) initialState))).
      { unfold run. rewrite Hregen. unfold bind at 1. rewrite call_cases.
        change (history initialState) with (@nil Event). rewrite Hpolicy.
        unfold bind at 1. rewrite (_validate_valid this Hvalid).
        rewrite Hall. unfold _publishAll, bind. simpl.
        rewrite (publishAll_loop_invalid world this rushConfiguration _ _ _
                   Hpack Htype Hsome).
        reflexivity. }
      rewrite Hrun. split; reflexivity.
  - intros Hvalid Hnone err Herr.
    exact (proj2 (emits_initial _ _ _
                    (run_emits_valid world this rushConfiguration Hvalid Hnone))
             err Herr).
Qed.

(** [rush publish --pack] without [--include-all] fails right after the
    policy check; [rush publish --include-all --pack --release-type nightly]
    fails when [a], the first qualifying package, is about to be packed. *)
Lemma configuration_errors_reported_first_witness :
  (exists message,
     fst (run (Demo.world Demo.ledger true)
              (Demo.parameters false true false false None None)
              Demo.repository initialState) = Err (ConfigurationError message) /\
     trace (snd (run (Demo.world Demo.ledger true)
                     (Demo.parameters false true false false None None)
                     Demo.repository initialState)) = [ValidatePolicy false]) /\
  (fst (run (Demo.world [] false)
            (Demo.parameters true true false false None (Some "nightly"))
            Demo.repository initialState)
     = Err (invalidReleaseTypeError
              (Demo.parameters true true false false None (Some "nightly"))) /\
   trace (snd (run (Demo.world [] false)
                   (Demo.parameters true true false false None (Some "nightly"))
                   Demo.repository initialState)) =
     [ValidatePolicy false;
      ConsoleLog "Rush publish starts with includeAll and version policy undefined"]).
Proof.
  split.
  - apply (proj1 (proj2 (configuration_errors_reported_first
                           (Demo.world Demo.ledger true)
                           (Demo.parameters false true false false None None)
                           Demo.repository)) eq_refl eq_refl).
    reflexivity.
  - apply (proj1 (proj2 (configuration_errors_reported_first
                           (Demo.world [] false)
                           (Demo.parameters true true false false None (Some "nightly"))
                           Demo.repository)) eq_refl eq_refl);
      reflexivity.
Defined.

(** ** Runs that return: the calls they have made *)

Lemma recordAll_app (calls more : list Event) (s : State) :
  recordAll (calls ++ more) s = recordAll more (recordAll calls s).
Proof. unfold recordAll. apply fold_left_app. Qed.

Lemma trace_record (e : Event) (s : State) : trace (record e s) = trace s ++ [e].
Proof. reflexivity. Qed.

Lemma trace_recordAll (calls : list Event) (s : State) :
  trace (recordAll calls s) = trace s ++ calls.
Proof.
  revert s. induction calls as [| e calls IH]; intros s; simpl.
  - now rewrite app_nil_r.
  - rewrite IH, trace_record, <- app_assoc. reflexivity.
Qed.

(** A sequence that returns: its first part returned, and the rest ran on
    what it answered. *)
Lemma bind_Ok {A B} (m : M A) (k : A -> M B) (s s' : State) (b : B) :
  bind m k s = (Ok b, s') ->
  exists a s1, m s = (Ok a, s1) /\ k a s1 = (Ok b, s').
Proof.
  unfold bind. destruct (m s) as [[a | e] s1]; [eauto | discriminate].
Qed.

(** The scan for a hotfix makes no call and never fails. *)
Lemma detectHotfix_run (orderedChanges : list IChangeInfo.t) (s : State) :
  detectHotfix orderedChanges s =
    (Ok tt,
     {| history := history s;
        _hotfixTagOverride :=
          if existsb isHotfix orderedChanges then Some "hotfix"
          else _hotfixTagOverride s;
        _prereleaseToken := _prereleaseToken s |}).
Proof.
  induction orderedChanges as [| change rest IH]; simpl.
  - destruct s; reflexivity.
  - destruct (isHotfix change); [reflexivity | exact IH].
Qed.

Section CallsOfPublishChanges.

Variable world : World.
Variable this : Parameters.
Variable rushConfiguration : RushConfiguration.t.

(** The body of the publish pass, when it returns. *)
Lemma publishChange_Ok (change : IChangeInfo.t) (s s' : State) (u : unit) :
  publishChange world this rushConfiguration
    (RushConfiguration.projectsByName rushConfiguration) change s = (Ok u, s') ->
  s' = recordAll (publishPassFor world this rushConfiguration s change) s.
Proof.
  unfold publishChange, publishPassFor.
  destruct (aboveDependency change); [| now intros [= _ <-]].
  destruct (Map_get _ (IChangeInfo.packageName change)) as [project |] eqn:Hget;
    [| now intros [= _ <-]].
  unfold bind. rewrite _packageExists_cases.
  destruct (throws world (history s) _); [discriminate |].
  cbv zeta. destruct (answerHasVersion _ project); cbn [negb].
  - now intros [= _ <-].
  - rewrite _npmPublish_cases, Hget.
    destruct (RushConfigurationProject.shouldPublish project).
    + rewrite call_cases. destruct (throws world _ _); [discriminate |].
      now intros [= _ <-].
    + now intros [= _ <-].
Qed.

Lemma publishPass_Ok (orderedChanges : list IChangeInfo.t) (s s' : State) (u : unit) :
  forEach (publishChange world this rushConfiguration
             (RushConfiguration.projectsByName rushConfiguration)) orderedChanges s
    = (Ok u, s') ->
  s' = recordAll (publishPass world this rushConfiguration s orderedChanges) s.
Proof.
  revert s. induction orderedChanges as [| change rest IH]; intros s; simpl.
  - now intros [= _ <-].
  - intros Hrun. apply bind_Ok in Hrun. destruct Hrun as (a & s1 & Hfirst & Hrest).
    apply publishChange_Ok in Hfirst. subst s1.
    rewrite recordAll_app. exact (IH _ Hrest).
Qed.

(** The tag pass, when it returns. *)
Lemma addTagForChange_Ok (change : IChangeInfo.t) (s s' : State) (u : unit) :
  addTagForChange world this rushConfiguration change s = (Ok u, s') ->
  s' = recordAll (tagPassFor this rushConfiguration change) s.
Proof.
  unfold addTagForChange, tagPassFor.
  destruct (aboveDependency change); [| now intros [= _ <-]].
  destruct (Map_get _ (IChangeInfo.packageName change)) as [project |];
    [| discriminate].
  unfold bind, propertyOf, ret.
  destruct (RushConfigurationProject.shouldPublish project); [| now intros [= _ <-]].
  rewrite call_cases. destruct (throws world _ _); [discriminate |].
  now intros [= _ <-].
Qed.

Lemma tagPass_Ok (orderedChanges : list IChangeInfo.t) (s s' : State) (u : unit) :
  _gitAddTags world this rushConfiguration orderedChanges s = (Ok u, s') ->
  s' = recordAll (tagPass this rushConfiguration orderedChanges) s.
Proof.
  unfold _gitAddTags, tagPass.
  revert s. induction orderedChanges as [| change rest IH]; intros s; simpl.
  - now intros [= _ <-].
  - intros Hrun. apply bind_Ok in Hrun. destruct Hrun as (a & s1 & Hfirst & Hrest).
    apply addTagForChange_Ok in Hfirst. subst s1.
    rewrite recordAll_app. exact (IH _ Hrest).
Qed.

Lemma tagPass_tags (orderedChanges : list IChangeInfo.t) :
  Forall (fun e => isAddTag e = true) (tagPass this rushConfiguration orderedChanges).
Proof.
  unfold tagPass. induction orderedChanges as [| change rest IH]; simpl; [constructor |].
  apply Forall_app. split; [| exact IH].
  unfold tagPassFor.
  destruct (aboveDependency change); [| constructor].
  destruct (Map_get _ _) as [project |]; [| constructor].
  destruct (RushConfigurationProject.shouldPublish project); repeat constructor.
Qed.

(** One call of a run that returns did not throw. *)
Ltac returned :=
  rewrite call_cases;
  match goal with
  | |- context [throws world ?h ?e] => destruct (throws world h e)
  end;
  [ cbv beta iota; discriminate | cbv beta iota ].

(** A publish-changes run that commits and returns. *)
Lemma run_changes_Ok (s' : State) :
  _regenerateChangelogs this = false ->
  _includeAll this = false ->
  hasChanges world = true ->
  hasUncommittedChanges world = true ->
  run world this rushConfiguration initialState = (Ok tt, s') ->
  s' = recordAll
         (publishPass world this rushConfiguration
            (afterScan world this rushConfiguration) (changes world)
          ++ tagPass this rushConfiguration (changes world)
          ++ changesClosing world this)
         (afterScan world this rushConfiguration).
Proof.
  intros Hregen Hmode Hchanges Hdirty.
  unfold run, _publishChanges, VersionControl_hasUncommittedChanges.
  rewrite Hregen, Hmode, Hchanges.
  unfold bind, set_prereleaseToken, get_prereleaseToken, ret.
  returned.
  destruct (invalidCombination this) eqn:Hvalid.
  { destruct (_validate_invalid this Hvalid) as [message Hmessage].
    rewrite Hmessage. discriminate. }
  rewrite (_validate_valid this Hvalid). cbv beta iota.
  do 6 returned. rewrite Hdirty. cbv beta iota.
  do 3 returned.
  rewrite detectHotfix_run. cbv beta iota.
  match goal with
  | |- context [forEach ?body ?l ?s] =>
      destruct (forEach body l s) as [[[] | e] s2] eqn:Hpass; [| discriminate]
  end.
  apply publishPass_Ok in Hpass.
  destruct (_gitAddTags world this rushConfiguration (changes world) s2)
    as [[[] | e] s3] eqn:Htags; [| discriminate].
  apply tagPass_Ok in Htags.
  do 6 returned.
  intros [= <-]. subst s3 s2.
  rewrite !recordAll_app. reflexivity.
Qed.

(** The same run in a world none of whose calls throws: it gets through the
    publish pass, whatever the tag pass does then. *)
Lemma run_changes_quiet :
  (forall h e, throws world h e = false) ->
  _regenerateChangelogs this = false ->
  _includeAll this = false ->
  invalidCombination this = false ->
  hasChanges world = true ->
  hasUncommittedChanges world = true ->
  exists rest,
    trace (snd (run world this rushConfiguration initialState)) =
      changesOpening world this rushConfiguration
      ++ publishPass world this rushConfiguration
           (afterScan world this rushConfiguration) (changes world)
      ++ rest /\
    Forall (fun e => isGitCall e = true \/ e = successLine world) rest.
Proof.
  intros Hquiet Hregen Hmode Hvalid Hchanges Hdirty.
  unfold run, _publishChanges, VersionControl_hasUncommittedChanges.
  rewrite Hregen, Hmode, Hchanges.
  unfold bind, set_prereleaseToken, get_prereleaseToken, ret.
  rewrite (call_quiet world Hquiet). cbv beta iota.
  rewrite (_validate_valid this Hvalid). cbv beta iota.
  repeat (rewrite (call_quiet world Hquiet); cbv beta iota).
  rewrite Hdirty. cbv beta iota.
  repeat (rewrite (call_quiet world Hquiet); cbv beta iota).
  rewrite detectHotfix_run. cbv beta iota.
  match goal with
  | |- context [forEach ?body ?l ?s] =>
      destruct (publishPass_returns world this rushConfiguration Hquiet l s)
        as (s2 & Hpass & _)
  end.
  rewrite Hpass. apply publishPass_Ok in Hpass.
  assert (Htagging : emits (fun e => isGitCall e = true) (fun _ => True)
                       (_gitAddTags world this rushConfiguration (changes world))).
  { emits_auto ltac:(simpl; auto). }
  destruct (_gitAddTags world this rushConfiguration (changes world) s2)
    as [[[] | e] s3] eqn:Htags.
  - apply tagPass_Ok in Htags.
    repeat (rewrite (call_quiet world Hquiet); cbv beta iota).
    exists (tagPass this rushConfiguration (changes world) ++ changesClosing world this).
    split.
    + subst s3 s2. simpl snd. unfold console_log. simpl snd.
      rewrite !trace_record, !trace_recordAll. simpl.
      rewrite <- !app_assoc. reflexivity.
    + apply Forall_app. split.
      * eapply Forall_impl; [| apply tagPass_tags]. intros e He. left.
        destruct e; (discriminate || reflexivity).
      * unfold changesClosing.
        repeat (apply Forall_cons; [first [now left | now right] |]). constructor.
  - destruct (emits_run _ _ _ _ _ _ Htagging Htags) as (new & Hh & Hall & _).
    exists (rev new). split.
    + simpl snd. unfold trace at 1. rewrite Hh, rev_app_distr.
      fold (trace s2). subst s2. rewrite trace_recordAll. reflexivity.
    + apply Forall_rev. eapply Forall_impl; [| exact Hall]. auto.
Qed.

End CallsOfPublishChanges.

(** ** Publish changes: the two passes over the ledger *)

Section TwoPasses.

Variable world : World.
Variable this : Parameters.
Variable rushConfiguration : RushConfiguration.t.

Lemma publishPassFor_asked (s : State) (change : IChangeInfo.t) :
  flat_map passCall (publishPassFor world this rushConfiguration s change) =
    askedFor rushConfiguration change.
Proof.
  unfold publishPassFor, askedFor.
  destruct (aboveDependency change); [| reflexivity].
  destruct (Map_get _ _) as [project |]; [| reflexivity].
  cbv zeta. destruct (answerHasVersion _ project); [reflexivity |].
  destruct (RushConfigurationProject.shouldPublish project); reflexivity.
Qed.

Lemma publishPass_asked (orderedChanges : list IChangeInfo.t) (s : State) :
  flat_map passCall (publishPass world this rushConfiguration s orderedChanges) =
    flat_map (askedFor rushConfiguration) orderedChanges.
Proof.
  revert s. induction orderedChanges as [| change rest IH]; intros s; simpl;
    [reflexivity |].
  now rewrite flat_map_app, publishPassFor_asked, IH.
Qed.

Lemma tagPass_tagged (orderedChanges : list IChangeInfo.t) :
  flat_map passCall (tagPass this rushConfiguration orderedChanges) =
    flat_map (taggedFor this rushConfiguration) orderedChanges.
Proof.
  unfold tagPass. induction orderedChanges as [| change rest IH]; simpl;
    [reflexivity |].
  rewrite flat_map_app, IH. f_equal.
  unfold tagPassFor, taggedFor.
  destruct (aboveDependency change); [| reflexivity].
  destruct (Map_get _ _) as [project |]; [| reflexivity].
  destruct (RushConfigurationProject.shouldPublish project); reflexivity.
Qed.

Lemma publishPass_noBranchCall (orderedChanges : list IChangeInfo.t) (s : State) :
  Forall (fun e => isBranchCall e = false)
         (publishPass world this rushConfiguration s orderedChanges).
Proof.
  revert s. induction orderedChanges as [| change rest IH]; intros s; simpl;
    [constructor |].
  apply Forall_app. split; [| apply IH].
  unfold publishPassFor.
  destruct (aboveDependency change); [| constructor].
  destruct (Map_get _ _) as [project |]; [| repeat constructor].
  cbv zeta. destruct (answerHasVersion _ project); [repeat constructor |].
  destruct (RushConfigurationProject.shouldPublish project); repeat constructor.
Qed.

Lemma tagPass_noBranchCall (orderedChanges : list IChangeInfo.t) :
  Forall (fun e => isBranchCall e = false) (tagPass this rushConfiguration orderedChanges).
Proof.
  eapply Forall_impl; [| apply tagPass_tags].
  intros e He. unfold isBranchCall. rewrite He. apply andb_false_r.
Qed.

End TwoPasses.

(** C3.  In publish-changes mode the one ordered change list is iterated
    twice.  A run that commits and returns has asked the registry about the
    records of the list that rank above [dependency], in the order of the
    list and each once, and has then made the tag calls for the records of
    the same list that rank above [dependency] and are marked
    [shouldPublish], in the order of the list and each once; these are all
    the registry queries and tag calls of the run.  In every run, however it
    ends: every publish command and every tag call belongs to a record of the
    list that ranks above [dependency]; no tag call precedes a publish
    command or a registry query; and when a registry operation throws during
    the publish pass, the run has made no tag call at all. *)
Theorem publish_pass_completes_before_tag_pass
    (world : World) (this : Parameters) (rushConfiguration : RushConfiguration.t) :
  _includeAll this = false ->
  let outcome := run world this rushConfiguration initialState in
  (_regenerateChangelogs this = false ->
   hasChanges world = true ->
   hasUncommittedChanges world = true ->
   fst outcome = Ok tt ->
   flat_map passCall (trace (snd outcome)) =
     flat_map (askedFor rushConfiguration) (changes world)
     ++ flat_map (taggedFor this rushConfiguration) (changes world)) /\
  Forall (fromLedger world this rushConfiguration) (trace (snd outcome)) /\
  (forall before e after,
     trace (snd outcome) = before ++ e :: after ->
     isRegistryOp e = true ->
     Forall (fun t => isAddTag t = false) before) /\
  (forall c,
     fst outcome = Err (Thrown c) ->
     isRegistryOp c = true ->
     Forall (fun t => isAddTag t = false) (trace (snd outcome))).
Proof.
  intros Hmode outcome. split.
  { intros Hregen Hchanges Hdirty Hok. subst outcome.
    destruct (run world this rushConfiguration initialState) as [r s'] eqn:Hrun.
    simpl in Hok. subst r.
    rewrite (run_changes_Ok world this rushConfiguration s' Hregen Hmode Hchanges
               Hdirty Hrun).
    simpl snd. rewrite trace_recordAll, !flat_map_app.
    rewrite publishPass_asked, tagPass_tagged. simpl. now rewrite app_nil_r. }
  split.
  { exact (proj1 (emits_initial _ _ _
             (run_emits_fromLedger world this rushConfiguration Hmode))). }
  pose proof (run_ordered world this rushConfiguration Hmode initialState) as Hrun.
  fold outcome in Hrun.
  assert (Hstart : noTags initialState) by constructor.
  specialize (Hrun Hstart).
  destruct outcome as [r s']. simpl.
  assert (Hordered : publishedBeforeTagged s').
  { destruct r; [exact Hrun | exact (proj1 Hrun)]. }
  split.
  - intros before e after Htrace He.
    pose proof (eachWithPast_trace _ _ _ _ _ Hordered Htrace He) as Hpast.
    rewrite <- (rev_involutive before). apply Forall_rev. exact Hpast.
  - intros c -> Hc. destruct Hrun as [_ Huntagged].
    apply Forall_rev. exact (Huntagged c eq_refl Hc).
Qed.

(** On the small repository: the registry is asked about [a], the only
    record that ranks above [dependency], and then [a] is tagged.  And when
    the registry refuses every publish command, the run stops at the publish
    of [a] and has made no tag call. *)
Lemma publish_pass_completes_before_tag_pass_witness :
  flat_map passCall
    (trace (snd (run (Demo.world Demo.ledger true) Demo.publishChangesMode
                     Demo.repository initialState)))
    = [Asked "a" "/repo/a"; Tagged true "a" (Some "1.1.0")] /\
  Forall (fun t => isAddTag t = false)
         (trace (snd (run (Demo.brokenRegistry Demo.ledger) Demo.publishChangesMode
                          Demo.repository initialState))).
Proof.
  split.
  - apply (proj1 (publish_pass_completes_before_tag_pass
                    (Demo.world Demo.ledger true) Demo.publishChangesMode
                    Demo.repository eq_refl));
      vm_compute; reflexivity.
  - apply (proj2 (proj2 (proj2 (publish_pass_completes_before_tag_pass
                                  (Demo.brokenRegistry Demo.ledger)
                                  Demo.publishChangesMode Demo.repository eq_refl)))
             (ExecCommand true "/bin/npm" ["publish"] "/repo/a" [("PATH", "/bin")])).
    + vm_compute. reflexivity.
    + reflexivity.
Defined.

(** C4, as stated, fails in its last case.  The ledger holds a patch of
    [tools], a package of the repository that is not marked [shouldPublish];
    the registry does not list its version 0.1.0.  The record ranks above
    [dependency], it has a descriptor and its version is not in the registry,
    yet the run, which returns, asks the registry and does nothing else for
    the record: no publish command and no diagnostic. *)
Lemma private_package_neither_published_nor_reported :
  let world := Demo.world privateLedger true in
  let outcome := run world Demo.publishChangesMode Demo.repository initialState in
  let tools := snd (Demo.project "tools" "0.1.0" false) in
  let query := NpmPublishedVersions "tools" "/repo/tools" [("PATH", "/bin")] ["1.0.0"] in
  Forall (fun change => aboveDependency change = true) privateLedger /\
  Map_get (RushConfiguration.projectsByName Demo.repository) "tools" = Some tools /\
  answerHasVersion query tools = false /\
  fst outcome = Ok tt /\
  trace (snd outcome) =
    changesOpening world Demo.publishChangesMode Demo.repository
    ++ [query]
    ++ changesClosing world Demo.publishChangesMode.
Proof. vm_compute. repeat split. repeat constructor. Qed.

(** C4, amended.  In publish-changes mode: when no record of the change list
    ranks above [dependency], no run issues a publish command (nor queries
    the registry).  And when nothing throws, a run that commits makes the
    calls of the publish pass right after the first push of the temporary
    branch, record by record in the order of the list: nothing for a record
    that does not rank above [dependency]; the "Failed to find its project"
    line for one whose package name has no descriptor; otherwise the registry
    query, followed by the "Package exists" line when the answer lists the
    descriptor's version, by the publish command when it does not and the
    descriptor is marked [shouldPublish], and by nothing when the descriptor
    is not so marked.  What follows the publish pass are calls on the
    version-control client and the closing line only. *)
Theorem publish_pass_per_change
    (world : World) (this : Parameters) (rushConfiguration : RushConfiguration.t) :
  _includeAll this = false ->
  let outcome := run world this rushConfiguration initialState in
  ((forall change, In change (changes world) -> aboveDependency change = false) ->
   Forall (fun e => isPublishCommand e = false /\ isRegistryQuery e = false)
          (trace (snd outcome))) /\
  ((forall h e, throws world h e = false) ->
   _regenerateChangelogs this = false ->
   invalidCombination this = false ->
   hasChanges world = true ->
   hasUncommittedChanges world = true ->
   exists rest,
     trace (snd outcome) =
       changesOpening world this rushConfiguration
       ++ publishPass world this rushConfiguration
            (afterScan world this rushConfiguration) (changes world)
       ++ rest /\
     Forall (fun e => isGitCall e = true \/ e = successLine world) rest).
Proof.
  intros Hmode outcome. split.
  - intros Hlow.
    exact (proj1 (emits_initial _ _ _
             (run_emits_noRegistryCall world this rushConfiguration Hmode Hlow))).
  - intros Hquiet Hregen Hvalid Hchanges Hdirty.
    exact (run_changes_quiet world this rushConfiguration Hquiet Hregen Hmode Hvalid
             Hchanges Hdirty).
Qed.

(** The ledger with only a dependency bump of [b]: nothing is published.
    The ledger of the small repository with a patch of [ghost], which the
    repository does not have, and a patch of the private [tools]: the publish
    pass asks about [a] and publishes it, prints the line for [ghost], and
    asks about [tools]. *)
Lemma publish_pass_per_change_witness :
  Forall (fun e => isPublishCommand e = false /\ isRegistryQuery e = false)
         (trace (snd (run (Demo.world [Demo.change "b" ChangeType.dependency "1.0.1"] true)
                          Demo.publishChangesMode Demo.repository initialState))) /\
  let ledger := Demo.ledger ++ Demo.change "ghost" ChangeType.patch "0.0.2" :: privateLedger in
  exists rest,
    trace (snd (run (Demo.world ledger true) Demo.publishChangesMode Demo.repository
                    initialState)) =
      changesOpening (Demo.world ledger true) Demo.publishChangesMode Demo.repository
      ++ publishPass (Demo.world ledger true) Demo.publishChangesMode Demo.repository
           (afterScan (Demo.world ledger true) Demo.publishChangesMode Demo.repository)
           ledger
      ++ rest /\
    Forall (fun e => isGitCall e = true \/ e = successLine (Demo.world ledger true)) rest.
Proof.
  split.
  - apply (proj1 (publish_pass_per_change
                    (Demo.world [Demo.change "b" ChangeType.dependency "1.0.1"] true)
                    Demo.publishChangesMode Demo.repository eq_refl)).
    intros change [<- | []]. reflexivity.
  - intros ledger.
    apply (proj2 (publish_pass_per_change
                    (Demo.world ledger true) Demo.publishChangesMode Demo.repository
                    eq_refl));
      reflexivity.
Defined.

(** ** Publish all: the iteration over the project map *)

Section CallsOfPublishAll.

Variable world : World.
Variable this : Parameters.
Variable rushConfiguration : RushConfiguration.t.
Hypothesis mapKeys :
  uniqueKeys (RushConfiguration.projectsByName rushConfiguration) = true.

(** The callback without [--pack], when it returns. *)
Lemma publishAllEntry_Ok (updated v : bool) (entry : string * RushConfigurationProject.t)
    (s s' : State) :
  In entry (RushConfiguration.projectsByName rushConfiguration) ->
  _pack this = false ->
  publishAllEntry world this rushConfiguration updated entry s = (Ok v, s') ->
  s' = recordAll (publishAllFor world this rushConfiguration s entry) s /\
  v = updated || existsb isPublishCommand (publishAllFor world this rushConfiguration s entry).
Proof.
  destruct entry as [packageName packageConfig]. intros Hin Hpack.
  unfold publishAllEntry, publishAllFor. cbn [fst snd]. rewrite Hpack.
  destruct (qualifies this packageConfig) eqn:Hqualifies;
    [| intros [= <- <-]; now rewrite orb_false_r].
  assert (Hpublishable : RushConfigurationProject.shouldPublish packageConfig = true).
  { unfold qualifies in Hqualifies. now apply andb_prop in Hqualifies. }
  assert (Hpublish : forall s1 v1 s1',
            bind (_npmPublish world this rushConfiguration packageName
                    (RushConfigurationProject.projectFolder packageConfig))
                 (fun _ =>
                    bind (call world (tagOfEntry this (packageName, packageConfig)))
                         (fun _ => ret true)) s1 = (Ok v1, s1') ->
            s1' = recordAll
                    [publishCommand world this rushConfiguration s1
                       (RushConfigurationProject.projectFolder packageConfig);
                     tagOfEntry this (packageName, packageConfig)] s1 /\
            v1 = true).
  { intros s1 v1 s1'. unfold bind.
    rewrite _npmPublish_cases, (Map_get_unique _ _ _ mapKeys Hin), Hpublishable.
    rewrite call_cases. destruct (throws world (history s1) _); [discriminate |].
    rewrite call_cases. destruct (throws world _ _); [discriminate |].
    intros [= <- <-]. split; reflexivity. }
  cbv zeta. destruct (_force this).
  - unfold bind at 1. unfold ret at 1. intros Hrun.
    destruct (Hpublish _ _ _ Hrun) as [-> ->].
    split; [reflexivity |]. simpl. now rewrite orb_true_r.
  - unfold bind at 1. unfold bind at 1. rewrite _packageExists_cases.
    destruct (throws world (history s) _); [discriminate |].
    unfold ret at 1.
    destruct (answerHasVersion _ packageConfig); cbn [negb].
    + intros [= <- <-]. split; [reflexivity |]. simpl. now rewrite orb_false_r.
    + intros Hrun. destruct (Hpublish _ _ _ Hrun) as [-> ->].
      split; [reflexivity |]. simpl. now rewrite orb_true_r.
Qed.

Lemma publishAllPass_Ok (entries : ProjectMap) (updated v : bool) (s s' : State) :
  (forall entry, In entry entries ->
                 In entry (RushConfiguration.projectsByName rushConfiguration)) ->
  _pack this = false ->
  forEachWith (publishAllEntry world this rushConfiguration) updated entries s
    = (Ok v, s') ->
  s' = recordAll (publishAllPass world this rushConfiguration s entries) s /\
  v = updated || existsb isPublishCommand
                   (publishAllPass world this rushConfiguration s entries).
Proof.
  intros Hsub Hpack. revert updated s Hsub.
  induction entries as [| entry rest IH]; intros updated s Hsub; simpl.
  - intros [= <- <-]. now rewrite orb_false_r.
  - intros Hrun. apply bind_Ok in Hrun. destruct Hrun as (v1 & s1 & Hfirst & Hrest).
    apply publishAllEntry_Ok in Hfirst; [| apply Hsub; now left | exact Hpack].
    destruct Hfirst as [-> ->].
    apply IH in Hrest; [| intros e He; apply Hsub; now right].
    destruct Hrest as [-> ->].
    split; [now rewrite recordAll_app |].
    now rewrite existsb_app, orb_assoc.
Qed.

Ltac returned :=
  rewrite call_cases;
  match goal with
  | |- context [throws world ?h ?e] => destruct (throws world h e)
  end;
  [ cbv beta iota; discriminate | cbv beta iota ].

(** A publish-all run without [--pack] that returns. *)
Lemma run_publishAll_Ok (s' : State) :
  _regenerateChangelogs this = false ->
  _includeAll this = true ->
  _pack this = false ->
  run world this rushConfiguration initialState = (Ok tt, s') ->
  let pass :=
    publishAllPass world this rushConfiguration
      (recordAll (publishAllOpening this) initialState)
      (RushConfiguration.projectsByName rushConfiguration) in
  s' = recordAll
         (pass
          ++ (if existsb isPublishCommand pass then [GitPush (_targetBranch this)] else [])
          ++ [successLine world])
         (recordAll (publishAllOpening this) initialState).
Proof.
  intros Hregen Hmode Hpack.
  unfold run, _publishAll. rewrite Hregen, Hmode.
  unfold bind. returned.
  destruct (invalidCombination this) eqn:Hvalid.
  { destruct (_validate_invalid this Hvalid) as [message Hmessage].
    rewrite Hmessage. discriminate. }
  rewrite (_validate_valid this Hvalid). cbv beta iota.
  unfold console_log. cbv beta iota.
  match goal with
  | |- context [forEachWith ?body ?v ?l ?s] =>
      destruct (forEachWith body v l s) as [[updated | e] s2] eqn:Hloop;
        [| discriminate]
  end.
  apply publishAllPass_Ok in Hloop; [| auto | exact Hpack].
  destruct Hloop as [Hs2 Hupdated]. simpl in Hupdated.
  set (s0 := recordAll (publishAllOpening this) initialState).
  change (record (ConsoleLog _) (record (ValidatePolicy false) initialState))
    with s0 in Hs2, Hupdated.
  rewrite <- Hupdated, !recordAll_app, <- Hs2.
  destruct updated; [returned | unfold ret; cbv beta iota]; now intros [= <-].
Qed.

End CallsOfPublishAll.

Section PackAll.

Variable world : World.
Variable this : Parameters.
Variable rushConfiguration : RushConfiguration.t.
Hypothesis packing : _pack this = true.

Lemma packedSoFar_record folders e s :
  isPackCommand e = false -> isPush e = false ->
  packedSoFar folders s -> packedSoFar folders (record e s).
Proof.
  intros Hpack Hpush [Hfolders Hpushes]. unfold packedSoFar.
  rewrite trace_record, !filter_app. simpl. rewrite Hpack, Hpush, !app_nil_r.
  auto.
Qed.

Lemma packedSoFar_pack folders shouldExecute tool folder env s :
  packedSoFar folders s ->
  packedSoFar (folders ++ [folder])
    (record (ExecCommand shouldExecute tool ["pack"] folder env) s).
Proof.
  intros [Hfolders Hpushes]. unfold packedSoFar.
  rewrite trace_record, !filter_app. simpl.
  rewrite map_app, Hfolders, Hpushes. auto.
Qed.

Ltac packed :=
  intros;
  first [ exact I
        | assumption
        | apply packedSoFar_record; [reflexivity | reflexivity | assumption] ].

Lemma _npmPack_packed folders packageName project :
  triple (packedSoFar folders)
         (_npmPack world this rushConfiguration packageName project)
         (fun _ => packedSoFar
                     (folders ++ [RushConfigurationProject.projectFolder project]))
         (fun _ _ => True).
Proof.
  unfold _npmPack.
  apply triple_keep_bind; [autounfold with action; keep_auto fail packed |].
  intros ?.
  eapply triple_bind with
    (R := fun _ => packedSoFar
                     (folders ++ [RushConfigurationProject.projectFolder project])).
  - apply triple_call; [| packed]. intros s Hs _. now apply packedSoFar_pack.
  - intros ?. keep_auto fail packed.
Qed.

Lemma publishAllEntry_packed (folders : list string) (updated : bool)
    (entry : string * RushConfigurationProject.t) :
  triple (packedSoFar folders)
         (publishAllEntry world this rushConfiguration updated entry)
         (fun v s => v = updated /\
                     packedSoFar (folders ++ qualifyingFolders this [entry]) s)
         (fun _ _ => True).
Proof.
  destruct entry as [packageName packageConfig].
  unfold publishAllEntry, qualifyingFolders. rewrite packing. simpl.
  destruct (qualifies this packageConfig); simpl.
  - eapply triple_bind; [apply _npmPack_packed |].
    intros ?. apply triple_ret. auto.
  - apply triple_ret. intros s Hs. now rewrite app_nil_r.
Qed.

Lemma qualifyingFolders_cons (entry : string * RushConfigurationProject.t)
    (rest : ProjectMap) :
  qualifyingFolders this (entry :: rest) =
    qualifyingFolders this [entry] ++ qualifyingFolders this rest.
Proof.
  unfold qualifyingFolders. simpl.
  destruct (qualifies this (snd entry)); reflexivity.
Qed.

Lemma publishAllPass_packed (entries : ProjectMap) (folders : list string)
    (updated : bool) :
  triple (packedSoFar folders)
         (forEachWith (publishAllEntry world this rushConfiguration) updated entries)
         (fun v s => v = updated /\
                     packedSoFar (folders ++ qualifyingFolders this entries) s)
         (fun _ _ => True).
Proof.
  revert folders. induction entries as [| entry rest IH]; intros folders.
  - apply triple_ret. intros s Hs. unfold qualifyingFolders. simpl.
    now rewrite app_nil_r.
  - cbn [forEachWith]. rewrite qualifyingFolders_cons, app_assoc.
    eapply triple_bind; [apply publishAllEntry_packed |].
    intros v s [-> Hs]. exact (IH _ s Hs).
Qed.

(** A publish-all run with [--pack] that returns. *)
Lemma run_packAll_Ok (s' : State) :
  _regenerateChangelogs this = false ->
  _includeAll this = true ->
  run world this rushConfiguration initialState = (Ok tt, s') ->
  packedSoFar
    (qualifyingFolders this (RushConfiguration.projectsByName rushConfiguration)) s'.
Proof.
  intros Hregen Hmode.
  unfold run, _publishAll. rewrite Hregen, Hmode.
  unfold bind.
  rewrite call_cases.
  destruct (throws world (history initialState) _); [discriminate |].
  cbv beta iota.
  destruct (_validate this _) as [[[] | e] s1] eqn:Hvalidate; [| discriminate].
  assert (Hs1 : s1 = record (ValidatePolicy false) initialState).
  { destruct (invalidCombination this) eqn:Hvalid.
    - destruct (_validate_invalid this Hvalid) as [message Hmessage].
      rewrite Hmessage in Hvalidate. discriminate.
    - rewrite (_validate_valid this Hvalid) in Hvalidate. now injection Hvalidate. }
  subst s1. unfold console_log. cbv beta iota.
  match goal with
  | |- context [forEachWith ?body ?v ?l ?s] =>
      pose proof (publishAllPass_packed l [] false s) as Hloop;
      destruct (forEachWith body v l s) as [[updated | e] s2]; [| discriminate]
  end.
  destruct Hloop as [-> Hs2]; [split; reflexivity |].
  cbv beta iota. intros [= <-].
  apply packedSoFar_record; [reflexivity | reflexivity | exact Hs2].
Qed.

End PackAll.

(** C7, as stated, fails in a dry run.  [rush publish --include-all] without
    [--publish] on the small repository: the publish command for [a] is
    issued but told not to execute, as is its tag call, so no package is
    actually published; the target branch is pushed all the same. *)
Lemma dry_run_pushes_without_publishing :
  let outcome :=
    run (Demo.world [] false) Samples.dryPublishAll Demo.repository initialState in
  _publish Samples.dryPublishAll = false /\
  fst outcome = Ok tt /\
  trace (snd outcome) =
    [ValidatePolicy false;
     ConsoleLog "Rush publish starts with includeAll and version policy undefined";
     NpmPublishedVersions "a" "/repo/a" [("PATH", "/bin")] ["1.0.0"];
     ExecCommand false "/bin/npm" ["publish"] "/repo/a" [("PATH", "/bin")];
     GitAddTag false "a" (Some "1.1.0");
     NpmPublishedVersions "b" "/repo/b" [("PATH", "/bin")] ["1.0.0"];
     ConsoleLog "Skip b. Not updated.";
     GitPush (Some "master");
     ConsoleLog (String (ascii_of_nat 10) "Rush publish finished successfully.")].
Proof. vm_compute. repeat split. Qed.

(** C7, amended.  In publish-all mode a descriptor qualifies exactly when it
    has [shouldPublish] set and either no version-policy filter was given or
    the filter equals its policy name.  A run without [--pack] that returns
    has gone through the project map in its order: it has made no call for a
    descriptor that does not qualify, and for one that qualifies it has
    issued the publish command and the tag call (with the force flag, or
    after a registry query whose answer lacks the version) or printed the
    "Not updated" line after its query; after the iteration it has pushed the
    target branch once if it issued a publish command for some package,
    whether or not the publish flag lets the command execute, and not at all
    otherwise; the closing line follows.  A run with [--pack] that returns
    has run one pack command for every qualifying descriptor, in the order
    of the map, and has pushed nothing. *)
Theorem publish_all_qualification_and_single_push
    (world : World) (this : Parameters) (rushConfiguration : RushConfiguration.t) :
  uniqueKeys (RushConfiguration.projectsByName rushConfiguration) = true ->
  _regenerateChangelogs this = false ->
  _includeAll this = true ->
  let outcome := run world this rushConfiguration initialState in
  let allPackages := RushConfiguration.projectsByName rushConfiguration in
  (forall packageConfig,
     qualifies this packageConfig = true <-> qualifies_spec this packageConfig) /\
  (_pack this = false ->
   fst outcome = Ok tt ->
   let pass :=
     publishAllPass world this rushConfiguration
       (recordAll (publishAllOpening this) initialState) allPackages in
   trace (snd outcome) =
     publishAllOpening this
     ++ pass
     ++ (if existsb isPublishCommand pass then [GitPush (_targetBranch this)] else [])
     ++ [successLine world]) /\
  (_pack this = true ->
   fst outcome = Ok tt ->
   map commandDirectory (filter isPackCommand (trace (snd outcome))) =
     qualifyingFolders this allPackages /\
   filter isPush (trace (snd outcome)) = []).
Proof.
  intros Hkeys Hregen Hmode outcome allPackages.
  split; [intros packageConfig; apply qualifies_iff_spec |].
  subst outcome.
  destruct (run world this rushConfiguration initialState) as [r s'] eqn:Hrun.
  simpl fst. simpl snd. split.
  - intros Hpack -> pass.
    rewrite (run_publishAll_Ok world this rushConfiguration Hkeys s' Hregen Hmode
               Hpack Hrun).
    rewrite !trace_recordAll. reflexivity.
  - intros Hpack ->.
    exact (run_packAll_Ok world this rushConfiguration Hpack s' Hregen Hmode Hrun).
Qed.

(** Publish-all on the small repository: [a] is published and tagged, [b]
    is already in the registry, [tools] is private and passed over; the
    target branch is pushed once.  With [--pack]: [a] and [b] are packed. *)
Lemma publish_all_qualification_and_single_push_witness :
  trace (snd (run (Demo.world [] false) Demo.publishAllMode Demo.repository
                  initialState)) =
    [ValidatePolicy false;
     ConsoleLog "Rush publish starts with includeAll and version policy undefined";
     NpmPublishedVersions "a" "/repo/a" [("PATH", "/bin")] ["1.0.0"];
     ExecCommand true "/bin/npm" ["publish"] "/repo/a" [("PATH", "/bin")];
     GitAddTag true "a" (Some "1.1.0");
     NpmPublishedVersions "b" "/repo/b" [("PATH", "/bin")] ["1.0.0"];
     ConsoleLog "Skip b. Not updated.";
     GitPush (Some "master");
     ConsoleLog (String (ascii_of_nat 10) "Rush publish finished successfully.")] /\
  map commandDirectory
      (filter isPackCommand
         (trace (snd (run (Demo.world [] false) Samples.packAll Demo.repository
                          initialState))))
    = ["/repo/a"; "/repo/b"] /\
  filter isPush
    (trace (snd (run (Demo.world [] false) Samples.packAll Demo.repository
                     initialState))) = [].
Proof.
  split.
  - apply (proj1 (proj2 (publish_all_qualification_and_single_push
                           (Demo.world [] false) Demo.publishAllMode Demo.repository
                           eq_refl eq_refl eq_refl)));
      reflexivity.
  - apply (proj2 (proj2 (publish_all_qualification_and_single_push
                           (Demo.world [] false) Samples.packAll Demo.repository
                           eq_refl eq_refl eq_refl)));
      reflexivity.
Defined.

(** * Further properties of the action *)

(** ** The tarball name *)

Lemma hasChar_append (c : ascii) (s t : string) :
  hasChar c (s ++ t)%string = hasChar c s || hasChar c t.
Proof.
  induction s as [| d s IH]; simpl; [reflexivity |].
  rewrite IH. apply orb_assoc.
Qed.

Lemma replaceSlashes_no_slash (s : string) : hasChar "/"%char (replaceSlashes s) = false.
Proof.
  induction s as [| c s IH]; simpl; [reflexivity |].
  rewrite IH, orb_false_r.
  destruct (Ascii.eqb c "/"%char) eqn:Hc; [reflexivity | exact Hc].
Qed.

Lemma replaceSlashes_id (s : string) :
  hasChar "/"%char s = false -> replaceSlashes s = s.
Proof.
  induction s as [| c s IH]; simpl; [reflexivity |].
  intros H. apply orb_false_iff in H. destruct H as [Hc Hs].
  rewrite Hc, (IH Hs). reflexivity.
Qed.

(** X1.  The tarball of a scoped package (a name that starts with [@]) is a
    plain file name: it holds no [/], whatever the scope and the name, as
    long as the version holds none. *)
Theorem scoped_tarball_name_has_no_slash
    (project : RushConfigurationProject.t) (scopedName : string) :
  RushConfigurationProject.packageName project = String "@"%char scopedName ->
  hasChar "/"%char (IPackageJson.version (RushConfigurationProject.packageJson project))
    = false ->
  hasChar "/"%char (_calculateTarballName project) = false.
Proof.
  intros Hname Hversion. unfold _calculateTarballName. rewrite Hname.
  change (Ascii.eqb "@"%char "@"%char) with true. cbv iota.
  rewrite !hasChar_append, replaceSlashes_no_slash, Hversion. reflexivity.
Qed.

Lemma scoped_tarball_name_has_no_slash_witness :
  hasChar "/"%char (_calculateTarballName (projectNamed "@microsoft/rush-lib" "5.0.0"))
    = false.
Proof.
  apply (scoped_tarball_name_has_no_slash
           (projectNamed "@microsoft/rush-lib" "5.0.0") "microsoft/rush-lib");
    reflexivity.
Defined.

Lemma replaceSlashes_append (s t : string) :
  replaceSlashes (s ++ t)%string = (replaceSlashes s ++ replaceSlashes t)%string.
Proof.
  induction s as [| c s IH]; simpl; [reflexivity |].
  now rewrite IH.
Qed.

(** X2.  The tarball name does not tell a scoped package from an unscoped
    one: [@scope/name] and [scope-name] at the same version get the same
    tarball name, so in one release folder the tarball moved second
    overwrites the first. *)
Theorem scoped_and_unscoped_tarball_names_collide (scope name version : string) :
  hasChar "/"%char scope = false ->
  hasChar "@"%char scope = false ->
  hasChar "/"%char name = false ->
  _calculateTarballName
    (projectNamed (String "@"%char (scope ++ "/" ++ name))%string version)
  = _calculateTarballName (projectNamed (scope ++ "-" ++ name)%string version).
Proof.
  intros Hscope Hat Hname. unfold _calculateTarballName, projectNamed.
  cbn [RushConfigurationProject.packageName RushConfigurationProject.packageJson
       IPackageJson.version].
  change (Ascii.eqb "@"%char "@"%char) with true. cbv iota.
  rewrite replaceSlashes_append, (replaceSlashes_id scope Hscope).
  change (replaceSlashes ("/" ++ name)%string)
    with (String "-"%char (replaceSlashes name)).
  rewrite (replaceSlashes_id name Hname).
  change (String "-"%char name) with ("-" ++ name)%string.
  destruct scope as [| c scope]; [reflexivity |].
  simpl in Hat. apply orb_false_iff in Hat. destruct Hat as [Hc _].
  cbn [append]. rewrite Hc. reflexivity.
Qed.

Lemma scoped_and_unscoped_tarball_names_collide_witness :
  _calculateTarballName (projectNamed "@rush/lib" "1.0.0")
  = _calculateTarballName (projectNamed "rush-lib" "1.0.0").
Proof.
  apply (scoped_and_unscoped_tarball_names_collide "rush" "lib" "1.0.0");
    reflexivity.
Defined.

(** ** Footprints of whole runs *)

Section RunFootprints.

Variable world : World.
Variable this : Parameters.
Variable rushConfiguration : RushConfiguration.t.

Lemma run_emits_dry :
  _publish this = false ->
  emits (fun e => executes e = false) (fun _ => True) (run world this rushConfiguration).
Proof.
  intros Hdry. autounfold with action. unfold shouldTag. rewrite !Hdry.
  repeat first [ discriminate | emits_step ltac:(simpl; auto) ].
Qed.

Lemma run_emits_tools :
  emits (fun e =>
           (isPublishCommand e = true ->
            commandTool e =
              (if RushConfiguration.packageManager rushConfiguration =? "yarn"
               then "npm"
               else RushConfiguration.packageManagerToolFilename rushConfiguration) /\
            commandEnv e = registryEnv world this) /\
           (isPackCommand e = true ->
            commandTool e = RushConfiguration.packageManagerToolFilename rushConfiguration /\
            commandEnv e = getEnvArgs world) /\
           (isRegistryQuery e = true -> commandEnv e = registryEnv world this) /\
           (isCommand e = true -> isPublishCommand e = true \/ isPackCommand e = true))
        (fun _ => True) (run world this rushConfiguration).
Proof.
  emits_auto ltac:(simpl; try tauto;
                   repeat split; intros; try discriminate; auto).
Qed.

Lemma run_emits_noChanges :
  _includeAll this = false ->
  hasChanges world = false ->
  emits (fun e => isGitCall e = false /\ isCommand e = false /\
                  isRegistryQuery e = false /\ isApply e = false)
        (fun _ => True) (run world this rushConfiguration).
Proof.
  intros Hmode Hnone. unfold run. rewrite Hmode.
  autounfold with action. rewrite Hnone.
  repeat first [ discriminate | emits_step ltac:(simpl; auto) ].
Qed.

Lemma run_emits_forced :
  _includeAll this = true ->
  _force this = true ->
  emits (fun e => isRegistryQuery e = false) (fun _ => True)
        (run world this rushConfiguration).
Proof.
  intros Hmode Hforce. unfold run. rewrite Hmode.
  autounfold with action. rewrite Hforce.
  repeat first [ discriminate | emits_step ltac:(simpl; auto) ].
Qed.

End RunFootprints.

(** X3.  Without the publish flag a run is dry as far as the action decides
    it: every package-manager command and every tag call is handed the
    do-not-execute flag, and no tarball is moved.  This holds in both modes
    and for the runs an exception cuts short. *)
Theorem without_publish_flag_nothing_executes
    (world : World) (this : Parameters) (rushConfiguration : RushConfiguration.t)
    (e : Event) :
  _publish this = false ->
  In e (trace (snd (run world this rushConfiguration initialState))) ->
  executes e = false.
Proof.
  intros Hdry Hin.
  pose proof (proj1 (emits_initial _ _ _
                       (run_emits_dry world this rushConfiguration Hdry))) as Hall.
  rewrite Forall_forall in Hall. exact (Hall e Hin).
Qed.

Lemma without_publish_flag_nothing_executes_witness :
  executes (ExecCommand false "/bin/npm" ["publish"] "/repo/a" [("PATH", "/bin")]) = false.
Proof.
  apply (without_publish_flag_nothing_executes
           (Demo.world [] false) Samples.dryPublishAll Demo.repository).
  - reflexivity.
  - vm_compute. tauto.
Defined.

(** X4.  Every package-manager command of a run is a publish or a pack
    command.  A publish command runs [npm] when the package manager is yarn
    and the configured tool otherwise; a pack command always runs the
    configured tool, yarn included.  A publish command and a registry query
    are given the registry environment; a pack command is given the plain
    environment, without the registry URL. *)
Theorem commands_tool_and_environment
    (world : World) (this : Parameters) (rushConfiguration : RushConfiguration.t)
    (e : Event) :
  In e (trace (snd (run world this rushConfiguration initialState))) ->
  (isPublishCommand e = true ->
   commandTool e =
     (if RushConfiguration.packageManager rushConfiguration =? "yarn"
      then "npm"
      else RushConfiguration.packageManagerToolFilename rushConfiguration) /\
   commandEnv e = registryEnv world this) /\
  (isPackCommand e = true ->
   commandTool e = RushConfiguration.packageManagerToolFilename rushConfiguration /\
   commandEnv e = getEnvArgs world) /\
  (isRegistryQuery e = true -> commandEnv e = registryEnv world this) /\
  (isCommand e = true -> isPublishCommand e = true \/ isPackCommand e = true).
Proof.
  intros Hin.
  pose proof (proj1 (emits_initial _ _ _
                       (run_emits_tools world this rushConfiguration))) as Hall.
  rewrite Forall_forall in Hall. exact (Hall e Hin).
Qed.

(** Publish-all in the repository managed with yarn: [a] is published with
    [npm]. *)
Lemma commands_tool_and_environment_witness :
  commandTool (ExecCommand true "npm" ["publish"] "/repo/a" [("PATH", "/bin")]) = "npm".
Proof.
  refine (proj1 (proj1 (commands_tool_and_environment
                          (Demo.world [] false) Demo.publishAllMode Samples.yarnRepository
                          (ExecCommand true "npm" ["publish"] "/repo/a" [("PATH", "/bin")])
                          _) eq_refl)).
  vm_compute. tauto.
Defined.

Lemma env_get_set_same (key value : string) (env : Env) :
  env_get key (env_set key value env) = Some value.
Proof. unfold env_set. simpl. now rewrite String.eqb_refl. Qed.

Lemma env_get_set_other (key other value : string) (env : Env) :
  other <> key -> env_get other (env_set key value env) = env_get other env.
Proof.
  intros Hother. unfold env_set. simpl.
  destruct (key =? other) eqn:Hk.
  { apply String.eqb_eq in Hk. congruence. }
  induction env as [| [k v] env IH]; simpl; [reflexivity |].
  destruct (k =? key) eqn:Hkk; simpl.
  - apply String.eqb_eq in Hkk. subst k. rewrite Hk. exact IH.
  - destruct (k =? other); [reflexivity | exact IH].
Qed.

Lemma env_set_once (key value : string) (env : Env) :
  List.length (filter (fun kv => fst kv =? key) (env_set key value env)) = 1%nat.
Proof.
  unfold env_set. simpl. rewrite String.eqb_refl. simpl. f_equal.
  induction env as [| [k v] env IH]; simpl; [reflexivity |].
  destruct (k =? key) eqn:Hk; simpl; [exact IH |].
  rewrite Hk. exact IH.
Qed.

(** X5.  The registry environment: with a registry URL, reading
    [npm_config_registry] gives that URL, the key occurs once (an entry
    inherited from the process is replaced), and every other key reads as in
    the plain environment; without one it is the plain environment. *)
Theorem registry_environment_carries_the_url (world : World) (this : Parameters) :
  (forall url,
     truthyValue (_registryUrl this) = Some url ->
     env_get "npm_config_registry" (registryEnv world this) = Some url /\
     List.length (filter (fun kv => fst kv =? "npm_config_registry")
                         (registryEnv world this)) = 1%nat /\
     forall key, key <> "npm_config_registry" ->
       env_get key (registryEnv world this) = env_get key (getEnvArgs world)) /\
  (truthy (_registryUrl this) = false -> registryEnv world this = getEnvArgs world).
Proof.
  unfold registryEnv, truthy. split.
  - intros url ->. split; [apply env_get_set_same |].
    split; [apply env_set_once |].
    intros key Hkey. now apply env_get_set_other.
  - destruct (truthyValue (_registryUrl this)); [discriminate | reflexivity].
Qed.

Lemma registry_environment_carries_the_url_witness :
  env_get "npm_config_registry" (registryEnv (Demo.world [] false) Samples.privateRegistry)
    = Some "https://registry.example/npm/".
Proof.
  exact (proj1 (proj1 (registry_environment_carries_the_url
                         (Demo.world [] false) Samples.privateRegistry)
                  "https://registry.example/npm/" eq_refl)).
Defined.

(** ** The registry key of the auth token *)

Lemma substring_all (s : string) : substring 0 (String.length s) s = s.
Proof.
  induction s as [| c s IH]; simpl; [reflexivity |].
  now rewrite IH.
Qed.

Lemma prefix_slashes_here (rest : string) : prefix "//" ("//" ++ rest)%string = true.
Proof. apply prefix_correct. destruct rest; reflexivity. Qed.

Lemma prefix_slashes_not_here (c : ascii) (rest : string) :
  Ascii.eqb c "/"%char = false -> prefix "//" (String c rest) = false.
Proof.
  intros Hc. destruct (prefix "//" (String c rest)) eqn:Hp; [| reflexivity].
  apply prefix_correct in Hp. simpl in Hp. injection Hp as Hhead _.
  subst c. discriminate.
Qed.

Lemma index_after_scheme (scheme rest : string) :
  hasChar "/"%char scheme = false ->
  index 0 "//" (scheme ++ "//" ++ rest)%string = Some (String.length scheme).
Proof.
  induction scheme as [| c scheme IH]; intros Hscheme.
  - change (index 0 "//" ("" ++ "//" ++ rest)%string)
      with (if prefix "//" ("//" ++ rest)%string then Some 0%nat
            else match index 0 "//" (String "/" rest) with
                 | Some n => Some (S n)
                 | None => None
                 end).
    now rewrite prefix_slashes_here.
  - simpl in Hscheme. apply orb_false_iff in Hscheme. destruct Hscheme as [Hc Hrest].
    cbn [append]. cbn [index].
    rewrite (prefix_slashes_not_here c _ Hc).
    cbn [append] in IH. rewrite (IH Hrest). reflexivity.
Qed.

Lemma index_without_slash (s : string) :
  hasChar "/"%char s = false -> index 0 "//" s = None.
Proof.
  induction s as [| c s IH]; intros Hs; [reflexivity |].
  simpl in Hs. apply orb_false_iff in Hs. destruct Hs as [Hc Hrest].
  cbn [index].
  rewrite (prefix_slashes_not_here c _ Hc), (IH Hrest). reflexivity.
Qed.

Lemma substringFromIndexOf_scheme (scheme rest : string) :
  hasChar "/"%char scheme = false ->
  substringFromIndexOf "//" (scheme ++ "//" ++ rest)%string = ("//" ++ rest)%string.
Proof.
  intros Hscheme. unfold substringFromIndexOf.
  rewrite (index_after_scheme scheme rest Hscheme).
  clear Hscheme. induction scheme as [| c scheme IH].
  - cbn [append String.length]. rewrite Nat.sub_0_r.
    apply (substring_all (String "/" (String "/" rest))).
  - cbn [append String.length substring Nat.sub]. exact IH.
Qed.

(** X6.  The auth-token argument of a publish command names the registry
    without its scheme: for a registry URL [scheme//rest], where the scheme
    holds no [/], the argument is [--//rest:_authToken=token]; a registry URL
    without any [/] is used whole; without a registry URL the key is
    [//registry.npmjs.org/]; and without a token there is no such argument. *)
Theorem auth_token_argument_names_the_registry (this : Parameters) :
  (forall token scheme rest,
     truthyValue (_npmAuthToken this) = Some token ->
     truthyValue (_registryUrl this) = Some (scheme ++ "//" ++ rest)%string ->
     hasChar "/"%char scheme = false ->
     authTokenArgs this = ["--//" ++ rest ++ ":_authToken=" ++ token]%string) /\
  (forall token url,
     truthyValue (_npmAuthToken this) = Some token ->
     truthyValue (_registryUrl this) = Some url ->
     hasChar "/"%char url = false ->
     authTokenArgs this = ["--" ++ url ++ ":_authToken=" ++ token]%string) /\
  (forall token,
     truthyValue (_npmAuthToken this) = Some token ->
     truthy (_registryUrl this) = false ->
     authTokenArgs this = ["--//registry.npmjs.org/:_authToken=" ++ token]%string) /\
  (truthy (_npmAuthToken this) = false -> authTokenArgs this = []).
Proof.
  unfold authTokenArgs, truthy. repeat split.
  - intros token scheme rest -> -> Hscheme.
    rewrite (substringFromIndexOf_scheme scheme rest Hscheme). reflexivity.
  - intros token url -> -> Hurl. unfold substringFromIndexOf.
    rewrite (index_without_slash url Hurl). reflexivity.
  - intros token ->. destruct (truthyValue (_registryUrl this)); [discriminate | reflexivity].
  - destruct (truthyValue (_npmAuthToken this)); [discriminate | reflexivity].
Qed.

Lemma auth_token_argument_names_the_registry_witness :
  authTokenArgs Samples.privateRegistry = ["--//registry.example/npm/:_authToken=secret"].
Proof.
  exact (proj1 (auth_token_argument_names_the_registry Samples.privateRegistry)
           "secret" "https:" "registry.example/npm/" eq_refl eq_refl eq_refl).
Defined.

(** ** Runs with nothing to do *)

(** X7.  In publish-changes mode with a ledger that has no changes, no run
    makes a call on the version-control client, runs a command, queries the
    registry or applies a change: loading the ledger is all it does with
    it. *)
Theorem empty_ledger_changes_nothing
    (world : World) (this : Parameters) (rushConfiguration : RushConfiguration.t)
    (e : Event) :
  _includeAll this = false ->
  hasChanges world = false ->
  In e (trace (snd (run world this rushConfiguration initialState))) ->
  isGitCall e = false /\ isCommand e = false /\
  isRegistryQuery e = false /\ isApply e = false.
Proof.
  intros Hmode Hnone Hin.
  pose proof (proj1 (emits_initial _ _ _
                       (run_emits_noChanges world this rushConfiguration Hmode Hnone)))
    as Hall.
  rewrite Forall_forall in Hall. exact (Hall e Hin).
Qed.

Lemma empty_ledger_changes_nothing_witness :
  isGitCall (ChangeManagerLoad "/repo/common/changes"
               (Some {| PrereleaseToken.prereleaseName := None;
                        PrereleaseToken.suffixName := None |}) false) = false /\
  isCommand (ChangeManagerLoad "/repo/common/changes"
               (Some {| PrereleaseToken.prereleaseName := None;
                        PrereleaseToken.suffixName := None |}) false) = false /\
  isRegistryQuery (ChangeManagerLoad "/repo/common/changes"
               (Some {| PrereleaseToken.prereleaseName := None;
                        PrereleaseToken.suffixName := None |}) false) = false /\
  isApply (ChangeManagerLoad "/repo/common/changes"
               (Some {| PrereleaseToken.prereleaseName := None;
                        PrereleaseToken.suffixName := None |}) false) = false.
Proof.
  apply (empty_ledger_changes_nothing
           (Demo.world [] false) Demo.publishChangesMode Demo.repository).
  - reflexivity.
  - reflexivity.
  - vm_compute. tauto.
Defined.

Section NothingQualifies.

Variable world : World.
Variable this : Parameters.
Variable rushConfiguration : RushConfiguration.t.

Lemma publishAll_loop_skips allPackages updated s :
  existsb (fun entry => qualifies this (snd entry)) allPackages = false ->
  forEachWith (publishAllEntry world this rushConfiguration) updated allPackages s
    = (Ok updated, s).
Proof.
  induction allPackages as [| [packageName packageConfig] rest IH]; simpl;
    [reflexivity |].
  intros H. apply orb_false_iff in H. destruct H as [Hfirst Hrest].
  unfold bind. rewrite Hfirst. simpl. exact (IH Hrest).
Qed.

End NothingQualifies.

(** X8.  When no descriptor of the map qualifies (an empty map, none marked
    [shouldPublish], or a version-policy filter that matches none),
    [_publishAll] prints its opening line and does nothing else, whatever
    the flags: no command, no query, no tag, no push. *)
Theorem publish_all_without_qualifying_descriptor
    (world : World) (this : Parameters) (rushConfiguration : RushConfiguration.t)
    (allPackages : ProjectMap) (s : State) :
  existsb (fun entry => qualifies this (snd entry)) allPackages = false ->
  _publishAll world this rushConfiguration allPackages s =
    (Ok tt,
     record (ConsoleLog ("Rush publish starts with includeAll and version policy "
                         ++ interpolate (_versionPolicy this))%string) s).
Proof.
  intros Hnone. unfold _publishAll, bind. simpl.
  rewrite (publishAll_loop_skips world this rushConfiguration _ _ _ Hnone).
  reflexivity.
Qed.

Lemma publish_all_without_qualifying_descriptor_witness :
  _publishAll (Demo.world [] false) Samples.forceAll Demo.repository
    [Demo.project "tools" "0.1.0" false] initialState =
    (Ok tt,
     record (ConsoleLog "Rush publish starts with includeAll and version policy undefined")
            initialState).
Proof.
  exact (publish_all_without_qualifying_descriptor
           (Demo.world [] false) Samples.forceAll Demo.repository
           [Demo.project "tools" "0.1.0" false] initialState eq_refl).
Defined.

(** ** Pack mode *)

Lemma _validate_checked (this : Parameters) (P : State -> Prop) :
  triple P (_validate this)
         (fun _ s => P s /\ invalidCombination this = false) (fun _ => P).
Proof.
  intros s Hs. destruct (invalidCombination this) eqn:Hvalid.
  - destruct (_validate_invalid this Hvalid) as (message & Hfails).
    rewrite Hfails. exact Hs.
  - rewrite (_validate_valid this Hvalid). auto.
Qed.

Section PackMode.

Variable world : World.
Variable this : Parameters.
Variable rushConfiguration : RushConfiguration.t.
Hypothesis packing : _pack this = true.

Lemma onlyPacking_record e s :
  awayFromRegistryAndGit e -> onlyPacking s -> onlyPacking (record e s).
Proof. intros He Hs. constructor; assumption. Qed.

Ltac packs :=
  intros;
  first [ assumption
        | apply onlyPacking_record; [repeat split | assumption] ].

Lemma _npmPack_onlyPacking packageName project :
  triple onlyPacking (_npmPack world this rushConfiguration packageName project)
         (fun _ => onlyPacking) (fun _ => onlyPacking).
Proof. autounfold with action. keep_auto fail packs. Qed.

Lemma publishAllEntry_packs updated entry :
  triple (fun s => updated = false /\ onlyPacking s)
         (publishAllEntry world this rushConfiguration updated entry)
         (fun v s => v = false /\ onlyPacking s) (fun _ => onlyPacking).
Proof.
  destruct entry as [packageName packageConfig].
  unfold publishAllEntry. rewrite packing.
  destruct (qualifies this packageConfig); [| apply triple_ret; auto].
  intros s [Hu Hs]. unfold bind.
  pose proof (_npmPack_onlyPacking packageName packageConfig s Hs) as Hpack.
  destruct (_npmPack world this rushConfiguration packageName packageConfig s)
    as [[a | e] s1]; simpl; auto.
Qed.

Lemma run_onlyPacking :
  triple onlyPacking (run world this rushConfiguration)
         (fun _ => onlyPacking) (fun _ => onlyPacking).
Proof.
  unfold run.
  apply triple_keep_bind; [apply triple_call; packs |]. intros ?.
  destruct (_regenerateChangelogs this); [keep_auto fail packs |].
  eapply triple_bind; [apply _validate_checked |]. intros ?.
  eapply triple_bind with (R := fun _ => onlyPacking);
    [| intros ?; apply triple_console_log; packs].
  destruct (_includeAll this) eqn:Hall.
  - unfold _publishAll.
    eapply triple_bind with (R := fun _ => onlyPacking);
      [apply triple_console_log; intros s [Hs _]; packs |]. intros ?.
    eapply triple_bind with (R := fun v s => v = false /\ onlyPacking s).
    + eapply triple_conseq;
        [ | | | apply (triple_forEachWith
                          (fun v s => v = false /\ onlyPacking s) (fun _ => onlyPacking)
                          (publishAllEntry world this rushConfiguration)) ].
      * intros s Hs. split; [reflexivity | exact Hs].
      * auto.
      * auto.
      * intros v x _. apply publishAllEntry_packs.
    + intros v s [-> Hs]. simpl. exact Hs.
  - intros s [_ Hvalid]. exfalso.
    unfold invalidCombination in Hvalid. rewrite packing, Hall in Hvalid.
    discriminate.
Qed.

End PackMode.

(** X9.  With [--pack], no run issues a publish command, queries the
    registry or makes any call on the version-control client: packing
    neither tags nor pushes, in whatever way the run ends. *)
Theorem pack_mode_stays_away_from_registry_and_git
    (world : World) (this : Parameters) (rushConfiguration : RushConfiguration.t)
    (e : Event) :
  _pack this = true ->
  In e (trace (snd (run world this rushConfiguration initialState))) ->
  isPublishCommand e = false /\ isRegistryQuery e = false /\ isGitCall e = false.
Proof.
  intros Hpack Hin.
  pose proof (run_onlyPacking world this rushConfiguration Hpack initialState) as Hrun.
  assert (Hstart : onlyPacking initialState) by constructor.
  specialize (Hrun Hstart).
  destruct (run world this rushConfiguration initialState) as [r s'].
  assert (Hall : onlyPacking s') by (destruct r; exact Hrun).
  unfold onlyPacking in Hall. rewrite Forall_forall in Hall.
  apply (Hall e). apply in_rev. exact Hin.
Qed.

Lemma pack_mode_stays_away_from_registry_and_git_witness :
  isPublishCommand (ExecCommand true "/bin/npm" ["pack"] "/repo/a" [("PATH", "/bin")])
    = false /\
  isRegistryQuery (ExecCommand true "/bin/npm" ["pack"] "/repo/a" [("PATH", "/bin")])
    = false /\
  isGitCall (ExecCommand true "/bin/npm" ["pack"] "/repo/a" [("PATH", "/bin")]) = false.
Proof.
  apply (pack_mode_stays_away_from_registry_and_git
           (Demo.world [] false) Samples.packAll Demo.repository).
  - reflexivity.
  - vm_compute. tauto.
Defined.

(** ** Publish changes: the branch workflow *)

(** X10.  When the ledger has changes and applying them leaves uncommitted
    changes, a publish-changes run that returns has made these calls, in
    this order and no others: the opening calls, which check out the new
    temporary branch, apply the changes, stage, commit and push the branch;
    then the publish pass and after it the tag pass, neither of which makes
    a call on branches; then the closing calls, which push the temporary
    branch again, check out the target branch, pull, merge the temporary
    branch, push the target branch and delete the temporary branch.  So the
    calls on branches are these ten, and every registry operation and every
    tag call lies between the two pushes of the temporary branch. *)
Theorem changes_are_merged_through_the_temporary_branch
    (world : World) (this : Parameters) (rushConfiguration : RushConfiguration.t) :
  _regenerateChangelogs this = false ->
  _includeAll this = false ->
  hasChanges world = true ->
  hasUncommittedChanges world = true ->
  let outcome := run world this rushConfiguration initialState in
  let passes :=
    publishPass world this rushConfiguration
      (afterScan world this rushConfiguration) (changes world)
    ++ tagPass this rushConfiguration (changes world) in
  fst outcome = Ok tt ->
  trace (snd outcome) =
    changesOpening world this rushConfiguration ++ passes ++ changesClosing world this /\
  Forall (fun e => isBranchCall e = false) passes /\
  filter isBranchCall (trace (snd outcome)) = branchCallsOfChanges world this.
Proof.
  intros Hregen Hmode Hchanges Hdirty outcome passes Hok. subst outcome.
  destruct (run world this rushConfiguration initialState) as [r s'] eqn:Hrun.
  simpl in Hok. subst r. simpl snd.
  assert (Hquiet : Forall (fun e => isBranchCall e = false) passes).
  { apply Forall_app. split;
      [apply publishPass_noBranchCall | apply tagPass_noBranchCall]. }
  assert (Htrace : trace s' =
            changesOpening world this rushConfiguration ++ passes
            ++ changesClosing world this).
  { rewrite (run_changes_Ok world this rushConfiguration s' Hregen Hmode Hchanges
               Hdirty Hrun).
    rewrite trace_recordAll. unfold passes. now rewrite <- !app_assoc. }
  split; [exact Htrace |]. split; [exact Hquiet |].
  rewrite Htrace, !filter_app, (filter_none _ _ Hquiet). reflexivity.
Qed.

Lemma changes_are_merged_through_the_temporary_branch_witness :
  let world := Demo.world Demo.ledger true in
  let outcome := run world Demo.publishChangesMode Demo.repository initialState in
  let passes :=
    publishPass world Demo.publishChangesMode Demo.repository
      (afterScan world Demo.publishChangesMode Demo.repository) Demo.ledger
    ++ tagPass Demo.publishChangesMode Demo.repository Demo.ledger in
  trace (snd outcome) =
    changesOpening world Demo.publishChangesMode Demo.repository ++ passes
    ++ changesClosing world Demo.publishChangesMode /\
  Forall (fun e => isBranchCall e = false) passes /\
  filter isBranchCall (trace (snd outcome))
    = branchCallsOfChanges world Demo.publishChangesMode.
Proof.
  apply (changes_are_merged_through_the_temporary_branch
           (Demo.world Demo.ledger true) Demo.publishChangesMode Demo.repository);
    reflexivity.
Defined.

(** ** Publish all with the force flag *)

(** X11.  In publish-all mode with the force flag the registry is never
    asked which versions are published. *)
Theorem forced_publish_all_never_queries
    (world : World) (this : Parameters) (rushConfiguration : RushConfiguration.t)
    (e : Event) :
  _includeAll this = true ->
  _force this = true ->
  In e (trace (snd (run world this rushConfiguration initialState))) ->
  isRegistryQuery e = false.
Proof.
  intros Hmode Hforce Hin.
  pose proof (proj1 (emits_initial _ _ _
                       (run_emits_forced world this rushConfiguration Hmode Hforce)))
    as Hall.
  rewrite Forall_forall in Hall. exact (Hall e Hin).
Qed.

Lemma forced_publish_all_never_queries_witness :
  isRegistryQuery (ExecCommand true "/bin/npm" ["publish"; "--force"] "/repo/b"
                     [("PATH", "/bin")]) = false.
Proof.
  apply (forced_publish_all_never_queries
           (Demo.world [] false) Samples.forceAll Demo.repository).
  - reflexivity.
  - reflexivity.
  - vm_compute. tauto.
Defined.

Section ForcedPublishAll.

Variable world : World.
Variable this : Parameters.
Variable rushConfiguration : RushConfiguration.t.
Hypothesis mapKeys :
  uniqueKeys (RushConfiguration.projectsByName rushConfiguration) = true.
Hypothesis publishing : _pack this = false.
Hypothesis forced : _force this = true.

Lemma publishAllEntry_forced updated entry s v s' :
  In entry (RushConfiguration.projectsByName rushConfiguration) ->
  publishAllEntry world this rushConfiguration updated entry s = (Ok v, s') ->
  if qualifies this (snd entry) then
    history s' =
      [tagOfEntry this entry;
       publishCommand world this rushConfiguration s
         (RushConfigurationProject.projectFolder (snd entry))] ++ history s
  else history s' = history s.
Proof.
  destruct entry as [packageName packageConfig]. intros Hin.
  unfold publishAllEntry. cbn [snd].
  destruct (qualifies this packageConfig) eqn:Hqualifies; [| now intros [= _ <-]].
  assert (Hpublishable : RushConfigurationProject.shouldPublish packageConfig = true).
  { unfold qualifies in Hqualifies. now apply andb_prop in Hqualifies. }
  rewrite publishing, forced. unfold bind, ret.
  rewrite _npmPublish_cases, (Map_get_unique _ _ _ mapKeys Hin), Hpublishable.
  rewrite call_cases. destruct (throws world (history s) _); [discriminate |].
  rewrite call_cases. destruct (throws world _ _); [discriminate |].
  intros [= _ <-]. reflexivity.
Qed.

Lemma publishAll_loop_forced (entries : ProjectMap) :
  (forall entry, In entry entries ->
                 In entry (RushConfiguration.projectsByName rushConfiguration)) ->
  forall updated s v s',
    forEachWith (publishAllEntry world this rushConfiguration) updated entries s
      = (Ok v, s') ->
    exists new,
      history s' = new ++ history s /\
      map commandDirectory (filter isPublishCommand (rev new)) =
        map (fun entry => RushConfigurationProject.projectFolder (snd entry))
            (filter (fun entry => qualifies this (snd entry)) entries) /\
      filter isAddTag (rev new) =
        map (tagOfEntry this) (filter (fun entry => qualifies this (snd entry)) entries).
Proof.
  induction entries as [| entry rest IH]; intros Hsub updated s v s'; simpl.
  - intros [= <- <-]. exists []. repeat split; auto.
  - unfold bind.
    destruct (publishAllEntry world this rushConfiguration updated entry s)
      as [[v1 | e1] s1] eqn:Hentry; [| discriminate].
    intros Hrest.
    pose proof (publishAllEntry_forced updated entry s v1 s1
                  (Hsub entry (or_introl eq_refl)) Hentry) as Hfirst.
    destruct (IH (fun x Hx => Hsub x (or_intror Hx)) v1 s1 v s' Hrest)
      as (new & Hh & Hdirs & Htags).
    destruct (qualifies this (snd entry)) eqn:Hqualifies.
    + exists (new ++ [tagOfEntry this entry;
                      publishCommand world this rushConfiguration s
                        (RushConfigurationProject.projectFolder (snd entry))]).
      rewrite Hh, Hfirst, <- app_assoc. split; [reflexivity |].
      rewrite rev_app_distr. simpl.
      rewrite Hdirs, Htags. split; reflexivity.
    + exists new. rewrite Hh, Hfirst. split; [reflexivity |]. split; assumption.
Qed.

End ForcedPublishAll.

(** X12.  In publish-all mode with the force flag and without [--pack], a
    run of [_publishAll] that returns has published exactly the qualifying
    descriptors, once each and in the order of the map, each in its project
    folder, and has followed each publish command by the tag call for that
    package at its current version. *)
Theorem forced_publish_all_publishes_every_qualifying_descriptor
    (world : World) (this : Parameters) (rushConfiguration : RushConfiguration.t)
    (s s' : State) :
  uniqueKeys (RushConfiguration.projectsByName rushConfiguration) = true ->
  _pack this = false ->
  _force this = true ->
  _publishAll world this rushConfiguration
    (RushConfiguration.projectsByName rushConfiguration) s = (Ok tt, s') ->
  exists new,
    history s' = new ++ history s /\
    map commandDirectory (filter isPublishCommand (rev new)) =
      map (fun entry => RushConfigurationProject.projectFolder (snd entry))
          (filter (fun entry => qualifies this (snd entry))
                  (RushConfiguration.projectsByName rushConfiguration)) /\
    filter isAddTag (rev new) =
      map (tagOfEntry this)
          (filter (fun entry => qualifies this (snd entry))
                  (RushConfiguration.projectsByName rushConfiguration)).
Proof.
  intros Hkeys Hpack Hforce. unfold _publishAll, bind. simpl.
  set (line := ConsoleLog _).
  destruct (forEachWith _ false _ (record line s)) as [[updated | e] s1] eqn:Hloop;
    [| discriminate].
  destruct (publishAll_loop_forced world this rushConfiguration Hkeys Hpack Hforce
              _ (fun entry H => H) false (record line s) updated s1 Hloop)
    as (new & Hh & Hdirs & Htags).
  destruct updated.
  - rewrite call_cases. destruct (throws world _ _); [discriminate |].
    intros [= <-]. exists (GitPush (_targetBranch this) :: new ++ [line]).
    split; [simpl; rewrite Hh, <- app_assoc; reflexivity |].
    simpl. rewrite rev_app_distr. simpl.
    rewrite !filter_app. simpl. rewrite !app_nil_r. split; assumption.
  - intros [= <-]. exists (new ++ [line]).
    split; [rewrite Hh, <- app_assoc; reflexivity |].
    rewrite rev_app_distr. simpl. split; assumption.
Qed.

Lemma forced_publish_all_publishes_every_qualifying_descriptor_witness :
  exists new,
    history (snd (_publishAll (Demo.world [] false) Samples.forceAll Demo.repository
                    (RushConfiguration.projectsByName Demo.repository) initialState))
      = new ++ history initialState /\
    map commandDirectory (filter isPublishCommand (rev new)) = ["/repo/a"; "/repo/b"] /\
    filter isAddTag (rev new) =
      [GitAddTag true "a" (Some "1.1.0"); GitAddTag true "b" (Some "1.0.0")].
Proof.
  apply (forced_publish_all_publishes_every_qualifying_descriptor
           (Demo.world [] false) Samples.forceAll Demo.repository initialState);
    reflexivity.
Defined.

(** ** Publish changes and the force flag *)

Section ChangesQueriedFirst.

Variable world : World.
Variable this : Parameters.
Variable rushConfiguration : RushConfiguration.t.
Hypothesis changesMode : _includeAll this = false.

Lemma allQueriedFirst_record (e : Event) (s : State) :
  isPublishCommand e = false ->
  allQueriedFirst world this rushConfiguration s ->
  allQueriedFirst world this rushConfiguration (record e s).
Proof.
  intros He Hs. split; [| exact Hs].
  intros Hp. simpl in Hp. congruence.
Qed.

Ltac asked :=
  intros;
  repeat match goal with
         | H : _ /\ _ |- _ => destruct H
         end;
  try (apply allQueriedFirst_record; [reflexivity | ]); auto.

Lemma publishChange_queriedFirst (change : IChangeInfo.t) :
  triple (allQueriedFirst world this rushConfiguration)
    (publishChange world this rushConfiguration
       (RushConfiguration.projectsByName rushConfiguration) change)
    (fun _ => allQueriedFirst world this rushConfiguration)
    (fun _ => allQueriedFirst world this rushConfiguration).
Proof.
  unfold publishChange.
  destruct (aboveDependency change); [| apply triple_ret; auto].
  destruct (Map_get _ (IChangeInfo.packageName change)) as [project |] eqn:Hget;
    [| apply triple_console_log; asked].
  intros s Hs. unfold bind. rewrite _packageExists_cases.
  set (query := registryQuery world this (history s) project).
  assert (Hq : allQueriedFirst world this rushConfiguration (record query s))
    by (apply allQueriedFirst_record; auto).
  destruct (throws world (history s) query); [exact Hq |].
  destruct (answerHasVersion query project) eqn:Hlisted; cbn [negb].
  - simpl. apply allQueriedFirst_record; auto.
  - rewrite _npmPublish_cases, Hget.
    destruct (RushConfigurationProject.shouldPublish project) eqn:Hpublishable;
      [| exact Hq].
    rewrite call_cases.
    assert (Hc : allQueriedFirst world this rushConfiguration
                   (record (publishCommand world this rushConfiguration (record query s)
                              (RushConfigurationProject.projectFolder project))
                           (record query s))).
    { split; [| exact Hq]. intros _.
      exists (IChangeInfo.packageName change), project.
      split; [apply Map_get_In; exact Hget |].
      split; [reflexivity |]. split; [exact Hpublishable |].
      exists (history s). split; [reflexivity | exact Hlisted]. }
    destruct (throws world _ _); exact Hc.
Qed.

Lemma run_queriedFirst :
  triple (allQueriedFirst world this rushConfiguration) (run world this rushConfiguration)
         (fun _ => allQueriedFirst world this rushConfiguration)
         (fun _ => allQueriedFirst world this rushConfiguration).
Proof.
  unfold run, _validate, _publishChanges, _gitAddTags, addTagForChange,
    VersionControl_hasUncommittedChanges.
  rewrite changesMode.
  keep_auto
    ltac:(first [ apply publishChange_queriedFirst
                | apply detectHotfix_keeps; asked ])
    asked.
Qed.

End ChangesQueriedFirst.

(** X13.  In publish-changes mode the force flag does not bypass the
    registry: whatever its value, every publish command of a run comes right
    after the registry query for its descriptor, and the answer to that query
    does not contain the descriptor's version.  (The flag only adds
    [--force] to the command.) *)
Theorem publish_changes_asks_the_registry_even_when_forced
    (world : World) (this : Parameters) (rushConfiguration : RushConfiguration.t)
    (before after : list Event) (e : Event) :
  _includeAll this = false ->
  trace (snd (run world this rushConfiguration initialState)) = before ++ e :: after ->
  isPublishCommand e = true ->
  exists key project earlier,
    In (key, project) (RushConfiguration.projectsByName rushConfiguration) /\
    commandDirectory e = RushConfigurationProject.projectFolder project /\
    RushConfigurationProject.shouldPublish project = true /\
    before = earlier ++ [registryQuery world this (rev earlier) project] /\
    ~ In (IPackageJson.version (RushConfigurationProject.packageJson project))
         (publishedVersions world (rev earlier)
            (RushConfigurationProject.packageName project)
            (RushConfigurationProject.projectFolder project)
            (registryEnv world this)).
Proof.
  intros Hmode Htrace Hpublish.
  pose proof (run_queriedFirst world this rushConfiguration Hmode initialState I) as Hall.
  destruct (run world this rushConfiguration initialState) as [r s'].
  assert (Hs' : allQueriedFirst world this rushConfiguration s')
    by (destruct r; exact Hall).
  simpl in Htrace.
  destruct (eachWithPast_trace _ _ _ _ _ Hs' Htrace Hpublish)
    as (key & project & Hin & Hdir & Hpublishable & h & Hpast & Hnone).
  exists key, project, (rev h). rewrite rev_involutive.
  repeat (split; [assumption |]). split.
  - rewrite <- (rev_involutive before), Hpast. reflexivity.
  - now apply answerHasVersion_false.
Qed.

(** [rush publish --apply --publish --force] on the ledger of the small
    repository: the publish of [a] follows the query that does not list
    1.1.0. *)
Lemma publish_changes_asks_the_registry_even_when_forced_witness :
  let calls := trace (snd (run (Demo.world Demo.ledger true) Samples.forceChanges
                               Demo.repository initialState)) in
  exists key project earlier,
    In (key, project) (RushConfiguration.projectsByName Demo.repository) /\
    commandDirectory (nth 11 calls RegenerateChangelogs)
      = RushConfigurationProject.projectFolder project /\
    RushConfigurationProject.shouldPublish project = true /\
    firstn 11 calls
      = earlier ++ [registryQuery (Demo.world Demo.ledger true) Samples.forceChanges
                      (rev earlier) project] /\
    ~ In (IPackageJson.version (RushConfigurationProject.packageJson project))
         (publishedVersions (Demo.world Demo.ledger true) (rev earlier)
            (RushConfigurationProject.packageName project)
            (RushConfigurationProject.projectFolder project)
            (registryEnv (Demo.world Demo.ledger true) Samples.forceChanges)).
Proof.
  intros calls.
  apply (publish_changes_asks_the_registry_even_when_forced
           (Demo.world Demo.ledger true) Samples.forceChanges Demo.repository
           (firstn 11 calls) (skipn 12 calls) (nth 11 calls RegenerateChangelogs)).
  - reflexivity.
  - vm_compute. reflexivity.
  - vm_compute. reflexivity.
Defined.

(** ** Publish commands without a hotfix *)

Lemma detectHotfix_without_hotfix (orderedChanges : list IChangeInfo.t) (s : State) :
  existsb isHotfix orderedChanges = false -> detectHotfix orderedChanges s = (Ok tt, s).
Proof.
  induction orderedChanges as [| change rest IH]; simpl; [reflexivity |].
  destruct (isHotfix change); [discriminate | exact IH].
Qed.

Section NoHotfix.

Variable world : World.
Variable this : Parameters.
Variable rushConfiguration : RushConfiguration.t.

Lemma neverOverridden_record e s :
  isPublishCommand e = false -> neverOverridden this s -> neverOverridden this (record e s).
Proof.
  intros He [Hall Hnone]. split; [| exact Hnone].
  constructor; [| exact Hall]. intros Hp. congruence.
Qed.

Ltac plain :=
  intros;
  repeat match goal with
         | H : _ /\ _hotfixTagOverride _ = _ |- _ => destruct H
         | H : neverOverridden _ _ /\ _ |- _ => destruct H
         end;
  first [ assumption
        | apply neverOverridden_record; [reflexivity | assumption]
        | match goal with
          | H : neverOverridden this ?s |- neverOverridden this _ =>
              destruct H as [? ?]; split; assumption
          end
        | (* the publish command *)
          match goal with
          | H : neverOverridden this ?s, Hv : _hotfixTagOverride ?s = ?v |- _ =>
              let Hcalls := fresh "Hcalls" in
              let Hunset := fresh "Hunset" in
              destruct H as [Hcalls Hunset]; rewrite Hunset in Hv; subst v;
              split; [| exact Hunset];
              constructor; [| exact Hcalls];
              intros _; reflexivity
          end ].

Ltac read_override :=
  idtac;
  lazymatch goal with
  | |- triple _ (bind get_hotfixTagOverride _) _ _ =>
      apply triple_get_hotfixTagOverride_bind; intros ?
  end.

Lemma _publishAll_neverOverridden allPackages :
  triple (neverOverridden this) (_publishAll world this rushConfiguration allPackages)
         (fun _ => neverOverridden this) (fun _ => neverOverridden this).
Proof.
  autounfold with action. keep_auto read_override plain.
Qed.

Lemma _publishChanges_neverOverridden allPackages :
  existsb isHotfix (changes world) = false ->
  triple (neverOverridden this) (_publishChanges world this rushConfiguration allPackages)
         (fun _ => neverOverridden this) (fun _ => neverOverridden this).
Proof.
  intros Hnone. autounfold with action.
  keep_auto
    ltac:(first [ read_override
                | lazymatch goal with
                  | |- triple _ (detectHotfix _) _ _ =>
                      intros s Hs; rewrite (detectHotfix_without_hotfix _ s Hnone);
                      exact Hs
                  end ])
    plain.
Qed.

Lemma run_neverOverridden :
  _includeAll this = true \/ existsb isHotfix (changes world) = false ->
  triple (neverOverridden this) (run world this rushConfiguration)
         (fun _ => neverOverridden this) (fun _ => neverOverridden this).
Proof.
  intros Hwhy. unfold run, _validate.
  destruct (_includeAll this).
  - keep_auto ltac:(apply _publishAll_neverOverridden) plain.
  - destruct Hwhy as [Hall | Hnone]; [discriminate |].
    keep_auto ltac:(apply _publishChanges_neverOverridden; exact Hnone) plain.
Qed.

End NoHotfix.

(** X14.  The hotfix tag is only ever used in publish-changes mode with a
    hotfix record in the change list.  In publish-all mode, and in
    publish-changes mode when no record is a hotfix, every publish command
    has the arguments [publish], the auth-token argument if a token is
    given, [--tag] with the tag parameter only if one is given, and
    [--force] if the force flag is set. *)
Theorem publish_arguments_without_hotfix
    (world : World) (this : Parameters) (rushConfiguration : RushConfiguration.t)
    (e : Event) :
  _includeAll this = true \/ existsb isHotfix (changes world) = false ->
  In e (trace (snd (run world this rushConfiguration initialState))) ->
  isPublishCommand e = true ->
  commandArgs e =
    ["publish"] ++ authTokenArgs this
    ++ match truthyValue (_npmTag this) with
       | Some tag => ["--tag"; tag]
       | None => []
       end
    ++ forceArgs this.
Proof.
  intros Hwhy Hin Hpublish.
  pose proof (run_neverOverridden world this rushConfiguration Hwhy initialState) as Hrun.
  assert (Hstart : neverOverridden this initialState) by (split; [constructor | reflexivity]).
  specialize (Hrun Hstart).
  destruct (run world this rushConfiguration initialState) as [r s'].
  assert (Hall : neverOverridden this s') by (destruct r; exact Hrun).
  destruct Hall as [Hall _]. rewrite Forall_forall in Hall.
  apply (Hall e); [| exact Hpublish].
  apply in_rev. exact Hin.
Qed.

(** Publish-all with a hotfix of [a] in the ledger: no [--tag hotfix]. *)
Lemma publish_arguments_without_hotfix_witness :
  commandArgs (ExecCommand true "/bin/npm" ["publish"] "/repo/a" [("PATH", "/bin")]) =
    ["publish"] ++ authTokenArgs Demo.publishAllMode
    ++ match truthyValue (_npmTag Demo.publishAllMode) with
       | Some tag => ["--tag"; tag]
       | None => []
       end
    ++ forceArgs Demo.publishAllMode.
Proof.
  apply (publish_arguments_without_hotfix
           (Demo.world [Demo.change "a" ChangeType.hotfix "1.1.0"] true)
           Demo.publishAllMode Demo.repository).
  - left. reflexivity.
  - vm_compute. tauto.
  - reflexivity.
Defined.

(** ** The declaration files *)

Section ApiFiles.

Variable world : World.
Variable this : Parameters.
Variable rushConfiguration : RushConfiguration.t.

Lemma run_emits_copies :
  emits (fun e =>
           isCopy e = true ->
           _pack this = true /\ _includeAll this = true /\
           (_releaseType this = Some "public" \/ _releaseType this = Some "beta"))
        (fun _ => True) (run world this rushConfiguration).
Proof.
  emits_auto
    ltac:(simpl; auto; try (intros; discriminate);
          intros _;
          repeat match goal with
                 | H : truthyValue (if strictEq ?a ?b then _ else _) = Some _ |- _ =>
                     destruct (strictEq a b) eqn:?
                 | H : strictEq _ _ = true |- _ => apply strictEq_eq in H
                 | H : truthyValue None = Some _ |- _ => discriminate H
                 end;
          auto).
Qed.

Hypothesis quiet : forall h e, throws world h e = false.

Lemma copy_loop fromPath toPath (fileNames : list string) (s : State) :
  forEach (fun fileName =>
             call world (FileSystemCopyFile (path_join world [fromPath; fileName])
                                            (path_join world [toPath; fileName])) ;;
             console_log ("Copied file " ++ fileName ++ " from " ++ fromPath
                          ++ " to " ++ toPath)%string) fileNames s
  = (Ok tt,
     {| history := rev (flat_map (copyCalls world fromPath toPath) fileNames) ++ history s;
        _hotfixTagOverride := _hotfixTagOverride s;
        _prereleaseToken := _prereleaseToken s |}).
Proof.
  revert s. induction fileNames as [| fileName rest IH]; intros s.
  - destruct s. reflexivity.
  - cbn [forEach]. unfold bind at 1. unfold bind at 1.
    rewrite (call_quiet world quiet). cbn [console_log].
    rewrite IH. cbn [flat_map copyCalls rev app history record
                     _hotfixTagOverride _prereleaseToken].
    rewrite <- !app_assoc. reflexivity.
Qed.

End ApiFiles.

(** X15.  Declaration files are only ever copied when packing with the
    release type [public] or [beta]: a copy in a run means that [--pack] and
    [--include-all] are set and the release type is one of the two. *)
Theorem declaration_files_copied_only_when_packing_public_or_beta
    (world : World) (this : Parameters) (rushConfiguration : RushConfiguration.t)
    (e : Event) :
  In e (trace (snd (run world this rushConfiguration initialState))) ->
  isCopy e = true ->
  _pack this = true /\ _includeAll this = true /\
  (_releaseType this = Some "public" \/ _releaseType this = Some "beta").
Proof.
  intros Hin Hcopy.
  pose proof (proj1 (emits_initial _ _ _
                       (run_emits_copies world this rushConfiguration))) as Hall.
  rewrite Forall_forall in Hall. exact (Hall e Hin Hcopy).
Qed.

Lemma declaration_files_copied_only_when_packing_public_or_beta_witness :
  _pack ApiSamples.dryBetaPack = true /\ _includeAll ApiSamples.dryBetaPack = true /\
  (_releaseType ApiSamples.dryBetaPack = Some "public" \/
   _releaseType ApiSamples.dryBetaPack = Some "beta").
Proof.
  apply (declaration_files_copied_only_when_packing_public_or_beta
           ApiSamples.world ApiSamples.dryBetaPack Demo.repository
           (FileSystemCopyFile "/repo/a/./dist/beta/index.d.ts" "/repo/a/./dist/index.d.ts")).
  - vm_compute. tauto.
  - reflexivity.
Defined.

Lemma truthyValue_kept (v : option string) (folder : string) :
  truthyValue v = Some folder -> truthyValue (Some folder) = Some folder.
Proof.
  unfold truthyValue. destruct v as [s |]; [| discriminate].
  destruct (s =? EmptyString) eqn:Hs; [discriminate |].
  intros [= <-]. now rewrite Hs.
Qed.

Lemma apiSourceFolder_truthy (this : Parameters) (config : ApiConfig.t) :
  truthyValue (Some (apiSourceFolder this config)) = Some (apiSourceFolder this config).
Proof.
  unfold apiSourceFolder.
  destruct (strictEq (_releaseType this) (Some "public")).
  - destruct (truthyValue (ApiConfig.publishFolderForPublic config)) eqn:H;
      [exact (truthyValue_kept _ _ H) | reflexivity].
  - destruct (truthyValue (ApiConfig.publishFolderForBeta config)) eqn:H;
      [exact (truthyValue_kept _ _ H) | reflexivity].
Qed.

(** X16.  When the release type is [public] or [beta], the project has a
    configuration file that turns on the rollup and its trimming, and source
    and target folder exist, [_updateAPIFile] copies every file of the source
    folder into the target folder under its own name, in the order the folder
    lists them, and prints a line after each copy; the source folder is the
    one the configuration names for the release type (by default
    [./dist/public] or [./dist/beta]), the target the internal one (by default
    [./dist]).  It does so whether or not the publish flag is set. *)
Theorem declaration_files_are_copied_one_by_one
    (world : World) (this : Parameters) (packageName : string) (project : RushConfigurationProject.t)
    (config : ApiConfig.t) (fileNames : list string) (s : State) :
  (forall h e, throws world h e = false) ->
  _releaseType this = Some "public" \/ _releaseType this = Some "beta" ->
  (forall h path, fileExists world h path = true) ->
  (forall h path, loadApiConfig world h path = config) ->
  ApiConfig.generateDtsRollup config = true ->
  ApiConfig.dtsRollupTrimming config = true ->
  (forall h path, readFolder world h path = fileNames) ->
  let outcome := _updateAPIFile world this packageName project s in
  fst outcome = Ok tt /\
  trace (snd outcome) = trace s ++ apiFileCalls world this project config fileNames.
Proof.
  intros Hquiet Hkind Hexists Hconfig Hrollup Htrimming Hfiles outcome. subst outcome.
  pose proof (apiSourceFolder_truthy this config) as Hsource.
  assert (Hrun : _updateAPIFile world this packageName project s =
                   (Ok tt,
                    {| history :=
                         rev (apiFileCalls world this project config fileNames)
                         ++ history s;
                       _hotfixTagOverride := _hotfixTagOverride s;
                       _prereleaseToken := _prereleaseToken s |})).
  { unfold _updateAPIFile, FileSystem_exists, JsonFile_load, FileSystem_readFolder,
      withHistory.
    unfold bind at 1. unfold bind at 1. rewrite (call_quiet world Hquiet).
    cbn [ret]. rewrite Hexists.
    unfold bind at 1. unfold bind at 1. rewrite (call_quiet world Hquiet).
    cbn [ret]. rewrite Hconfig, Hrollup, Htrimming. cbn [andb].
    assert (Hfolder :
              (if strictEq (_releaseType this) (Some "public")
               then Some match truthyValue (ApiConfig.publishFolderForPublic config) with
                         | Some folder => folder
                         | None => "./dist/public"
                         end
               else if strictEq (_releaseType this) (Some "beta")
                    then Some match truthyValue (ApiConfig.publishFolderForBeta config) with
                              | Some folder => folder
                              | None => "./dist/beta"
                              end
                    else None)
              = Some (apiSourceFolder this config)).
    { unfold apiSourceFolder. destruct Hkind as [-> | ->]; reflexivity. }
    cbv zeta. rewrite Hfolder, Hsource.
    unfold bind at 1. unfold bind at 1. rewrite (call_quiet world Hquiet).
    cbn [ret]. rewrite Hexists.
    unfold bind at 1. unfold bind at 1. rewrite (call_quiet world Hquiet).
    cbn [ret]. rewrite Hexists.
    unfold bind at 1. unfold bind at 1. rewrite (call_quiet world Hquiet).
    cbn [ret]. rewrite Hfiles.
    fold (apiTargetFolder config).
    rewrite (copy_loop world Hquiet).
    cbn [history record _hotfixTagOverride _prereleaseToken].
    unfold apiFileCalls. cbv zeta. rewrite rev_app_distr. cbn [rev app].
    rewrite <- !app_assoc. reflexivity. }
  rewrite Hrun. cbn [fst snd]. split; [reflexivity |].
  unfold trace. cbn [history]. rewrite rev_app_distr, rev_involutive. reflexivity.
Qed.

(** A dry run of packing [a] for beta copies the two declaration files. *)
Lemma declaration_files_are_copied_one_by_one_witness :
  fst (_updateAPIFile ApiSamples.world ApiSamples.dryBetaPack "a"
         (snd (Demo.project "a" "1.1.0" true)) initialState) = Ok tt /\
  trace (snd (_updateAPIFile ApiSamples.world ApiSamples.dryBetaPack "a"
                (snd (Demo.project "a" "1.1.0" true)) initialState))
  = trace initialState
    ++ apiFileCalls ApiSamples.world ApiSamples.dryBetaPack
         (snd (Demo.project "a" "1.1.0" true)) ApiSamples.trimming
         ["index.d.ts"; "types.d.ts"].
Proof.
  apply (declaration_files_are_copied_one_by_one
           ApiSamples.world ApiSamples.dryBetaPack "a"
           (snd (Demo.project "a" "1.1.0" true)) ApiSamples.trimming
           ["index.d.ts"; "types.d.ts"] initialState);
    try reflexivity.
  right. reflexivity.
Defined.

(** ** The tarballs *)

Section Tarballs.

Variable world : World.
Variable this : Parameters.
Variable rushConfiguration : RushConfiguration.t.

Lemma allMovedAfterPack_record (e : Event) (s : State) :
  movedAfterPack world this rushConfiguration (history s) e ->
  allMovedAfterPack world this rushConfiguration s ->
  allMovedAfterPack world this rushConfiguration (record e s).
Proof. intros He Hs. split; assumption. Qed.

Ltac unmoved :=
  intros;
  first [ assumption
        | apply allMovedAfterPack_record; [exact I | assumption] ].

Lemma _npmPack_movedAfterPack packageName project :
  triple (allMovedAfterPack world this rushConfiguration)
         (_npmPack world this rushConfiguration packageName project)
         (fun _ => allMovedAfterPack world this rushConfiguration)
         (fun _ => allMovedAfterPack world this rushConfiguration).
Proof.
  unfold _npmPack.
  apply triple_keep_bind; [autounfold with action; keep_auto fail unmoved |].
  intros ?. intros s Hs. unfold bind. rewrite call_cases.
  assert (Hpacked : allMovedAfterPack world this rushConfiguration
                      (record (ExecCommand (_publish this)
                                 (RushConfiguration.packageManagerToolFilename
                                    rushConfiguration)
                                 ["pack"] (RushConfigurationProject.projectFolder project)
                                 (getEnvArgs world)) s))
    by (apply allMovedAfterPack_record; [exact I | exact Hs]).
  destruct (throws world (history s) _); [exact Hpacked |].
  destruct (_publish this) eqn:Hpublish; [| exact Hpacked].
  rewrite call_cases.
  assert (Hmoved : allMovedAfterPack world this rushConfiguration
                     (record (FileSystemMove
                                (path_join world
                                   [RushConfigurationProject.projectFolder project;
                                    _calculateTarballName project])
                                (path_join world
                                   [releaseFolderOf world this rushConfiguration;
                                    _calculateTarballName project]) true)
                             (record (ExecCommand true
                                        (RushConfiguration.packageManagerToolFilename
                                           rushConfiguration)
                                        ["pack"]
                                        (RushConfigurationProject.projectFolder project)
                                        (getEnvArgs world)) s))).
  { apply allMovedAfterPack_record; [| exact Hpacked].
    exists project, (history s). repeat split. }
  unfold releaseFolderOf in Hmoved.
  destruct (throws world _ _); exact Hmoved.
Qed.

Lemma run_movedAfterPack :
  triple (allMovedAfterPack world this rushConfiguration) (run world this rushConfiguration)
         (fun _ => allMovedAfterPack world this rushConfiguration)
         (fun _ => allMovedAfterPack world this rushConfiguration).
Proof.
  unfold run, _validate, _publishAll, publishAllEntry, _publishChanges, publishChange,
    _gitAddTags, addTagForChange, _npmPublish, _packageExists, Npm_publishedVersions,
    VersionControl_hasUncommittedChanges.
  keep_auto
    ltac:(first [ apply _npmPack_movedAfterPack
                | apply detectHotfix_keeps; unmoved ])
    unmoved.
Qed.

End Tarballs.

(** X17.  A tarball is only moved right after it was packed: every move in a
    run directly follows the pack command of a project, run in the project's
    folder and told to execute; it takes the tarball named after that project
    from the project's folder to the same name in the release folder (the
    one given, else [artifacts/packages] under the common temporary folder),
    overwriting what is there. *)
Theorem tarball_moved_right_after_pack
    (world : World) (this : Parameters) (rushConfiguration : RushConfiguration.t)
    (before after : list Event) (sourcePath destinationPath : string) (overwrite : bool) :
  trace (snd (run world this rushConfiguration initialState))
    = before ++ FileSystemMove sourcePath destinationPath overwrite :: after ->
  exists project earlier,
    before = earlier ++ [ExecCommand true
                           (RushConfiguration.packageManagerToolFilename rushConfiguration)
                           ["pack"] (RushConfigurationProject.projectFolder project)
                           (getEnvArgs world)] /\
    sourcePath = path_join world [RushConfigurationProject.projectFolder project;
                                  _calculateTarballName project] /\
    destinationPath = path_join world [releaseFolderOf world this rushConfiguration;
                                       _calculateTarballName project] /\
    overwrite = true.
Proof.
  intros Htrace.
  pose proof (run_movedAfterPack world this rushConfiguration initialState I) as Hall.
  destruct (run world this rushConfiguration initialState) as [r s'].
  assert (Hs' : allMovedAfterPack world this rushConfiguration s')
    by (destruct r; exact Hall).
  simpl in Htrace.
  destruct (eachWithPast_trace _ _ _ _ _ Hs' Htrace)
    as (project & h & Hpast & Hsource & Hdestination & Hoverwrite).
  exists project, (rev h). repeat split; try assumption.
  rewrite <- (rev_involutive before), Hpast. reflexivity.
Qed.

(** Packing the small repository: the tarball of [a] is moved after its
    pack command. *)
Lemma tarball_moved_right_after_pack_witness :
  exists project earlier,
    [ValidatePolicy false;
     ConsoleLog "Rush publish starts with includeAll and version policy undefined";
     ExecCommand true "/bin/npm" ["pack"] "/repo/a" [("PATH", "/bin")]]
    = earlier ++ [ExecCommand true
                    (RushConfiguration.packageManagerToolFilename Demo.repository)
                    ["pack"] (RushConfigurationProject.projectFolder project)
                    (getEnvArgs (Demo.world [] false))] /\
    "/repo/a/a-1.1.0.tgz"
      = path_join (Demo.world [] false)
          [RushConfigurationProject.projectFolder project; _calculateTarballName project] /\
    "/repo/common/temp/artifacts/packages/a-1.1.0.tgz"
      = path_join (Demo.world [] false)
          [releaseFolderOf (Demo.world [] false) Samples.packAll Demo.repository;
           _calculateTarballName project] /\
    true = true.
Proof.
  refine (tarball_moved_right_after_pack
            (Demo.world [] false) Samples.packAll Demo.repository
            _ (skipn 4 (trace (snd (run (Demo.world [] false) Samples.packAll
                                       Demo.repository initialState))))
            _ _ _ _).
  vm_compute. reflexivity.
Defined.

(** ** Publish all: one descriptor *)

(** X18.  In publish-all mode without [--pack] and without the force flag,
    the callback asks the registry about a qualifying descriptor first.  If
    the answer lists the descriptor's version, it prints the "Not updated"
    line and leaves the local variable [updated] as it was, so that a run in
    which every package is skipped pushes nothing.  Otherwise it issues the
    publish command in the project folder, then makes the tag call for the
    package at its current version, and sets [updated]. *)
Theorem publish_all_skips_published_versions
    (world : World) (this : Parameters) (rushConfiguration : RushConfiguration.t)
    (updated : bool) (packageName : string) (packageConfig : RushConfigurationProject.t)
    (s : State) :
  uniqueKeys (RushConfiguration.projectsByName rushConfiguration) = true ->
  In (packageName, packageConfig) (RushConfiguration.projectsByName rushConfiguration) ->
  qualifies this packageConfig = true ->
  _pack this = false ->
  _force this = false ->
  let query := registryQuery world this (history s) packageConfig in
  let command :=
    publishCommand world this rushConfiguration s
      (RushConfigurationProject.projectFolder packageConfig) in
  let tag := tagOfEntry this (packageName, packageConfig) in
  let outcome :=
    publishAllEntry world this rushConfiguration updated (packageName, packageConfig) s in
  throws world (history s) query = false ->
  if answerHasVersion query packageConfig then
    outcome =
      (Ok updated,
       record (ConsoleLog ("Skip " ++ packageName ++ ". Not updated.")%string)
              (record query s))
  else
    throws world (query :: history s) command = false ->
    throws world (command :: query :: history s) tag = false ->
    outcome = (Ok true, record tag (record command (record query s))).
Proof.
  intros Hkeys Hin Hqualifies Hpack Hforce query command tag outcome Hquery.
  subst outcome command tag. unfold publishAllEntry.
  rewrite Hqualifies, Hpack, Hforce.
  assert (Hpublishable : RushConfigurationProject.shouldPublish packageConfig = true).
  { unfold qualifies in Hqualifies. now apply andb_prop in Hqualifies. }
  unfold bind, ret. rewrite _packageExists_cases. fold query. rewrite Hquery.
  destruct (answerHasVersion query packageConfig); cbn [negb].
  - reflexivity.
  - unfold tagOfEntry, publishCommand. cbn [fst snd]. intros Hcommand Htag.
    rewrite _npmPublish_cases, (Map_get_unique _ _ _ Hkeys Hin), Hpublishable.
    rewrite call_cases. unfold publishCommand.
    cbn [history record _hotfixTagOverride]. rewrite Hcommand.
    rewrite call_cases. cbn [history record]. rewrite Htag. reflexivity.
Qed.

(** Publish-all on the small repository: [b] at 1.0.0 is in the registry. *)
Lemma publish_all_skips_published_versions_witness :
  publishAllEntry (Demo.world [] false) Demo.publishAllMode Demo.repository false
    (Demo.project "b" "1.0.0" true) initialState
  = (Ok false,
     record (ConsoleLog "Skip b. Not updated.")
            (record (registryQuery (Demo.world [] false) Demo.publishAllMode []
                       (snd (Demo.project "b" "1.0.0" true))) initialState)).
Proof.
  exact (publish_all_skips_published_versions
           (Demo.world [] false) Demo.publishAllMode Demo.repository false
           "b" (snd (Demo.project "b" "1.0.0" true)) initialState
           eq_refl (or_intror (or_introl eq_refl)) eq_refl eq_refl eq_refl eq_refl).
Defined.
